(** * A shallow embedding of the web-scraping pipeline

    The development follows the Python sources [scraper.py], [database.py]
    and [config.py].  Everything outside the interpreter (the HTTP session,
    the HTML parser, the SQL engine, the file system, [float()] and [int()])
    is collected in a [World] of oracles; the program itself is written in a
    state-and-exception monad over an explicit [state] that records every
    request, every sleep, the logger output, the database tables and the
    files written.

    Conventions of the model:
    - an external call may raise an exception of any class; a handler
      catches what its [except] clause names, so [except SQLAlchemyError]
      lets a [TypeError] through while [except Exception] does not;
      exceptions outside [Exception] (a keyboard interrupt) are left out;
    - a database statement runs in its own connection and is committed
      or rolled back as a whole;
    - the clock is advanced by [time.sleep] only, and a sleep is recorded
      together with the place in the source it stands at;
    - Python floats are binary64 values; what [float()], [round()] and the
      printing of a float do is left to the world. *)

From Stdlib Require Import ZArith String Ascii List PrimFloat Uint63.
From stdpp Require Import base option list gmap strings pretty.

Local Open Scope Z_scope.

(** ** Python strings

    [str] values are modelled as byte strings; only ASCII white space is
    recognised by [strip] and [split]. *)

Module PyStr.

Definition is_space (c : ascii) : bool :=
  let n := nat_of_ascii c in
  (Nat.leb 9 n && Nat.leb n 13) || (Nat.leb 28 n && Nat.leb n 32).

Fixpoint lstrip (s : string) : string :=
  match s with
  | String c s' => if is_space c then lstrip s' else s
  | EmptyString => EmptyString
  end.

Definition rev (s : string) : string :=
  string_of_list_ascii (List.rev (list_ascii_of_string s)).

Definition rstrip (s : string) : string := rev (lstrip (rev s)).

(** [s.strip()] *)
Definition strip (s : string) : string := rstrip (lstrip s).

(** [s.split()]: the maximal runs of non-blank characters. *)
Fixpoint split_ws_go (cur : option string) (s : string) : list string :=
  match s with
  | EmptyString => match cur with Some t => [rev t] | None => [] end
  | String c s' =>
      if is_space c
      then match cur with
           | Some t => rev t :: split_ws_go None s'
           | None => split_ws_go None s'
           end
      else split_ws_go (Some (String c (default EmptyString cur))) s'
  end.

Definition split_ws (s : string) : list string := split_ws_go None s.

(** [s.split(c)] for a one-character separator: always at least one
    piece. *)
Fixpoint split_go (sep : ascii) (cur : string) (s : string) : list string :=
  match s with
  | EmptyString => [rev cur]
  | String c s' =>
      if Ascii.eqb c sep then rev cur :: split_go sep EmptyString s'
      else split_go sep (String c cur) s'
  end.

Definition split (sep : ascii) (s : string) : list string :=
  split_go sep EmptyString s.

(** [c in s] *)
Fixpoint contains (c : ascii) (s : string) : bool :=
  match s with
  | EmptyString => false
  | String d s' => Ascii.eqb c d || contains c s'
  end.

(** [s.replace(old, new)] for a non-empty [old]: left to right, without
    overlaps.  [skip] counts the characters of a match still to be
    dropped. *)
Fixpoint replace_go (old new : string) (skip : nat) (s : string) : string :=
  match s with
  | EmptyString => EmptyString
  | String c s' =>
      match skip with
      | S k => replace_go old new k s'
      | O =>
          if String.prefix old s
          then new +:+ replace_go old new (Nat.pred (String.length old)) s'
          else String c (replace_go old new O s')
      end
  end.

(** For the empty pattern Python puts [new] before every character and
    at the end. *)
Fixpoint intersperse (new : string) (s : string) : string :=
  match s with
  | EmptyString => new
  | String c s' => new +:+ String c (intersperse new s')
  end.

Definition replace (old new s : string) : string :=
  match old with
  | EmptyString => intersperse new s
  | _ => replace_go old new O s
  end.

(** [l[-k]] for [1 <= k <= len(l)] *)
Definition from_end {A} (l : list A) (k : nat) : option A :=
  List.rev l !! Nat.pred k.

(** The two bytes of the pound sign in UTF-8. *)
Definition pound : string :=
  String (ascii_of_nat 194) (String (ascii_of_nat 163) EmptyString).

End PyStr.

(** ** Parsed documents

    What [BeautifulSoup(html, 'html.parser')] returns: a tree of tags and
    text.  Attributes form a dictionary; the [class] attribute is kept as
    written and split into its tokens on access, as the parser does. *)

#[local] Set Warnings "-register-all".
Inductive node :=
| NText (text : string)
| NTag (name : string) (attrs : gmap string string) (children : list node).

Module Soup.

(** All nodes below [n], in document order. *)
Fixpoint descendants (n : node) : list node :=
  match n with
  | NText _ => []
  | NTag _ _ cs =>
      (fix go (l : list node) : list node :=
         match l with
         | [] => []
         | c :: l' => c :: descendants c ++ go l'
         end) cs
  end.

(** [tag.text]: the text nodes below the tag, concatenated. *)
Definition text (n : node) : string :=
  match n with
  | NText t => t
  | NTag _ _ _ =>
      foldr (λ d acc, match d with NText t => t +:+ acc | NTag _ _ _ => acc end)
            EmptyString (descendants n)
  end.

Definition attr (k : string) (n : node) : option string :=
  match n with
  | NText _ => None
  | NTag _ a _ => a !! k
  end.

(** [tag['class']] is a list of tokens. *)
Definition classes (n : node) : option (list string) :=
  PyStr.split_ws <$> attr "class" n.

Definition is_tag (nm : string) (n : node) : bool :=
  match n with
  | NText _ => false
  | NTag nm' _ _ => String.eqb nm nm'
  end.

(** [class_=c]: some token is [c], or the tokens joined by single
    spaces are [c]. *)
Definition has_class (c : string) (n : node) : bool :=
  match classes n with
  | None => false
  | Some toks =>
      existsb (String.eqb c) toks || String.eqb c (String.concat " " toks)
  end.

(** [attrs={k: v}] *)
Definition attr_is (k v : string) (n : node) : bool :=
  match attr k n with
  | Some v' => String.eqb v v'
  | None => false
  end.

(** [attrs={k: True}] *)
Definition has_attr (k : string) (n : node) : bool :=
  match attr k n with Some _ => true | None => false end.

(** [tag.find_all(nm, ...)] and [tag.find(nm, ...)] with one more
    condition [p] on the tag. *)
Definition find_all (nm : string) (p : node → bool) (n : node) : list node :=
  List.filter (λ d, is_tag nm d && p d) (descendants n).

Definition find (nm : string) (p : node → bool) (n : node) : option node :=
  head (find_all nm p n).

Definition any : node → bool := λ _, true.

End Soup.

(** ** Values, records and exceptions *)

(** The scalar values that end up in records, table rows and statistics. *)
Inductive pyval :=
| VNone
| VStr (s : string)
| VInt (z : Z)
| VFloat (f : float)
| VTime (t : Z)           (* a [datetime], in seconds *)
| VSeconds (d : Z).       (* [timedelta.total_seconds()] *)

(** A dict with a fixed set of keys, in insertion order. *)
Definition record : Type := list (string * pyval).

Fixpoint field (k : string) (r : record) : option pyval :=
  match r with
  | [] => None
  | (k', v) :: r' => if String.eqb k k' then Some v else field k r'
  end.

(** The exception classes the program raises or handles.  All of them
    derive from [Exception]. *)
Inductive exn_class :=
| RequestException | SQLAlchemyError | ValueError | AttributeError
| TypeError | KeyError | IndexError | OSError | RuntimeError.

Record exn := Exn { exn_cls : exn_class; exn_str : string }.

Definition is_class (c : exn_class) (e : exn) : bool :=
  match c, exn_cls e with
  | RequestException, RequestException | SQLAlchemyError, SQLAlchemyError
  | ValueError, ValueError | AttributeError, AttributeError
  | TypeError, TypeError | KeyError, KeyError | IndexError, IndexError
  | OSError, OSError | RuntimeError, RuntimeError => true
  | _, _ => false
  end.

(** [except Exception] and a bare [except] *)
Definition any_exception (e : exn) : bool := true.

Inductive result (A : Type) :=
| Ret (a : A)
| Raise (e : exn).
Arguments Ret {A} a.
Arguments Raise {A} e.

Definition raises {A} (r : result A) : bool :=
  match r with Ret _ => false | Raise _ => true end.

(** ** Configuration ([config.py]) *)

Record Config := {
  user_agent : string;
  timeout : Z;
  max_retries : Z;
  delay_between_requests : Z;
  books_urls : list string;
  products_urls : list string;
}.

Definition default_config : Config := {|
  user_agent := "Mozilla/5.0 (Windows NT 10.0; Win64; x64) AppleWebKit/537.36 (KHTML, like Gecko) Chrome/120.0.0.0 Safari/537.36";
  timeout := 10;
  max_retries := 3;
  delay_between_requests := 1;
  books_urls := ["https://pdfdrive.com.co/"; "https://pdfdrive.com.co/"];
  products_urls := ["https://webscraper.io/test-sites/e-commerce/allinone"];
|}.

(** ** The world and the observable state *)

(** Where a [time.sleep] stands in the source. *)
Inductive sleep_site := Backoff | Politeness | JobPause.

Inductive event :=
| EvGet (url : string)
| EvSleep (site : sleep_site) (secs : Z).

Inductive level := DEBUG | INFO | WARNING | ERROR.

Record log_line := Log { log_level : level; log_msg : string }.

Record dataframe := { df_columns : list string; df_rows : list (list pyval) }.

Inductive file :=
| FCsv (df : dataframe)
| FText (lines : list string).

Record database := {
  tbl_books : list record;
  tbl_products : list record;
  tbl_logs : list record;
}.

Record state := {
  st_events : list event;       (* requests and sleeps, oldest first *)
  st_requests : nat;            (* requests issued so far *)
  st_clock : Z;                 (* advanced by sleeping *)
  st_logger : list log_line;    (* what the logger emitted *)
  st_db : database;
  st_statements : nat;          (* database statements issued so far *)
  st_files : gmap string file;
  st_writes : nat;              (* files opened for writing so far *)
  st_stdout : list (list string);
}.

(** The environment.  A request, a statement or a write is identified by
    its position in the run, so an oracle can answer every one of them
    differently. *)
Record World := {
  (* [session.get(url, timeout=...)] followed by [raise_for_status()] *)
  http_get : string → nat → result string;
  (* [BeautifulSoup(html, 'html.parser')] *)
  parse_html : string → node;
  (* [float(s)] and [int(s)]; [None] stands for [ValueError] *)
  py_float : string → option float;
  py_int : string → option Z;
  (* a statement on a table raises, or is executed and committed *)
  db_fault : string → nat → option exn;
  (* opening or writing a file raises, or the file is written *)
  fs_fault : string → nat → option exn;
  (* [round(x, 2)], [str(x)] of a float, and the rendering of a time *)
  py_round2 : float → float;
  float_str : float → string;
  time_str : Z → string;
}.

Definition init_db : database :=
  {| tbl_books := []; tbl_products := []; tbl_logs := [] |}.

Definition init_state : state := {|
  st_events := []; st_requests := 0; st_clock := 0; st_logger := [];
  st_db := init_db; st_statements := 0; st_files := ∅; st_writes := 0;
  st_stdout := [];
|}.

(** ** The monad: state and exceptions *)

Definition M (A : Type) : Type := state → result A * state.

Definition ret {A} (a : A) : M A := λ s, (Ret a, s).

Definition bind {A B} (m : M A) (k : A → M B) : M B :=
  λ s, match m s with
       | (Ret a, s') => k a s'
       | (Raise e, s') => (Raise e, s')
       end.

Definition raise {A} (e : exn) : M A := λ s, (Raise e, s).

(** [try: m  except <handles> as e: h e].  The handler runs outside the
    protected block. *)
Definition try_except {A} (m : M A) (handles : exn → bool) (h : exn → M A) : M A :=
  λ s, match m s with
       | (Raise e, s') => if handles e then h e s' else (Raise e, s')
       | (Ret a, s') => (Ret a, s')
       end.

(** A pure computation that may raise. *)
Definition lift {A} (r : result A) : M A := λ s, (r, s).

Notation "'do' x <- m ; k" := (bind m (λ x, k))
  (at level 10, x name, m at level 100, k at level 200).

(** [for x in xs: acc = body x acc] *)
Fixpoint for_each {A S} (xs : list A) (body : A → S → M S) (acc : S) : M S :=
  match xs with
  | [] => ret acc
  | x :: xs' => do acc' <- body x acc; for_each xs' body acc'
  end.

(** The same in the pure fragment. *)
Definition rbind {A B} (r : result A) (k : A → result B) : result B :=
  match r with
  | Ret a => k a
  | Raise e => Raise e
  end.

#[global] Instance result_ret : MRet result := λ A a, Ret a.
#[global] Instance result_bind : MBind result := λ A B k r, rbind r k.
#[global] Instance result_fmap : FMap result := λ A B f r, rbind r (λ a, Ret (f a)).

(** [range(n)] *)
Definition range (n : Z) : list Z := Z.of_nat <$> seq 0 (Z.to_nat n).

(** ** State updates *)

Definition set_events (f : list event → list event) (s : state) : state :=
  {| st_events := f (st_events s); st_requests := st_requests s;
     st_clock := st_clock s; st_logger := st_logger s; st_db := st_db s;
     st_statements := st_statements s; st_files := st_files s;
     st_writes := st_writes s; st_stdout := st_stdout s |}.

Definition set_requests (f : nat → nat) (s : state) : state :=
  {| st_events := st_events s; st_requests := f (st_requests s);
     st_clock := st_clock s; st_logger := st_logger s; st_db := st_db s;
     st_statements := st_statements s; st_files := st_files s;
     st_writes := st_writes s; st_stdout := st_stdout s |}.

Definition set_clock (f : Z → Z) (s : state) : state :=
  {| st_events := st_events s; st_requests := st_requests s;
     st_clock := f (st_clock s); st_logger := st_logger s; st_db := st_db s;
     st_statements := st_statements s; st_files := st_files s;
     st_writes := st_writes s; st_stdout := st_stdout s |}.

Definition set_logger (f : list log_line → list log_line) (s : state) : state :=
  {| st_events := st_events s; st_requests := st_requests s;
     st_clock := st_clock s; st_logger := f (st_logger s); st_db := st_db s;
     st_statements := st_statements s; st_files := st_files s;
     st_writes := st_writes s; st_stdout := st_stdout s |}.

Definition set_db (f : database → database) (s : state) : state :=
  {| st_events := st_events s; st_requests := st_requests s;
     st_clock := st_clock s; st_logger := st_logger s; st_db := f (st_db s);
     st_statements := st_statements s; st_files := st_files s;
     st_writes := st_writes s; st_stdout := st_stdout s |}.

Definition set_statements (f : nat → nat) (s : state) : state :=
  {| st_events := st_events s; st_requests := st_requests s;
     st_clock := st_clock s; st_logger := st_logger s; st_db := st_db s;
     st_statements := f (st_statements s); st_files := st_files s;
     st_writes := st_writes s; st_stdout := st_stdout s |}.

Definition set_files (f : gmap string file → gmap string file) (s : state) : state :=
  {| st_events := st_events s; st_requests := st_requests s;
     st_clock := st_clock s; st_logger := st_logger s; st_db := st_db s;
     st_statements := st_statements s; st_files := f (st_files s);
     st_writes := st_writes s; st_stdout := st_stdout s |}.

Definition set_writes (f : nat → nat) (s : state) : state :=
  {| st_events := st_events s; st_requests := st_requests s;
     st_clock := st_clock s; st_logger := st_logger s; st_db := st_db s;
     st_statements := st_statements s; st_files := st_files s;
     st_writes := f (st_writes s); st_stdout := st_stdout s |}.

Definition set_stdout (f : list (list string) → list (list string)) (s : state) : state :=
  {| st_events := st_events s; st_requests := st_requests s;
     st_clock := st_clock s; st_logger := st_logger s; st_db := st_db s;
     st_statements := st_statements s; st_files := st_files s;
     st_writes := st_writes s; st_stdout := f (st_stdout s) |}.

(** ** Primitive effects *)

Section Pipeline.

Context (cfg : Config) (w : World).

(** [logging.basicConfig(level=logging.INFO)]: records below [INFO] are
    not emitted. *)
Definition level_enabled (l : level) : bool :=
  match l with DEBUG => false | _ => true end.

Definition log (l : level) (msg : string) : M unit :=
  λ s, (Ret (), if level_enabled l
                then set_logger (λ ls, ls ++ [Log l msg]) s else s).

(** [time.sleep(secs)] *)
Definition sleep (site : sleep_site) (secs : Z) : M unit :=
  λ s, if secs <? 0
       then (Raise (Exn ValueError "sleep length must be non-negative"), s)
       else (Ret (), set_clock (λ t, t + secs)
                       (set_events (λ es, es ++ [EvSleep site secs]) s)).

(** [datetime.now()] *)
Definition now : M Z := λ s, (Ret (st_clock s), s).

(** [response = self.session.get(url, timeout=...)],
    [response.raise_for_status()], [response.text] *)
Definition session_get (url : string) : M string :=
  λ s, (http_get w url (st_requests s),
        set_requests S (set_events (λ es, es ++ [EvGet url]) s)).

(** One statement in its own connection, committed at the end of the
    [with] block: either it raises and leaves the tables alone, or its
    effect [f] is applied. *)
Definition db_execute (table : string) (f : database → result database) : M unit :=
  λ s, let s' := set_statements S s in
       match db_fault w table (st_statements s) with
       | Some e => (Raise e, s')
       | None =>
           match f (st_db s) with
           | Ret db' => (Ret (), set_db (λ _, db') s')
           | Raise e => (Raise e, s')
           end
       end.

(** [open(path, 'w')] and the write *)
Definition write_file (path : string) (content : file) : M unit :=
  λ s, let s' := set_writes S s in
       match fs_fault w path (st_writes s) with
       | Some e => (Raise e, s')
       | None => (Ret (), set_files (λ fs, <[path := content]> fs) s')
       end.

(** [print(text)] *)
Definition print (text : list string) : M unit :=
  λ s, (Ret (), set_stdout (λ o, o ++ [text]) s).

Definition str_of_Z (z : Z) : string := pretty z.

(** ** [WebScraper.fetch_page] *)

(** The iterations of [for attempt in range(max_retries)] that are still
    to run. *)
Fixpoint fetch_attempts (url : string) (attempts : list Z) : M (option string) :=
  match attempts with
  | [] => ret None
  | attempt :: rest =>
      try_except
        (do text <- session_get url;
         do _ <- log INFO ("Successfully fetched " +:+ url);
         ret (Some text))
        (is_class RequestException)
        (λ e,
           do _ <- log WARNING ("Attempt " +:+ str_of_Z (attempt + 1)
                                +:+ " failed for " +:+ url +:+ ": " +:+ exn_str e);
           if attempt <? max_retries cfg - 1
           then do _ <- sleep Backoff (2 ^ attempt);
                fetch_attempts url rest
           else do _ <- log ERROR ("Failed to fetch " +:+ url +:+ " after "
                                   +:+ str_of_Z (max_retries cfg) +:+ " attempts");
                ret None)
  end.

Definition fetch_page (url : string) : M (option string) :=
  fetch_attempts url (range (max_retries cfg)).

(** ** Item extraction *)

(** [tag.nm] where [tag] may be [None] *)
Definition child (tag : option node) (nm : string) : result (option node) :=
  match tag with
  | Some t => Ret (Soup.find nm Soup.any t)
  | None =>
      Raise (Exn AttributeError
               ("'NoneType' object has no attribute '" +:+ nm +:+ "'"))
  end.

(** [tag.text] where [tag] may be [None] *)
Definition text_of (tag : option node) : result string :=
  match tag with
  | Some t => Ret (Soup.text t)
  | None =>
      Raise (Exn AttributeError "'NoneType' object has no attribute 'text'")
  end.

(** [tag[k]] where [tag] may be [None] *)
Definition subscript (tag : option node) (k : string) : result string :=
  match tag with
  | Some t =>
      match Soup.attr k t with
      | Some v => Ret v
      | None => Raise (Exn KeyError ("'" +:+ k +:+ "'"))
      end
  | None => Raise (Exn TypeError "'NoneType' object is not subscriptable")
  end.

(** [tag['class']] where [tag] may be [None] *)
Definition subscript_class (tag : option node) : result (list string) :=
  match tag with
  | Some t =>
      match Soup.classes t with
      | Some toks => Ret toks
      | None => Raise (Exn KeyError "'class'")
      end
  | None => Raise (Exn TypeError "'NoneType' object is not subscriptable")
  end.

(** [l[i]] for [i >= 0] *)
Definition index {A} (l : list A) (i : nat) : result A :=
  match l !! i with
  | Some x => Ret x
  | None => Raise (Exn IndexError "list index out of range")
  end.

Definition to_float (s : string) : result float :=
  match py_float w s with
  | Some f => Ret f
  | None => Raise (Exn ValueError ("could not convert string to float: '" +:+ s +:+ "'"))
  end.

Definition to_int (s : string) : result Z :=
  match py_int w s with
  | Some z => Ret z
  | None =>
      Raise (Exn ValueError ("invalid literal for int() with base 10: '" +:+ s +:+ "'"))
  end.

(** [str(v)] *)
Definition py_str (v : pyval) : string :=
  match v with
  | VNone => "None"
  | VStr s => s
  | VInt z => str_of_Z z
  | VFloat f => float_str w f
  | VTime t => time_str w t
  | VSeconds d => str_of_Z d
  end.

(** [not html_content] *)
Definition falsy (content : option string) : bool :=
  match content with
  | None => true
  | Some t => String.eqb t ""
  end.

(** ** [WebScraper._get_book_description] *)

Definition _get_book_description (book_path : string) : M string :=
  try_except
    (let url := "http://books.toscrape.com/catalogue/"
                +:+ PyStr.replace "../../../" "" book_path in
     do html <- fetch_page url;
     if falsy html then ret ""
     else
       let soup := parse_html w (default "" html) in
       match Soup.find "meta" (Soup.attr_is "name" "description") soup with
       | Some description => lift (subscript (Some description) "content")
       | None => ret ""
       end)
    any_exception
    (λ _, ret "").

(** ** [WebScraper.scrape_books] *)

(** [url.split('/')[-2] if len(url.split('/')) >= 2 else 'unknown'] *)
Definition book_category (url : string) : string :=
  let parts := PyStr.split "/"%char url in
  if Nat.leb 2 (length parts)
  then default "unknown" (PyStr.from_end parts 2)
  else "unknown".

(** The entries of the [book_data] literal before ['description'], in
    the order Python evaluates them, and the [href] the description is
    looked up with. *)
Definition book_fields (url : string) (book : node) : result (record * string) :=
  title ← (a ← child (Soup.find "h3" Soup.any book) "a"; subscript a "title");
  price ← (t ← text_of (Soup.find "p" (Soup.has_class "price_color") book);
           to_float (PyStr.replace PyStr.pound "" t));
  rating ← (cls ← subscript_class (Soup.find "p" Soup.any book); index cls 1);
  availability ← (t ← text_of (Soup.find "p" (Soup.has_class "instock availability") book);
                  mret (PyStr.strip t));
  href ← (a ← child (Soup.find "h3" Soup.any book) "a"; subscript a "href");
  mret ([("title", VStr title); ("price", VFloat price); ("rating", VStr rating);
         ("availability", VStr availability);
         ("category", VStr (book_category url));
         ("url", VStr ("http://books.toscrape.com/catalogue/" +:+ href))],
        href).

Definition scrape_book (url : string) (book : node) : M record :=
  do fields <- lift (book_fields url book);
  do description <- _get_book_description fields.2;
  ret (fields.1 ++ [("description", VStr description)]).

(** The body of [for book in books]. *)
Definition parse_book (url : string) (book : node) (all_books : list record)
  : M (list record) :=
  try_except
    (do book_data <- scrape_book url book;
     do _ <- log DEBUG ("Scraped book: "
                        +:+ py_str (default VNone (field "title" book_data)));
     ret (all_books ++ [book_data]))
    any_exception
    (λ e, do _ <- log ERROR ("Error parsing book: " +:+ exn_str e);
          ret all_books).

Definition extract_books (url : string) (soup : node) (all_books : list record)
  : M (list record) :=
  for_each (Soup.find_all "article" (Soup.has_class "product_pod") soup)
           (parse_book url) all_books.

(** The body of [for url in urls]. *)
Definition scrape_books_url (url : string) (all_books : list record)
  : M (list record) :=
  do _ <- log INFO ("Scraping books from: " +:+ url);
  do html_content <- fetch_page url;
  if falsy html_content then ret all_books
  else
    do all_books' <- extract_books url (parse_html w (default "" html_content)) all_books;
    do _ <- sleep Politeness (delay_between_requests cfg);
    ret all_books'.

Definition scrape_books (urls : list string) : M (list record) :=
  for_each urls scrape_books_url [].

(** ** [WebScraper.scrape_products] *)

(** [url.split('/')[-1] if '/' in url else 'all'] *)
Definition _extract_category (url : string) : string :=
  if PyStr.contains "/"%char url
  then default "unknown" (PyStr.from_end (PyStr.split "/"%char url) 1)
  else "all".

Definition scrape_product (url : string) (product : node) : result record :=
  let name_elem := Soup.find "a" (Soup.has_class "title") product in
  let name := match name_elem with
              | Some e => PyStr.strip (Soup.text e)
              | None => "N/A"
              end in
  let price_elem := Soup.find "h4" (Soup.has_class "price") product in
  price ← match price_elem with
          | Some e => to_float (PyStr.replace "$" "" (Soup.text e))
          | None => mret 0%float
          end;
  let desc_elem := Soup.find "p" (Soup.has_class "description") product in
  let description := match desc_elem with
                     | Some e => PyStr.strip (Soup.text e)
                     | None => ""
                     end in
  let rating_elem := Soup.find "p" (Soup.has_attr "data-rating") product in
  rating ← match rating_elem with
           | Some e => v ← subscript (Some e) "data-rating"; to_float v
           | None => mret 0%float
           end;
  let reviews_elem := Soup.find "p" (Soup.has_class "review-count") product in
  reviews ← match reviews_elem with
            | Some e => tok ← index (PyStr.split_ws (Soup.text e)) 0; to_int tok
            | None => mret 0
            end;
  link ← match name_elem with
         | Some e => h ← subscript (Some e) "href"; mret ("https://webscraper.io" +:+ h)
         | None => mret url
         end;
  mret [("name", VStr name); ("price", VFloat price);
        ("description", VStr description); ("rating", VFloat rating);
        ("reviews", VInt reviews); ("category", VStr (_extract_category url));
        ("url", VStr link)].

(** The body of [for product in products]. *)
Definition parse_product (url : string) (product : node) (all_products : list record)
  : M (list record) :=
  try_except
    (do product_data <- lift (scrape_product url product);
     do _ <- log DEBUG ("Scraped product: "
                        +:+ py_str (default VNone (field "name" product_data)));
     ret (all_products ++ [product_data]))
    any_exception
    (λ e, do _ <- log ERROR ("Error parsing product: " +:+ exn_str e);
          ret all_products).

Definition extract_products (url : string) (soup : node) (all_products : list record)
  : M (list record) :=
  for_each (Soup.find_all "div" (Soup.has_class "thumbnail") soup)
           (parse_product url) all_products.

(** The body of [for url in urls]. *)
Definition scrape_products_url (url : string) (all_products : list record)
  : M (list record) :=
  do _ <- log INFO ("Scraping products from: " +:+ url);
  do html_content <- fetch_page url;
  if falsy html_content then ret all_products
  else
    do all_products' <- extract_products url (parse_html w (default "" html_content))
                                         all_products;
    do _ <- sleep Politeness (delay_between_requests cfg);
    ret all_products'.

Definition scrape_products (urls : list string) : M (list record) :=
  for_each urls scrape_products_url [].

(** ** The store ([database.py]) *)

Definition books_columns : list string :=
  ["id"; "title"; "price"; "rating"; "availability"; "category"; "url";
   "scraped_at"; "description"].

Definition products_columns : list string :=
  ["id"; "name"; "price"; "description"; "rating"; "reviews"; "category";
   "url"; "scraped_at"].

Definition logs_columns : list string :=
  ["id"; "target"; "status"; "records_scraped"; "error_message";
   "start_time"; "end_time"; "duration_seconds"].

(** What a column gets when the inserted dict has no such key: the next
    key for [id], [datetime.now] where the table declares it as the
    default, [NULL] otherwise. *)
Definition column_default (id clock : Z) (column : string) : pyval :=
  if String.eqb column "id" then VInt id
  else if String.eqb column "scraped_at" || String.eqb column "end_time"
       then VTime clock
       else VNone.

Definition make_row (columns : list string) (id clock : Z) (r : record) : record :=
  (λ c, (c, default (column_default id clock c) (field c r))) <$> columns.

(** The keys of a dict, in order. *)
Definition keys (r : record) : list string := r.*1.

Definition has_key (r : record) (k : string) : bool :=
  match field k r with Some _ => true | None => false end.

(** The parameters a dict gives to a statement that was compiled for
    the keys [ks]: what it holds under other keys is not looked at. *)
Definition bound (ks : list string) (r : record) : record :=
  List.filter (λ kv : string * pyval, existsb (String.eqb kv.1) ks) r.

(** [conn.execute(table.insert(), data)] for a list of dicts.  The
    statement is compiled once, from the keys of the first dict: a key
    of it that is no column of the table is refused ([CompileError]).
    Every dict then has to give a value for each of these keys
    ([StatementError] otherwise, raised before any row is written);
    what a later dict holds under other keys is ignored.  Both errors
    are of the engine's own class.  The rows get consecutive keys.
    The program never passes an empty list: [_save_data] returns
    before, and [log_scraping_run] passes one dict. *)
Definition insert_rows (columns : list string) (clock : Z) (data : list record)
    (rows : list record) : result (list record) :=
  match data with
  | [] => Ret rows
  | first :: _ =>
      let ks := keys first in
      if negb (forallb (λ k, existsb (String.eqb k) columns) ks)
      then Raise (Exn SQLAlchemyError "Unconsumed column names")
      else if negb (forallb (λ r : record, forallb (has_key r) ks) data)
      then Raise (Exn SQLAlchemyError "A value is required for bind parameter")
      else Ret (rows ++ imap (λ i r, make_row columns (Z.of_nat (length rows + i) + 1)
                                              clock (bound ks r))
                             data)
  end.

Definition with_books (db : database) (rows : list record) : database :=
  {| tbl_books := rows; tbl_products := tbl_products db; tbl_logs := tbl_logs db |}.

Definition with_products (db : database) (rows : list record) : database :=
  {| tbl_books := tbl_books db; tbl_products := rows; tbl_logs := tbl_logs db |}.

Definition with_logs (db : database) (rows : list record) : database :=
  {| tbl_books := tbl_books db; tbl_products := tbl_products db; tbl_logs := rows |}.

(** [DatabaseManager._save_data] *)
Definition _save_data (data : list record) (table_name : string) : M Z :=
  match data with
  | [] => ret 0
  | _ =>
      try_except
        (do t <- now;
         do _ <- db_execute table_name
                   (λ db,
                      if String.eqb table_name "books"
                      then with_books db <$> insert_rows books_columns t data (tbl_books db)
                      else if String.eqb table_name "products"
                      then with_products db
                             <$> insert_rows products_columns t data (tbl_products db)
                      else Ret db);
         do _ <- log INFO ("Successfully saved " +:+ str_of_Z (Z.of_nat (length data))
                           +:+ " records to " +:+ table_name +:+ " table");
         ret (Z.of_nat (length data)))
        (is_class SQLAlchemyError)
        (λ e, do _ <- log ERROR ("Error saving to " +:+ table_name +:+ ": " +:+ exn_str e);
              ret 0)
  end.

Definition save_books (books_data : list record) : M Z :=
  _save_data books_data "books".

Definition save_products (products_data : list record) : M Z :=
  _save_data products_data "products".

Definition opt_val {A} (f : A → pyval) (o : option A) : pyval :=
  match o with Some a => f a | None => VNone end.

(** The [log_entry] dict of [log_scraping_run]. *)
Definition log_entry (target status : string) (records_scraped : Z)
    (error_message : option string) (start_time : option Z) (duration : pyval)
  : record :=
  [("target", VStr target); ("status", VStr status);
   ("records_scraped", VInt records_scraped);
   ("error_message", opt_val VStr error_message);
   ("start_time", opt_val VTime start_time);
   ("duration_seconds", duration)].

(** [DatabaseManager.log_scraping_run] *)
Definition log_scraping_run (target status : string) (records_scraped : Z)
    (error_message : option string) (start_time : option Z) : M unit :=
  do duration <- match start_time with
                 | Some t0 => do t <- now; ret (VSeconds (t - t0))
                 | None => ret VNone
                 end;
  let entry := log_entry target status records_scraped error_message start_time
                         duration in
  try_except
    (do t <- now;
     do _ <- db_execute "scraping_logs"
               (λ db, with_logs db <$> insert_rows logs_columns t [entry] (tbl_logs db));
     log INFO ("Logged scraping run for " +:+ target +:+ ": " +:+ status))
    (is_class SQLAlchemyError)
    (λ e, log ERROR ("Error logging scraping run: " +:+ exn_str e)).

(** The columns and rows [SELECT * FROM table_name] sees. *)
Definition select_all (table_name : string) (db : database)
  : result (list string * list record) :=
  if String.eqb table_name "books" then Ret (books_columns, tbl_books db)
  else if String.eqb table_name "products" then Ret (products_columns, tbl_products db)
  else if String.eqb table_name "scraping_logs" then Ret (logs_columns, tbl_logs db)
  else Raise (Exn SQLAlchemyError ("no such table: " +:+ table_name)).

(** A query: it raises, or it reads the tables. *)
Definition db_query {A} (table : string) (q : database → result A) : M A :=
  λ s, let s' := set_statements S s in
       match db_fault w table (st_statements s) with
       | Some e => (Raise e, s')
       | None => (q (st_db s), s')
       end.

Definition row_values (columns : list string) (r : record) : list pyval :=
  (λ c, default VNone (field c r)) <$> columns.

(** [pd.read_sql_query(f"SELECT * FROM {table_name}", self.engine)] *)
Definition read_sql_query (table_name : string) : M dataframe :=
  db_query table_name
    (λ db, t ← select_all table_name db;
           mret {| df_columns := t.1; df_rows := row_values t.1 <$> t.2 |}).

(** [DatabaseManager.export_to_csv] *)
Definition export_to_csv (table_name : string) (filename : option string)
  : M (option string) :=
  try_except
    (do df <- read_sql_query table_name;
     let filename := default ("output/" +:+ table_name +:+ ".csv") filename in
     do _ <- write_file filename (FCsv df);
     do _ <- log INFO ("Exported " +:+ str_of_Z (Z.of_nat (length (df_rows df)))
                       +:+ " records from " +:+ table_name +:+ " to " +:+ filename);
     ret (Some filename))
    any_exception
    (λ e, do _ <- log ERROR ("Error exporting " +:+ table_name +:+ " to CSV: "
                             +:+ exn_str e);
          ret None).

(** [MAX(column)] over time stamps; [NULL] on no rows. *)
Definition max_time (column : string) (rows : list record) : pyval :=
  foldr (λ r acc,
           match field column r, acc with
           | Some (VTime t), VTime u => VTime (Z.max t u)
           | Some (VTime t), _ => VTime t
           | _, _ => acc
           end) VNone rows.

Definition is_success (r : record) : bool :=
  match field "status" r with
  | Some (VStr st) => String.eqb st "success"
  | _ => false
  end.

Definition float_of_Z (z : Z) : float := PrimFloat.of_uint63 (Uint63.of_Z z).

(** [DatabaseManager.get_scraping_stats] *)
Definition get_scraping_stats : M (gmap string pyval) :=
  try_except
    (do total_books <- db_query "books" (λ db, Ret (Z.of_nat (length (tbl_books db))));
     do total_products <- db_query "products"
                            (λ db, Ret (Z.of_nat (length (tbl_products db))));
     do last_book_scrape <- db_query "books"
                              (λ db, Ret (max_time "scraped_at" (tbl_books db)));
     do last_product_scrape <- db_query "products"
                                 (λ db, Ret (max_time "scraped_at" (tbl_products db)));
     do counts <- db_query "scraping_logs"
                    (λ db, Ret (Z.of_nat (length (List.filter is_success (tbl_logs db))),
                                Z.of_nat (length (tbl_logs db))));
     let success_rate :=
       if 0 <? counts.2
       then VFloat (py_round2 w (PrimFloat.mul
                                   (PrimFloat.div (float_of_Z counts.1) (float_of_Z counts.2))
                                   (float_of_Z 100)))
       else VInt 0 in
     ret (<["total_books" := VInt total_books]>
          (<["total_products" := VInt total_products]>
           (<["last_book_scrape" := last_book_scrape]>
            (<["last_product_scrape" := last_product_scrape]>
             (<["success_rate" := success_rate]> ∅))))))
    any_exception
    (λ e, do _ <- log ERROR ("Error getting stats: " +:+ exn_str e);
          ret ∅).

(** ** Flat files written by the scraper *)

(** [pd.DataFrame(data)]: the keys in order of first appearance. *)
Definition frame_columns (data : list record) : list string :=
  foldl (λ cols r,
           foldl (λ cols kv, if existsb (String.eqb kv.1) cols then cols
                             else cols ++ [kv.1]) cols r)
        [] data.

Definition DataFrame (data : list record) : dataframe :=
  let cols := frame_columns data in
  {| df_columns := cols; df_rows := row_values cols <$> data |}.

(** [WebScraper.save_to_csv] *)
Definition save_to_csv (data : list record) (filename : string) : M unit :=
  match data with
  | [] => log WARNING ("No data to save to " +:+ filename)
  | _ =>
      try_except
        (do _ <- write_file ("output/" +:+ filename) (FCsv (DataFrame data));
         log INFO ("Saved " +:+ str_of_Z (Z.of_nat (length data))
                   +:+ " records to output/" +:+ filename))
        any_exception
        (λ e, log ERROR ("Error saving to CSV: " +:+ exn_str e))
  end.

(** ** [WebScraper.run_scraping_job] *)

(** The [if target == 'books': ... elif ...: ... else: raise] block: it
    yields [records_saved]. *)
Definition scrape_and_store (target : string) : M Z :=
  if String.eqb target "books" then
    do books_data <- scrape_books (books_urls cfg);
    do records_saved <- save_books books_data;
    do _ <- save_to_csv books_data "books.csv";
    do _ <- export_to_csv "books" (Some "output/books_latest.csv");
    ret records_saved
  else if String.eqb target "products" then
    do products_data <- scrape_products (products_urls cfg);
    do records_saved <- save_products products_data;
    do _ <- save_to_csv products_data "products.csv";
    do _ <- export_to_csv "products" (Some "output/products_latest.csv");
    ret records_saved
  else raise (Exn ValueError ("Unknown target: " +:+ target)).

Definition run_scraping_job (target : string) : M bool :=
  do start_time <- now;
  try_except
    (do _ <- log INFO ("Starting scraping job for: " +:+ target);
     do records_saved <- scrape_and_store target;
     do _ <- log_scraping_run target "success" records_saved None (Some start_time);
     do _ <- log INFO ("Completed scraping job for " +:+ target +:+ ". Saved "
                       +:+ str_of_Z records_saved +:+ " records.");
     ret true)
    any_exception
    (λ e,
       do _ <- log ERROR ("Scraping job failed for " +:+ target +:+ ": " +:+ exn_str e);
       do _ <- log_scraping_run target "failed" 0 (Some (exn_str e)) (Some start_time);
       ret false).

(** ** [WebScraper.run_all_scraping_jobs] *)

Definition truthy (o : option bool) : bool := default false o.

Definition get_or (stats : gmap string pyval) (k : string) (d : pyval) : pyval :=
  default d (stats !! k).

(** The lines of the report, without their indentation. *)
Definition report_lines (clock : Z) (stats : gmap string pyval)
    (results : gmap string bool) : list string :=
  ["========================================";
   "WEB SCRAPING PIPELINE - EXECUTION REPORT";
   "========================================";
   "Generated: " +:+ time_str w clock;
   "";
   "SCRAPING RESULTS:";
   "- Books: " +:+ (if truthy (results !! "books") then "SUCCESS" else "FAILED");
   "- Products: " +:+ (if truthy (results !! "products") then "SUCCESS" else "FAILED");
   "";
   "DATABASE STATISTICS:";
   "- Total Books: " +:+ py_str (get_or stats "total_books" (VInt 0));
   "- Total Products: " +:+ py_str (get_or stats "total_products" (VInt 0));
   "- Last Book Scrape: " +:+ py_str (get_or stats "last_book_scrape" (VStr "Never"));
   "- Last Product Scrape: "
     +:+ py_str (get_or stats "last_product_scrape" (VStr "Never"));
   "- Overall Success Rate: " +:+ py_str (get_or stats "success_rate" (VInt 0)) +:+ "%";
   "";
   "OUTPUT FILES:";
   "- output/books.csv (latest scrape)";
   "- output/products.csv (latest scrape)";
   "- output/books_latest.csv (from database)";
   "- output/products_latest.csv (from database)";
   "- data.db (SQLite database)";
   "========================================"].

Definition _generate_report (stats : gmap string pyval) (results : gmap string bool)
  : M unit :=
  do t <- now;
  let report := report_lines t stats results in
  do _ <- print report;
  write_file "output/scraping_report.txt" (FText report).

(** The body of [for target in ['books', 'products']]. *)
Definition run_target (target : string) (results : gmap string bool)
  : M (gmap string bool) :=
  do ok <- run_scraping_job target;
  do _ <- sleep JobPause 2;
  ret (<[target := ok]> results).

Definition run_all_scraping_jobs : M (gmap string bool) :=
  do _ <- log INFO "Starting all scraping jobs";
  do results <- for_each ["books"; "products"] run_target ∅;
  do stats <- get_scraping_stats;
  do _ <- _generate_report stats results;
  do _ <- log INFO "All scraping jobs completed";
  ret results.

End Pipeline.

(** ** The constructors and the scheduled run ([scheduler.py])

    [WebScraper()] builds the session and the [DatabaseManager] and makes
    the output directories; [run_scheduled_scraping] is what the
    scheduler calls on every run.  The loop of [setup_scheduler] and the
    menu of [main] wait for the clock and for the keyboard and are left
    out. *)

Section Entry.

Context (cfg : Config) (w : World).

(** [os.makedirs(path, exist_ok=True)]: it raises, or the directory is
    there afterwards.  Directories are not recorded in the state, which
    keeps every file under its full path. *)
Definition makedirs (path : string) : M unit :=
  λ s, match fs_fault w path (st_writes s) with
       | Some e => (Raise e, s)
       | None => (Ret (), s)
       end.

(** [WebScraper._setup_output_dirs] *)
Definition _setup_output_dirs : M unit :=
  do _ <- makedirs "output";
  makedirs "output/json".

(** [DatabaseManager._create_tables]: [metadata.create_all] is a
    statement on the schema as a whole; the three tables of the model
    are there from the start, so it changes nothing when it goes
    through. *)
Definition _create_tables : M unit :=
  try_except
    (do _ <- db_execute w "metadata" Ret;
     log INFO "Database tables created/verified successfully")
    (is_class SQLAlchemyError)
    (λ e, log ERROR ("Error creating tables: " +:+ exn_str e)).

(** [DatabaseManager.__init__] *)
Definition DatabaseManager : M unit := _create_tables.

(** [WebScraper.__init__] *)
Definition WebScraper : M unit :=
  do _ <- DatabaseManager;
  _setup_output_dirs.

(** [s * n] *)
Fixpoint times (s : string) (n : nat) : string :=
  match n with
  | O => ""
  | S n' => s +:+ times s n'
  end.

(** [sum(1 for result in results.values() if result)] *)
Definition success_count (results : gmap string bool) : Z :=
  Z.of_nat (length (List.filter (λ kv : string * bool, kv.2) (map_to_list results))).

(** [run_scheduled_scraping] *)
Definition run_scheduled_scraping : M unit :=
  do _ <- log INFO (times "=" 50);
  do t <- now;
  do _ <- log INFO ("Starting scheduled scraping run at " +:+ py_str w (VTime t));
  do _ <- try_except
            (do _ <- WebScraper;
             do results <- run_all_scraping_jobs cfg w;
             log INFO ("Scheduled run completed. Successful jobs: "
                       +:+ str_of_Z (success_count results) +:+ "/"
                       +:+ str_of_Z (Z.of_nat (size results))))
            any_exception
            (λ e, log ERROR ("Error during scheduled scraping: " +:+ exn_str e));
  do t' <- now;
  do _ <- log INFO ("Completed scheduled scraping run at " +:+ py_str w (VTime t'));
  log INFO (times "=" 50).

(** [run_once] *)
Definition run_once : M unit :=
  do _ <- log INFO "Running one-time scraping job...";
  run_scheduled_scraping.

End Entry.

(** * The vocabulary of the statements *)

(** The [i]-th request of the run, sent to [url], fails at transport
    level: [session.get] or [raise_for_status] raises a
    [RequestException]. *)
Definition request_fails (w : World) (url : string) (i : nat) : Prop :=
  ∃ e, http_get w url i = Raise e ∧ is_class RequestException e = true.

(** What a failed attempt that is not the last leaves in the trace:
    attempt [k], counted from 1, is followed by a wait of [2^(k-1)]. *)
Definition failed_attempt (url : string) (k : nat) : list event :=
  [EvGet url; EvSleep Backoff (2 ^ (Z.of_nat k - 1))].

(** The first [m] attempts, all failed and retried. *)
Definition failed_attempts (url : string) (m : nat) : list event :=
  flat_map (failed_attempt url) (seq 1 m).

(** ** Reasoning about monadic programs *)

(** [m] leaves the observation [f] of the state alone, whatever it returns
    or raises. *)
Definition keeps {A X} (f : state → X) (m : M A) : Prop :=
  ∀ s, f (m s).2 = f s.

(** [m] never raises. *)
Definition no_raise {A} (m : M A) : Prop :=
  ∀ s, raises (m s).1 = false.

(** What the network side of the program never touches. *)
Definition store (s : state) : database * nat * gmap string file * nat :=
  (st_db s, st_statements s, st_files s, st_writes s).

(** The rows of the two data tables. *)
Definition data_rows (db : database) : nat :=
  (length (tbl_books db) + length (tbl_products db))%nat.

(** The log store accepts every statement. *)
Definition log_store_accepts (w : World) : Prop :=
  ∀ i, db_fault w "scraping_logs" i = None.

(** The log store fails, if at all, with the engine's own error class. *)
Definition log_store_fails_softly (w : World) : Prop :=
  ∀ i e, db_fault w "scraping_logs" i = Some e → is_class SQLAlchemyError e = true.

(** The row a job leaves in [scraping_logs]. *)
Definition job_row (db : database) (clock : Z) (target status : string) (n : Z)
    (msg : option string) (t0 : Z) : record :=
  make_row logs_columns (Z.of_nat (length (tbl_logs db)) + 1) clock
           (log_entry target status n msg (Some t0) (VSeconds (clock - t0))).

(** [TARGET_URLS[target]] and the scraper that goes with the target. *)
Definition target_urls (cfg : Config) (target : string) : list string :=
  if String.eqb target "books" then books_urls cfg
  else if String.eqb target "products" then products_urls cfg
  else [].

Definition scrape_target (cfg : Config) (w : World) (target : string)
  : list string → M (list record) :=
  if String.eqb target "books" then scrape_books cfg w else scrape_products cfg w.

(** The targets [run_scraping_job] knows. *)
Definition known_target (target : string) : Prop :=
  target = "books" ∨ target = "products".

Definition report_path : string := "output/scraping_report.txt".

(** The report file can be written. *)
Definition report_writable (w : World) : Prop :=
  ∀ i, fs_fault w report_path i = None.

(** The tables [get_scraping_stats] queries, in the order of the queries. *)
Definition stats_queries : list string :=
  ["books"; "products"; "books"; "products"; "scraping_logs"].

(** The rows of a data table, by its name. *)
Definition stored_rows (table : string) (db : database) : list record :=
  if String.eqb table "books" then tbl_books db
  else if String.eqb table "products" then tbl_products db
  else [].

(** The data rows of a flat file. *)
Definition csv_rows (f : file) : nat :=
  match f with
  | FCsv df => length (df_rows df)
  | FText _ => 0
  end.

(** The value of a computation that did not raise. *)
Definition parses {A} (r : result A) : option A :=
  match r with Ret a => Some a | Raise _ => None end.

(** The logger line of a dropped item. *)
Definition dropped {A} (prefix : string) (r : result A) : option log_line :=
  match r with
  | Ret _ => None
  | Raise e => Some (Log ERROR (prefix +:+ exn_str e))
  end.

(** The item blocks of the two extractors. *)
Definition book_items (soup : node) : list node :=
  Soup.find_all "article" (Soup.has_class "product_pod") soup.

Definition product_items (soup : node) : list node :=
  Soup.find_all "div" (Soup.has_class "thumbnail") soup.

(** The politeness waits in the trace so far. *)
Definition is_politeness (ev : event) : bool :=
  match ev with
  | EvSleep Politeness _ => true
  | _ => false
  end.

Definition politeness_waits (s : state) : nat :=
  length (List.filter is_politeness (st_events s)).

(** Every request for one of the URLs is answered with a page that is
    not empty. *)
Definition always_content (w : World) (urls : list string) : Prop :=
  ∀ url i, url ∈ urls → ∃ html, http_get w url i = Ret html ∧ html ≠ "".

(** The elements the product rules look for. *)
Definition name_elem (product : node) : option node :=
  Soup.find "a" (Soup.has_class "title") product.
Definition price_elem (product : node) : option node :=
  Soup.find "h4" (Soup.has_class "price") product.
Definition desc_elem (product : node) : option node :=
  Soup.find "p" (Soup.has_class "description") product.
Definition rating_elem (product : node) : option node :=
  Soup.find "p" (Soup.has_attr "data-rating") product.
Definition reviews_elem (product : node) : option node :=
  Soup.find "p" (Soup.has_class "review-count") product.

(** Every element of the product block that is there can be read: the
    numbers parse and the title link has its [href]. *)
Definition present_elements_parse (w : World) (product : node) : Prop :=
  (∀ e, price_elem product = Some e →
        is_Some (py_float w (PyStr.replace "$" "" (Soup.text e))))
  ∧ (∀ e, rating_elem product = Some e →
          ∃ v, Soup.attr "data-rating" e = Some v ∧ is_Some (py_float w v))
  ∧ (∀ e, reviews_elem product = Some e →
          ∃ tok, PyStr.split_ws (Soup.text e) !! 0%nat = Some tok ∧ is_Some (py_int w tok))
  ∧ (∀ e, name_elem product = Some e → is_Some (Soup.attr "href" e)).

(** The elements the book rules look for. *)
Definition book_element_absent (book : node) : Prop :=
  Soup.find "h3" Soup.any book = None
  ∨ Soup.find "p" (Soup.has_class "price_color") book = None
  ∨ Soup.find "p" Soup.any book = None
  ∨ Soup.find "p" (Soup.has_class "instock availability") book = None.

(** The URL of the detail page of a book. *)
Definition detail_url (book_path : string) : string :=
  "http://books.toscrape.com/catalogue/" +:+ PyStr.replace "../../../" "" book_path.

(** The [meta] tag [_get_book_description] looks for. *)
Definition description_meta (soup : node) : option node :=
  Soup.find "meta" (Soup.attr_is "name" "description") soup.

(** The keys of the [book_data] and [product_data] literals. *)
Definition book_keys : list string :=
  ["title"; "price"; "rating"; "availability"; "category"; "url"; "description"].

Definition product_keys : list string :=
  ["name"; "price"; "description"; "rating"; "reviews"; "category"; "url"].

(** The records a product page gives: one for each item block that
    parses, in page order. *)
Definition page_products (w : World) (url html : string) : list record :=
  omap (λ item, parses (scrape_product w url item)) (product_items (parse_html w html)).

(** The columns of a data table, by its name ([_define_tables]). *)
Definition table_columns (table : string) : list string :=
  if String.eqb table "books" then books_columns else products_columns.




(** The file an export of the table writes. *)
Definition table_file (columns : list string) (rows : list record) : file :=
  FCsv {| df_columns := columns; df_rows := row_values columns <$> rows |}.

(** The path [export_to_csv] writes to. *)
Definition export_path (table : string) (filename : option string) : string :=
  default ("output/" +:+ table +:+ ".csv") filename.

(** ** What a run can only add to

    [advances s s'] says that [s'] is [s] with more of everything: the
    trace, the logger and the standard output are extended at the end,
    every table has its old rows, unchanged and in place, followed by new
    ones, every file that was there is still there, and the clock and the
    counters have not gone back. *)
Record advances (s s' : state) : Prop := Advances {
  adv_events : st_events s `prefix_of` st_events s';
  adv_requests : (st_requests s ≤ st_requests s')%nat;
  adv_clock : st_clock s ≤ st_clock s';
  adv_logger : st_logger s `prefix_of` st_logger s';
  adv_books : tbl_books (st_db s) `prefix_of` tbl_books (st_db s');
  adv_products : tbl_products (st_db s) `prefix_of` tbl_products (st_db s');
  adv_logs : tbl_logs (st_db s) `prefix_of` tbl_logs (st_db s');
  adv_statements : (st_statements s ≤ st_statements s')%nat;
  adv_files : dom (st_files s) ⊆ dom (st_files s');
  adv_writes : (st_writes s ≤ st_writes s')%nat;
  adv_stdout : st_stdout s `prefix_of` st_stdout s';
}.

(** [m] only adds, whatever it returns or raises. *)
Definition grows {A} (m : M A) : Prop := ∀ s, advances s (m s).2.

(** A statement that only adds rows. *)
Definition appends (f : database → result database) : Prop :=
  ∀ db db', f db = Ret db' →
    tbl_books db `prefix_of` tbl_books db'
    ∧ tbl_products db `prefix_of` tbl_products db'
    ∧ tbl_logs db `prefix_of` tbl_logs db'.

(** What the log store and the logger never touch: the trace, the
    clock, the files and the standard output. *)
Definition outside (s : state)
  : list event * nat * Z * gmap string file * nat * list (list string) :=
  (st_events s, st_requests s, st_clock s, st_files s, st_writes s, st_stdout s).

(** The flat file and the store export of a target. *)
Definition snapshot_path (target : string) : string := "output/" +:+ target +:+ ".csv".
Definition latest_path (target : string) : string := "output/" +:+ target +:+ "_latest.csv".

(** Every statement on the log store makes the driver fail with
    something else than the engine's own error class. *)
Definition log_store_crashes (w : World) : Prop :=
  ∀ i, ∃ e, db_fault w "scraping_logs" i = Some e ∧ is_class SQLAlchemyError e = false.

(** The two ways [run_scraping_job] ends: what follows the pipeline in
    the [try] block, and the [except] branch. *)
Definition job_tail (w : World) (target : string) (start_time : Z) (records_saved : Z)
  : M bool :=
  do _ <- log_scraping_run w target "success" records_saved None (Some start_time);
  do _ <- log INFO ("Completed scraping job for " +:+ target +:+ ". Saved "
                    +:+ str_of_Z records_saved +:+ " records.");
  ret true.

Definition job_handler (w : World) (target : string) (start_time : Z) (e : exn) : M bool :=
  do _ <- log ERROR ("Scraping job failed for " +:+ target +:+ ": " +:+ exn_str e);
  do _ <- log_scraping_run w target "failed" 0 (Some (exn_str e)) (Some start_time);
  ret false.

(** None of the five queries of [get_scraping_stats], issued from the
    state [s] on, fails. *)
Definition stats_available (w : World) (s : state) : Prop :=
  ∀ k table, stats_queries !! k = Some table → db_fault w table (st_statements s + k) = None.

(** [success / total * 100] *)
Definition percentage (success total : Z) : float :=
  PrimFloat.mul (PrimFloat.div (float_of_Z success) (float_of_Z total)) (float_of_Z 100).

(** The two lines a scheduled run can end its work with. *)
Definition run_completed (successes total : Z) : log_line :=
  Log INFO ("Scheduled run completed. Successful jobs: "
            +:+ str_of_Z successes +:+ "/" +:+ str_of_Z total).

Definition run_aborted (e : exn) : log_line :=
  Log ERROR ("Error during scheduled scraping: " +:+ exn_str e).

(** The lines around a scheduled run. *)
Definition run_opening (w : World) (clock : Z) : list log_line :=
  [Log INFO (times "=" 50);
   Log INFO ("Starting scheduled scraping run at " +:+ py_str w (VTime clock))].

Definition run_closing (w : World) (clock : Z) : list log_line :=
  [Log INFO ("Completed scheduled scraping run at " +:+ py_str w (VTime clock));
   Log INFO (times "=" 50)].

(** [WebScraper()] comes through in the state [s]: creating the tables
    fails, if at all, with the engine's own error class, and the output
    directories can be made. *)
Definition setup_succeeds (w : World) (s : state) : Prop :=
  (∀ e, db_fault w "metadata" (st_statements s) = Some e → is_class SQLAlchemyError e = true)
  ∧ fs_fault w "output" (st_writes s) = None
  ∧ fs_fault w "output/json" (st_writes s) = None.

(** The state in which a scheduled run that started in [s] calls
    [run_all_scraping_jobs]: the opening lines are logged and the
    scraper is built. *)
Definition scheduled_start (w : World) (s : state) : state :=
  (WebScraper w
     (log INFO ("Starting scheduled scraping run at " +:+ py_str w (VTime (st_clock s)))
        (log INFO (times "=" 50) s).2).2).2.

(** The report file cannot be written. *)
Definition report_unwritable (w : World) (e : exn) : Prop :=
  ∀ i, fs_fault w report_path i = Some e.

(** What [time.sleep] raises for a negative length. *)
Definition negative_sleep : exn := Exn ValueError "sleep length must be non-negative".

(** ** Scenarios

    Concrete worlds and pages on which the program is run. *)

Module Scenario.

Definition unavailable : exn :=
  Exn RequestException "503 Server Error: Service Unavailable".
Definition locked : exn :=
  Exn SQLAlchemyError "(sqlite3.OperationalError) database is locked".
Definition unexpected : exn :=
  Exn RuntimeError "unexpected failure in the database driver".
Definition read_only : exn :=
  Exn OSError "[Errno 30] Read-only file system: 'output/scraping_report.txt'".

Definition document (blocks : list node) : node := NTag "[document]" ∅ blocks.

Definition tag (nm cls : string) (children : list node) : node :=
  NTag nm {[ "class" := cls ]} children.

(** Numbers as the sites print them. *)
Definition read_float (s : string) : option float :=
  if String.eqb s "12.5" then Some 12.5%float
  else if String.eqb s "3" then Some 3%float
  else if String.eqb s "51.75" then Some 51.75%float
  else None.

Definition read_int (s : string) : option Z :=
  if String.eqb s "7" then Some 7 else None.

(** Every request fails; the store and the file system work. *)
Definition offline : World := {|
  http_get := λ _ _, Raise unavailable;
  parse_html := λ _, document [];
  py_float := read_float;
  py_int := read_int;
  db_fault := λ _ _, None;
  fs_fault := λ _ _, None;
  py_round2 := λ f, f;
  float_str := λ _, "0.0";
  time_str := λ t, pretty t;
|}.

Definition with_http (w : World) (get : string → nat → result string)
    (parse : string → node) : World := {|
  http_get := get; parse_html := parse;
  py_float := py_float w; py_int := py_int w; db_fault := db_fault w;
  fs_fault := fs_fault w; py_round2 := py_round2 w; float_str := float_str w;
  time_str := time_str w;
|}.

Definition with_db_fault (w : World) (fault : string → nat → option exn) : World := {|
  http_get := http_get w; parse_html := parse_html w;
  py_float := py_float w; py_int := py_int w; db_fault := fault;
  fs_fault := fs_fault w; py_round2 := py_round2 w; float_str := float_str w;
  time_str := time_str w;
|}.

Definition with_fs_fault (w : World) (fault : string → nat → option exn) : World := {|
  http_get := http_get w; parse_html := parse_html w;
  py_float := py_float w; py_int := py_int w; db_fault := db_fault w;
  fs_fault := fault; py_round2 := py_round2 w; float_str := float_str w;
  time_str := time_str w;
|}.

(** Two failed requests, then a page without items. *)
Definition flaky : World :=
  with_http offline (λ _ i, if Nat.ltb i 2 then Raise unavailable else Ret "<html></html>")
            (λ _, document []).

(** Every request is answered with an empty body. *)
Definition blank : World := with_http offline (λ _ _, Ret "") (λ _, document []).

(** A product listing: a complete block, a block whose price does not
    parse, and a block with none of the elements. *)
Definition laptop : node :=
  tag "div" "thumbnail"
    [ NTag "a" (<["class" := "title"]> {[ "href" := "/product/1" ]}) [NText " Laptop "];
      tag "h4" "price" [NText "$12.5"];
      tag "p" "description" [NText "15 inch"];
      NTag "p" {[ "data-rating" := "3" ]} [];
      tag "p" "review-count" [NText "7 reviews"] ].

Definition garbled : node := tag "div" "thumbnail" [ tag "h4" "price" [NText "$call us"] ].

Definition bare : node := tag "div" "thumbnail" [].

(** The complete block without its price. *)
Definition unpriced_laptop : node :=
  tag "div" "thumbnail"
    [ NTag "a" (<["class" := "title"]> {[ "href" := "/product/1" ]}) [NText " Laptop "];
      tag "p" "description" [NText "15 inch"];
      NTag "p" {[ "data-rating" := "3" ]} [];
      tag "p" "review-count" [NText "7 reviews"] ].

Definition shop : World :=
  with_http offline (λ _ _, Ret "<html>shop</html>") (λ _, document [laptop; garbled; bare]).

(** The same shop with a store that refuses every insert into
    [products]. *)
Definition shop_store_rejects : World :=
  with_db_fault shop (λ table _, if String.eqb table "products" then Some locked else None).

(** The same shop with a driver that breaks on every insert into
    [products], with an exception that is no [SQLAlchemyError]. *)
Definition shop_store_crashes : World :=
  with_db_fault shop
    (λ table _, if String.eqb table "products" then Some unexpected else None).

(** From the fifth statement on, the [books] table cannot be read: the
    two jobs come through and the statistics query fails. *)
Definition stats_unavailable : World :=
  with_db_fault offline
    (λ table i, if String.eqb table "books" && Nat.leb 4 i then Some locked else None).

(** A store that refuses every insert into [scraping_logs]. *)
Definition log_store_rejects : World :=
  with_db_fault offline
    (λ table _, if String.eqb table "scraping_logs" then Some locked else None).

(** The report cannot be written. *)
Definition report_unwritable : World :=
  with_fs_fault offline
    (λ path _, if String.eqb path "output/scraping_report.txt" then Some read_only
               else None).

(** A book block as the site has it, and the same block without its
    price paragraph. *)
Definition book_heading : node :=
  NTag "h3" ∅
    [ NTag "a" (<["href" := "a-light-in-the-attic_1000/index.html"]>
                  {[ "title" := "A Light in the Attic" ]})
           [NText "A Light in the ..."] ].

Definition priced_book : node :=
  tag "article" "product_pod"
    [ tag "p" "star-rating Three" [];
      book_heading;
      tag "p" "price_color" [NText (PyStr.pound +:+ "51.75")];
      tag "p" "instock availability" [NText "  In stock  "] ].

Definition unpriced_book : node :=
  tag "article" "product_pod"
    [ tag "p" "star-rating Three" [];
      book_heading;
      tag "p" "instock availability" [NText "  In stock  "] ].

Definition priced_url : string := "http://books.toscrape.com/catalogue/category/books/poetry_23/index.html".
Definition unpriced_url : string := "http://books.toscrape.com/catalogue/category/books/travel_2/index.html".

(** The page text is the URL it came from. *)
Definition bookshop : World :=
  with_http offline (λ url _, Ret url)
    (λ html, if String.eqb html priced_url then document [priced_book]
             else if String.eqb html unpriced_url then document [unpriced_book]
             else document []).

(** A store that already holds one book from an earlier run. *)
Definition one_book : record :=
  [("title", VStr "A Light in the Attic"); ("price", VFloat 51.75%float);
   ("rating", VStr "Three"); ("availability", VStr "In stock");
   ("category", VStr "poetry_23");
   ("url", VStr "http://books.toscrape.com/catalogue/a-light-in-the-attic_1000/index.html");
   ("description", VStr "")].

Definition stocked : state := (save_books offline [one_book] init_state).2.

End Scenario.

(** ** Incidents

    Configurations and worlds for the edges of the program. *)

Module Incident.

(** No attempt is allowed. *)
Definition no_attempts : Config := {|
  user_agent := user_agent default_config;
  timeout := timeout default_config;
  max_retries := 0;
  delay_between_requests := delay_between_requests default_config;
  books_urls := books_urls default_config;
  products_urls := products_urls default_config;
|}.

(** A delay below zero. *)
Definition hasty : Config := {|
  user_agent := user_agent default_config;
  timeout := timeout default_config;
  max_retries := max_retries default_config;
  delay_between_requests := -1;
  books_urls := books_urls default_config;
  products_urls := products_urls default_config;
|}.

(** The session breaks on every request with something that is no
    [RequestException]. *)
Definition broken_session : World :=
  Scenario.with_http Scenario.offline (λ _ _, Raise Scenario.unexpected)
                     (λ _, Scenario.document []).

(** One failed request, then a request on which the session breaks. *)
Definition breaking_session : World :=
  Scenario.with_http Scenario.offline
    (λ _ i, if Nat.ltb i 1 then Raise Scenario.unavailable else Raise Scenario.unexpected)
    (λ _, Scenario.document []).

(** The driver breaks on every statement on [scraping_logs], with an
    exception that is no [SQLAlchemyError]. *)
Definition log_store_broken : World :=
  Scenario.with_db_fault Scenario.offline
    (λ table _, if String.eqb table "scraping_logs" then Some Scenario.unexpected
                else None).

(** The tables cannot be created. *)
Definition schema_locked : World :=
  Scenario.with_db_fault Scenario.offline
    (λ table _, if String.eqb table "metadata" then Some Scenario.locked else None).

(** The output directory cannot be made. *)
Definition no_output_dir : World :=
  Scenario.with_fs_fault Scenario.offline
    (λ path _, if String.eqb path "output" then Some Scenario.read_only else None).

(** The book shop, with detail pages that carry a description. *)
Definition detail_page : node :=
  Scenario.document
    [ NTag "meta" (<["name" := "description"]> {[ "content" := "Poems for children" ]}) [] ].

Definition described_bookshop : World :=
  Scenario.with_http Scenario.offline (λ url _, Ret url)
    (λ html, if String.eqb html Scenario.priced_url
             then Scenario.document [Scenario.priced_book]
             else detail_page).

(** A record for a table that does not exist. *)
Definition order : record := [("item", VStr "A Light in the Attic"); ("copies", VInt 2)].


(** The record of the complete product block of the shop. *)
Definition laptop_record : record :=
  [("name", VStr "Laptop"); ("price", VFloat 12.5%float); ("description", VStr "15 inch");
   ("rating", VFloat 3%float); ("reviews", VInt 7); ("category", VStr "");
   ("url", VStr "https://webscraper.io/product/1")].

End Incident.

(** * Proofs *)

(** ** The string and document functions on examples *)

Example strip_example : PyStr.strip "  In stock  " = "In stock".
Proof. reflexivity. Qed.

Example split_example :
  PyStr.split "/"%char "https://host/catalogue/cat/index.html"
  = ["https:"; ""; "host"; "catalogue"; "cat"; "index.html"].
Proof. reflexivity. Qed.

Example split_ws_example : PyStr.split_ws " 12  reviews " = ["12"; "reviews"].
Proof. reflexivity. Qed.

Example replace_example : PyStr.replace "../../../" "" "../../../a/b.html" = "a/b.html".
Proof. reflexivity. Qed.

Example find_all_example :
  Soup.find_all "div" (Soup.has_class "thumbnail")
    (NTag "body" ∅ [NTag "div" {[ "class" := "col thumbnail" ]} [NText "a"];
                     NTag "div" {[ "class" := "col" ]} [NText "b"]])
  = [NTag "div" {[ "class" := "col thumbnail" ]} [NText "a"]].
Proof. by vm_compute. Qed.

Example find_example :
  Soup.text <$> Soup.find "p" (Soup.has_class "instock availability")
                  (NTag "article" ∅
                     [NTag "p" {[ "class" := "price_color" ]} [NText "51.75"];
                      NTag "div" ∅
                        [NTag "p" {[ "class" := "instock   availability" ]}
                              [NTag "i" ∅ []; NText " In stock "]]])
  = Some " In stock ".
Proof. by vm_compute. Qed.

Section Fetch.
Context (cfg : Config) (w : World).

Lemma fetch_attempts_success url attempt rest s text :
  http_get w url (st_requests s) = Ret text →
  (fetch_attempts cfg w url (attempt :: rest) s).1 = Ret (Some text)
  ∧ st_events (fetch_attempts cfg w url (attempt :: rest) s).2 = st_events s ++ [EvGet url]
  ∧ st_requests (fetch_attempts cfg w url (attempt :: rest) s).2 = S (st_requests s).
Proof.
  intros H. cbn [fetch_attempts]. unfold try_except, bind, session_get.
  rewrite H. cbn. auto.
Qed.

Lemma fetch_attempts_retry url attempt rest s e :
  http_get w url (st_requests s) = Raise e →
  is_class RequestException e = true →
  (attempt <? max_retries cfg - 1) = true →
  0 ≤ attempt →
  ∃ s', fetch_attempts cfg w url (attempt :: rest) s = fetch_attempts cfg w url rest s'
     ∧ st_events s' = st_events s ++ [EvGet url; EvSleep Backoff (2 ^ attempt)]
     ∧ st_requests s' = S (st_requests s).
Proof.
  intros H Hc Hlt Hpos. cbn [fetch_attempts]. unfold try_except at 1. unfold bind at 1.
  unfold session_get at 1. rewrite H. cbn [fst snd]. rewrite Hc.
  unfold bind at 1. unfold log at 1. cbn [level_enabled]. rewrite Hlt.
  unfold bind at 1. unfold sleep at 1.
  assert ((2 ^ attempt <? 0) = false) as -> by (apply Z.ltb_ge; apply Z.pow_nonneg; lia).
  eexists. split; [reflexivity|]. cbn. rewrite <- app_assoc. auto.
Qed.

Lemma fetch_attempts_give_up url attempt rest s e :
  http_get w url (st_requests s) = Raise e →
  is_class RequestException e = true →
  (attempt <? max_retries cfg - 1) = false →
  (fetch_attempts cfg w url (attempt :: rest) s).1 = Ret None
  ∧ st_events (fetch_attempts cfg w url (attempt :: rest) s).2 = st_events s ++ [EvGet url]
  ∧ st_requests (fetch_attempts cfg w url (attempt :: rest) s).2 = S (st_requests s).
Proof.
  intros H Hc Hlt. cbn [fetch_attempts]. unfold try_except, bind, session_get.
  rewrite H. cbn [fst snd]. rewrite Hc. cbn. rewrite Hlt. cbn. auto.
Qed.

Lemma fetch_attempts_exhaust url k : ∀ a s,
  max_retries cfg = Z.of_nat (a + S k) →
  (∀ i, (i < S k)%nat → request_fails w url (st_requests s + i)) →
  (fetch_attempts cfg w url (Z.of_nat <$> seq a (S k)) s).1 = Ret None
  ∧ st_events (fetch_attempts cfg w url (Z.of_nat <$> seq a (S k)) s).2
    = st_events s ++ flat_map (failed_attempt url) (seq (S a) k) ++ [EvGet url]
  ∧ st_requests (fetch_attempts cfg w url (Z.of_nat <$> seq a (S k)) s).2
    = (st_requests s + S k)%nat.
Proof.
  induction k as [|k IH]; intros a s Hmax Hfail.
  - destruct (Hfail 0%nat) as (e & He & Hc); [lia|]. rewrite Nat.add_0_r in He.
    cbn [seq fmap list_fmap].
    destruct (fetch_attempts_give_up url (Z.of_nat a) [] s e He Hc) as (H1 & H2 & H3).
    { apply Z.ltb_ge. lia. }
    rewrite H1, H2, H3. cbn. split_and!; [done|done|lia].
  - destruct (Hfail 0%nat) as (e & He & Hc); [lia|]. rewrite Nat.add_0_r in He.
    change (Z.of_nat <$> seq a (S (S k)))
      with (Z.of_nat a :: (Z.of_nat <$> seq (S a) (S k))).
    destruct (fetch_attempts_retry url (Z.of_nat a) (Z.of_nat <$> seq (S a) (S k)) s e He Hc)
      as (s' & -> & Hev & Hrq).
    { apply Z.ltb_lt. lia. }
    { lia. }
    destruct (IH (S a) s') as (H1 & H2 & H3).
    { rewrite Hmax. f_equal. lia. }
    { intros i Hi. rewrite Hrq.
      replace (S (st_requests s) + i)%nat with (st_requests s + S i)%nat by lia.
      apply Hfail. lia. }
    rewrite H1, H2, H3, Hev, Hrq. split_and!; [done| |lia].
    cbn [seq flat_map]. unfold failed_attempt at 2.
    replace (Z.of_nat (S a) - 1) with (Z.of_nat a) by lia.
    rewrite <- !app_assoc. reflexivity.
Qed.

Lemma fetch_attempts_first_success url text j : ∀ a m s,
  (j < m)%nat →
  Z.of_nat (a + m) ≤ max_retries cfg →
  (∀ i, (i < j)%nat → request_fails w url (st_requests s + i)) →
  http_get w url (st_requests s + j) = Ret text →
  (fetch_attempts cfg w url (Z.of_nat <$> seq a m) s).1 = Ret (Some text)
  ∧ st_events (fetch_attempts cfg w url (Z.of_nat <$> seq a m) s).2
    = st_events s ++ flat_map (failed_attempt url) (seq (S a) j) ++ [EvGet url]
  ∧ st_requests (fetch_attempts cfg w url (Z.of_nat <$> seq a m) s).2
    = (st_requests s + S j)%nat.
Proof.
  induction j as [|j IH]; intros a m s Hjm Hmax Hfail Hok.
  - destruct m as [|m]; [lia|]. rewrite Nat.add_0_r in Hok.
    cbn [seq fmap list_fmap].
    destruct (fetch_attempts_success url (Z.of_nat a) (Z.of_nat <$> seq (S a) m) s text Hok)
      as (H1 & H2 & H3).
    rewrite H1, H2, H3. cbn. split_and!; [done|done|lia].
  - destruct m as [|m]; [lia|].
    destruct (Hfail 0%nat) as (e & He & Hc); [lia|]. rewrite Nat.add_0_r in He.
    change (Z.of_nat <$> seq a (S m)) with (Z.of_nat a :: (Z.of_nat <$> seq (S a) m)).
    destruct (fetch_attempts_retry url (Z.of_nat a) (Z.of_nat <$> seq (S a) m) s e He Hc)
      as (s' & -> & Hev & Hrq).
    { apply Z.ltb_lt. lia. }
    { lia. }
    destruct (IH (S a) m s') as (H1 & H2 & H3).
    { lia. }
    { lia. }
    { intros i Hi. rewrite Hrq.
      replace (S (st_requests s) + i)%nat with (st_requests s + S i)%nat by lia.
      apply Hfail. lia. }
    { rewrite Hrq. replace (S (st_requests s) + j)%nat with (st_requests s + S j)%nat by lia.
      exact Hok. }
    rewrite H1, H2, H3, Hev, Hrq. split_and!; [done| |lia].
    cbn [seq flat_map]. unfold failed_attempt at 2.
    replace (Z.of_nat (S a) - 1) with (Z.of_nat a) by lia.
    rewrite <- !app_assoc. reflexivity.
Qed.

Lemma fetch_attempts_bounded url attempts : ∀ s,
  (st_requests (fetch_attempts cfg w url attempts s).2
   ≤ st_requests s + length attempts)%nat.
Proof.
  induction attempts as [|attempt rest IH]; intros s.
  - cbn. lia.
  - cbn [fetch_attempts length]. unfold try_except at 1. unfold bind at 1.
    unfold session_get at 1.
    destruct (http_get w url (st_requests s)) as [text|e]; cbn [fst snd].
    + cbn. lia.
    + destruct (is_class RequestException e); [|cbn; lia].
      unfold bind at 1. unfold log at 1. cbn [level_enabled].
      destruct (attempt <? max_retries cfg - 1).
      * unfold bind at 1. unfold sleep at 1.
        destruct (2 ^ attempt <? 0); [cbn; lia|].
        etrans; [apply IH|]. cbn. lia.
      * cbn. lia.
Qed.

(** C2.  With a maximum of [n >= 1] attempts, [fetch_page] issues at
    most [n] requests.  When the first [j] requests fail and the next
    one succeeds, it returns that response's text at once: the trace is
    the [j] failed attempts, attempt [k] followed by a wait of
    [2^(k-1)], and the successful request.  When all [n] requests
    fail, it returns absent right after the [n]-th request: the first
    [n-1] failed attempts are each followed by their wait, the last one
    by nothing. *)
Theorem fetch_page_backoff url s (n : nat) :
  max_retries cfg = Z.of_nat n →
  (1 ≤ n)%nat →
  (st_requests (fetch_page cfg w url s).2 ≤ st_requests s + n)%nat
  ∧ ((∀ k, (k < n)%nat → request_fails w url (st_requests s + k)) →
     (fetch_page cfg w url s).1 = Ret None
     ∧ st_events (fetch_page cfg w url s).2
       = st_events s ++ failed_attempts url (n - 1) ++ [EvGet url]
     ∧ st_requests (fetch_page cfg w url s).2 = (st_requests s + n)%nat)
  ∧ (∀ j text,
       (j < n)%nat →
       (∀ k, (k < j)%nat → request_fails w url (st_requests s + k)) →
       http_get w url (st_requests s + j) = Ret text →
       (fetch_page cfg w url s).1 = Ret (Some text)
       ∧ st_events (fetch_page cfg w url s).2
         = st_events s ++ failed_attempts url j ++ [EvGet url]
       ∧ st_requests (fetch_page cfg w url s).2 = (st_requests s + S j)%nat).
Proof.
  intros Hmax Hn. unfold fetch_page, range, failed_attempts.
  rewrite Hmax, Nat2Z.id. split_and!.
  - etrans; [apply fetch_attempts_bounded|]. rewrite length_fmap, length_seq. lia.
  - intros Hfail. destruct n as [|k]; [lia|].
    replace (S k - 1)%nat with k by lia.
    apply fetch_attempts_exhaust; [rewrite Hmax; f_equal; lia|done].
  - intros j text Hj Hfail Hok.
    apply fetch_attempts_first_success; [done|lia|done|done].
Qed.
End Fetch.

Section Monad.
Context {X : Type} (f : state → X).

Lemma keeps_ret {A} (a : A) : keeps f (ret a).
Proof. by intros s. Qed.

Lemma keeps_raise {A} e : keeps f (raise (A:=A) e).
Proof. by intros s. Qed.

Lemma keeps_lift {A} (r : result A) : keeps f (lift r).
Proof. by intros s. Qed.

Lemma keeps_bind {A B} (m : M A) (k : A → M B) :
  keeps f m → (∀ a, keeps f (k a)) → keeps f (bind m k).
Proof.
  intros Hm Hk s. unfold bind. specialize (Hm s).
  destruct (m s) as [[a|e] s']; cbn in *; [|done].
  by rewrite Hk.
Qed.

Lemma keeps_try_except {A} (m : M A) handles h :
  keeps f m → (∀ e, keeps f (h e)) → keeps f (try_except m handles h).
Proof.
  intros Hm Hh s. unfold try_except. specialize (Hm s).
  destruct (m s) as [[a|e] s']; cbn in *; [done|].
  destruct (handles e); [|done]. by rewrite Hh.
Qed.

Lemma keeps_for_each {A S} (xs : list A) (body : A → S → M S) :
  (∀ x acc, keeps f (body x acc)) → ∀ acc, keeps f (for_each xs body acc).
Proof.
  intros Hb. induction xs as [|x xs IH]; intros acc; cbn [for_each].
  - apply keeps_ret.
  - apply keeps_bind; [apply Hb|apply IH].
Qed.
End Monad.

Lemma no_raise_ret {A} (a : A) : no_raise (ret a).
Proof. by intros s. Qed.

Lemma no_raise_bind {A B} (m : M A) (k : A → M B) :
  no_raise m → (∀ a, no_raise (k a)) → no_raise (bind m k).
Proof.
  intros Hm Hk s. unfold bind. specialize (Hm s).
  destruct (m s) as [[a|e] s']; cbn in *; [apply Hk|done].
Qed.

(** A handler for every exception that does not raise itself makes the
    whole [try] statement safe. *)
Lemma no_raise_try_except {A} (m : M A) h :
  (∀ e, no_raise (h e)) → no_raise (try_except m any_exception h).
Proof.
  intros Hh s. unfold try_except.
  destruct (m s) as [[a|e] s']; cbn; [done|apply Hh].
Qed.

Lemma no_raise_for_each {A S} (xs : list A) (body : A → S → M S) :
  (∀ x acc, no_raise (body x acc)) → ∀ acc, no_raise (for_each xs body acc).
Proof.
  intros Hb. induction xs as [|x xs IH]; intros acc; cbn [for_each].
  - apply no_raise_ret.
  - apply no_raise_bind; [apply Hb|apply IH].
Qed.

Lemma no_raise_inv {A} (m : M A) s :
  no_raise m → ∃ a, (m s).1 = Ret a.
Proof.
  intros H. specialize (H s). destruct (m s).1 as [a|e]; [by exists a|done].
Qed.

Lemma for_each_app {A S} (xs ys : list A) (body : A → S → M S) acc s :
  for_each (xs ++ ys) body acc s
  = bind (for_each xs body acc) (for_each ys body) s.
Proof.
  revert acc s. induction xs as [|x xs IH]; intros acc s; cbn [for_each app].
  - reflexivity.
  - unfold bind. destruct (body x acc s) as [[a|e] s']; [|done].
    rewrite IH. reflexivity.
Qed.

(** Running a program one statement at a time. *)
Lemma run_bind_ret {A B} (m : M A) (k : A → M B) s a s' :
  m s = (Ret a, s') → bind m k s = k a s'.
Proof. intros H. unfold bind. by rewrite H. Qed.

Lemma run_bind_raise {A B} (m : M A) (k : A → M B) s e s' :
  m s = (Raise e, s') → bind m k s = (Raise e, s').
Proof. intros H. unfold bind. by rewrite H. Qed.

Lemma run_try_ret {A} (m : M A) handles h s a s' :
  m s = (Ret a, s') → try_except m handles h s = (Ret a, s').
Proof. intros H. unfold try_except. by rewrite H. Qed.

Lemma run_try_handled {A} (m : M A) handles h s e s' :
  m s = (Raise e, s') → handles e = true → try_except m handles h s = h e s'.
Proof. intros H Hh. unfold try_except. by rewrite H, Hh. Qed.

Lemma run_try_unhandled {A} (m : M A) handles h s e s' :
  m s = (Raise e, s') → handles e = false → try_except m handles h s = (Raise e, s').
Proof. intros H Hh. unfold try_except. by rewrite H, Hh. Qed.

Lemma pair_eta {A} (m : M A) s : m s = ((m s).1, (m s).2).
Proof. by destruct (m s). Qed.

(** ** Frame properties of the primitives *)

Section Frames.
Context (cfg : Config) (w : World).

Lemma log_no_raise l msg : no_raise (log l msg).
Proof. by intros s. Qed.

Lemma run_log l msg s : log l msg s = (Ret (), (log l msg s).2).
Proof. done. Qed.

Lemma run_now s : now s = (Ret (st_clock s), s).
Proof. done. Qed.

Lemma keeps_log_db l msg : keeps st_db (log l msg).
Proof. intros s. unfold log. by destruct (level_enabled l). Qed.

Lemma keeps_log_events l msg : keeps st_events (log l msg).
Proof. intros s. unfold log. by destruct (level_enabled l). Qed.

Lemma keeps_log_files l msg : keeps st_files (log l msg).
Proof. intros s. unfold log. by destruct (level_enabled l). Qed.

Lemma keeps_log_statements l msg : keeps st_statements (log l msg).
Proof. intros s. unfold log. by destruct (level_enabled l). Qed.

Lemma keeps_log_requests l msg : keeps st_requests (log l msg).
Proof. intros s. unfold log. by destruct (level_enabled l). Qed.

Lemma keeps_sleep_db site secs : keeps st_db (sleep site secs).
Proof. intros s. unfold sleep. by destruct (secs <? 0). Qed.

Lemma keeps_sleep_statements site secs : keeps st_statements (sleep site secs).
Proof. intros s. unfold sleep. by destruct (secs <? 0). Qed.

Lemma keeps_now {X} (f : state → X) : keeps f now.
Proof. by intros s. Qed.

Lemma keeps_session_get_db url : keeps st_db (session_get w url).
Proof. by intros s. Qed.

Lemma keeps_session_get_statements url : keeps st_statements (session_get w url).
Proof. by intros s. Qed.

Lemma keeps_write_file_db path c : keeps st_db (write_file w path c).
Proof. intros s. unfold write_file. by destruct (fs_fault w path (st_writes s)). Qed.

Lemma keeps_db_query_db {A} table (q : database → result A) :
  keeps st_db (db_query w table q).
Proof. intros s. unfold db_query. by destruct (db_fault w table (st_statements s)). Qed.

End Frames.

Create HintDb keeps.

Ltac keeps_step :=
  match goal with
  | |- keeps _ (bind _ _) => apply keeps_bind; [|intros ?]
  | |- keeps _ (try_except _ _ _) => apply keeps_try_except; [|intros ?]
  | |- keeps _ (for_each _ _ _) => apply keeps_for_each; intros ? ?
  | |- keeps _ (ret _) => apply keeps_ret
  | |- keeps _ (raise _) => apply keeps_raise
  | |- keeps _ (lift _) => apply keeps_lift
  | |- keeps _ now => apply keeps_now
  | |- keeps _ (if ?b then _ else _) => destruct b
  | |- keeps _ (match ?x with _ => _ end) => destruct x
  | |- keeps _ _ => solve [auto with keeps]
  end.

Ltac solve_keeps := repeat keeps_step.

Section ScraperFrames.
Context (cfg : Config) (w : World).

Lemma keeps_store_log l msg : keeps store (log l msg).
Proof. intros s. unfold log. by destruct (level_enabled l). Qed.

Lemma keeps_store_sleep site secs : keeps store (sleep site secs).
Proof. intros s. unfold sleep. by destruct (secs <? 0). Qed.

Lemma keeps_store_session_get url : keeps store (session_get w url).
Proof. by intros s. Qed.

Hint Resolve keeps_store_log keeps_store_sleep keeps_store_session_get : keeps.

Lemma keeps_store_fetch_attempts url attempts :
  keeps store (fetch_attempts cfg w url attempts).
Proof.
  induction attempts as [|attempt rest IH]; cbn [fetch_attempts]; solve_keeps.
Qed.

Lemma keeps_store_fetch_page url : keeps store (fetch_page cfg w url).
Proof. apply keeps_store_fetch_attempts. Qed.

Hint Resolve keeps_store_fetch_page : keeps.

Lemma keeps_store_description path : keeps store (_get_book_description cfg w path).
Proof. unfold _get_book_description. solve_keeps. Qed.

Hint Resolve keeps_store_description : keeps.

Lemma keeps_store_scrape_books urls : keeps store (scrape_books cfg w urls).
Proof.
  unfold scrape_books, scrape_books_url, extract_books, parse_book, scrape_book.
  solve_keeps.
Qed.

Lemma keeps_store_scrape_products urls : keeps store (scrape_products cfg w urls).
Proof.
  unfold scrape_products, scrape_products_url, extract_products, parse_product.
  solve_keeps.
Qed.

Lemma keeps_db_log l msg : keeps st_db (log l msg).
Proof. intros s. unfold log. by destruct (level_enabled l). Qed.

Lemma keeps_db_write_file path c : keeps st_db (write_file w path c).
Proof. intros s. unfold write_file. by destruct (fs_fault w path (st_writes s)). Qed.

Lemma keeps_db_query {A} table (q : database → result A) :
  keeps st_db (db_query w table q).
Proof. intros s. unfold db_query. by destruct (db_fault w table (st_statements s)). Qed.

Hint Resolve keeps_db_log keeps_db_write_file keeps_db_query : keeps.

Lemma keeps_db_save_to_csv data filename : keeps st_db (save_to_csv w data filename).
Proof. unfold save_to_csv. solve_keeps. Qed.

Lemma keeps_db_export table filename : keeps st_db (export_to_csv w table filename).
Proof. unfold export_to_csv, read_sql_query. solve_keeps. Qed.

Lemma export_no_raise table filename : no_raise (export_to_csv w table filename).
Proof.
  unfold export_to_csv. apply no_raise_try_except. intros e.
  apply no_raise_bind; [apply log_no_raise|intros; apply no_raise_ret].
Qed.

Lemma save_to_csv_no_raise data filename : no_raise (save_to_csv w data filename).
Proof.
  unfold save_to_csv. destruct data; [apply log_no_raise|].
  apply no_raise_try_except. intros e. apply log_no_raise.
Qed.

End ScraperFrames.

Section Store.
Context (cfg : Config) (w : World).

Lemma insert_rows_length columns t data rows rows' :
  insert_rows columns t data rows = Ret rows' →
  length rows' = (length rows + length data)%nat.
Proof.
  unfold insert_rows. destruct data as [|first rest].
  - intros [= <-]. cbn. lia.
  - destruct (negb _); [done|]. destruct (negb _); [done|].
    intros [= <-]. rewrite length_app. cbn [length]. by rewrite length_imap.
Qed.

Lemma save_books_spec data s :
  tbl_products (st_db (save_books w data s).2) = tbl_products (st_db s)
  ∧ tbl_logs (st_db (save_books w data s).2) = tbl_logs (st_db s)
  ∧ match (save_books w data s).1 with
    | Ret n => Z.of_nat (length (tbl_books (st_db (save_books w data s).2)))
               = Z.of_nat (length (tbl_books (st_db s))) + n
    | Raise _ => st_db (save_books w data s).2 = st_db s
    end.
Proof.
  unfold save_books, _save_data. destruct data as [|r data]; [cbn; split_and!; [done|done|lia]|].
  set (d := r :: data). clearbody d. unfold try_except, bind, now, db_execute. cbn [fst snd].
  destruct (db_fault w "books" (st_statements s)) as [e|].
  { destruct (is_class SQLAlchemyError e); cbn; split_and!; try done. lia. }
  cbn [String.eqb Ascii.eqb Bool.eqb].
  destruct (insert_rows books_columns (st_clock s) d (tbl_books (st_db s))) as [rows|e] eqn:E.
  - cbn. apply insert_rows_length in E. split_and!; [done|done|]. rewrite E. lia.
  - cbn [fmap result_fmap rbind fst snd].
    destruct (is_class SQLAlchemyError e); cbn; split_and!; try done; lia.
Qed.

Lemma save_products_spec data s :
  tbl_books (st_db (save_products w data s).2) = tbl_books (st_db s)
  ∧ tbl_logs (st_db (save_products w data s).2) = tbl_logs (st_db s)
  ∧ match (save_products w data s).1 with
    | Ret n => Z.of_nat (length (tbl_products (st_db (save_products w data s).2)))
               = Z.of_nat (length (tbl_products (st_db s))) + n
    | Raise _ => st_db (save_products w data s).2 = st_db s
    end.
Proof.
  unfold save_products, _save_data.
  destruct data as [|r data]; [cbn; split_and!; [done|done|lia]|].
  set (d := r :: data). clearbody d. unfold try_except, bind, now, db_execute. cbn [fst snd].
  destruct (db_fault w "products" (st_statements s)) as [e|].
  { destruct (is_class SQLAlchemyError e); cbn; split_and!; try done; lia. }
  cbn [String.eqb Ascii.eqb Bool.eqb].
  destruct (insert_rows products_columns (st_clock s) d (tbl_products (st_db s)))
    as [rows|e] eqn:E.
  - cbn. apply insert_rows_length in E. split_and!; [done|done|]. rewrite E. lia.
  - cbn [fmap result_fmap rbind fst snd].
    destruct (is_class SQLAlchemyError e); cbn; split_and!; try done; lia.
Qed.

Lemma job_row_fields db clock target status n msg t0 :
  field "target" (job_row db clock target status n msg t0) = Some (VStr target)
  ∧ field "status" (job_row db clock target status n msg t0) = Some (VStr status)
  ∧ field "records_scraped" (job_row db clock target status n msg t0) = Some (VInt n)
  ∧ field "error_message" (job_row db clock target status n msg t0)
    = Some (opt_val VStr msg).
Proof. by split_and!. Qed.

Lemma log_scraping_run_accepted target status n msg t0 s :
  db_fault w "scraping_logs" (st_statements s) = None →
  (log_scraping_run w target status n msg (Some t0) s).1 = Ret ()
  ∧ st_db (log_scraping_run w target status n msg (Some t0) s).2
    = with_logs (st_db s)
        (tbl_logs (st_db s) ++ [job_row (st_db s) (st_clock s) target status n msg t0]).
Proof.
  intros H. unfold log_scraping_run, try_except, bind, now, ret, db_execute.
  cbn [fst snd]. rewrite H. cbn. split; [done|]. unfold job_row.
  by rewrite Nat.add_0_r.
Qed.

Lemma log_scraping_run_rejected target status n msg t0 s e :
  db_fault w "scraping_logs" (st_statements s) = Some e →
  is_class SQLAlchemyError e = true →
  (log_scraping_run w target status n msg (Some t0) s).1 = Ret ()
  ∧ st_db (log_scraping_run w target status n msg (Some t0) s).2 = st_db s.
Proof.
  intros H Hc. unfold log_scraping_run, try_except, bind, now, ret, db_execute.
  cbn [fst snd]. rewrite H. cbn [fst snd]. rewrite Hc. done.
Qed.

Lemma log_scraping_run_no_raise target status n msg t0 :
  log_store_fails_softly w →
  no_raise (log_scraping_run w target status n msg (Some t0)).
Proof.
  intros Hsoft s.
  destruct (db_fault w "scraping_logs" (st_statements s)) as [e|] eqn:E.
  - destruct (log_scraping_run_rejected target status n msg t0 s e E (Hsoft _ _ E)) as [-> _].
    done.
  - destruct (log_scraping_run_accepted target status n msg t0 s E) as [-> _]. done.
Qed.

(** *** The job runner *)

Lemma scrape_and_store_spec target s :
  tbl_logs (st_db (scrape_and_store cfg w target s).2) = tbl_logs (st_db s)
  ∧ match (scrape_and_store cfg w target s).1 with
    | Ret n => Z.of_nat (data_rows (st_db (scrape_and_store cfg w target s).2))
               = Z.of_nat (data_rows (st_db s)) + n
    | Raise _ => st_db (scrape_and_store cfg w target s).2 = st_db s
    end.
Proof.
  unfold scrape_and_store. destruct (String.eqb target "books").
  { unfold bind.
    pose proof (keeps_store_scrape_books cfg w (books_urls cfg) s) as Hs.
    destruct (scrape_books cfg w (books_urls cfg) s) as [[recs|e] s1]; cbn in Hs;
      injection Hs as Hdb _ _ _; [|cbn; by rewrite Hdb].
    pose proof (save_books_spec recs s1) as (Hp & Hl & Hn).
    destruct (save_books w recs s1) as [[n|e] s2]; cbn in Hp, Hl, Hn;
      [|cbn; by rewrite Hl, Hn, Hdb].
    pose proof (keeps_db_save_to_csv w recs "books.csv" s2) as Hc.
    pose proof (save_to_csv_no_raise w recs "books.csv" s2) as Hcr.
    destruct (save_to_csv w recs "books.csv" s2) as [[[]|e] s3]; cbn in Hc, Hcr; [|done].
    pose proof (keeps_db_export w "books" (Some "output/books_latest.csv") s3) as He.
    pose proof (export_no_raise w "books" (Some "output/books_latest.csv") s3) as Her.
    destruct (export_to_csv w "books" (Some "output/books_latest.csv") s3)
      as [[p|e] s4]; cbn in He, Her; [|done].
    cbn. rewrite He, Hc, <- Hdb. split; [done|]. unfold data_rows. rewrite Hp. lia. }
  destruct (String.eqb target "products"); [|by cbn].
  unfold bind.
  pose proof (keeps_store_scrape_products cfg w (products_urls cfg) s) as Hs.
  destruct (scrape_products cfg w (products_urls cfg) s) as [[recs|e] s1]; cbn in Hs;
    injection Hs as Hdb _ _ _; [|cbn; by rewrite Hdb].
  pose proof (save_products_spec recs s1) as (Hp & Hl & Hn).
  destruct (save_products w recs s1) as [[n|e] s2]; cbn in Hp, Hl, Hn;
    [|cbn; by rewrite Hl, Hn, Hdb].
  pose proof (keeps_db_save_to_csv w recs "products.csv" s2) as Hc.
  pose proof (save_to_csv_no_raise w recs "products.csv" s2) as Hcr.
  destruct (save_to_csv w recs "products.csv" s2) as [[[]|e] s3]; cbn in Hc, Hcr; [|done].
  pose proof (keeps_db_export w "products" (Some "output/products_latest.csv") s3) as He.
  pose proof (export_no_raise w "products" (Some "output/products_latest.csv") s3) as Her.
  destruct (export_to_csv w "products" (Some "output/products_latest.csv") s3)
    as [[p|e] s4]; cbn in He, Her; [|done].
  cbn. rewrite He, Hc, <- Hdb. split; [done|]. unfold data_rows. rewrite Hp. lia.
Qed.

(** What a job leaves behind when the log store takes its entry: one
    row, [success] with the count of the store when the pipeline came
    through, [failed] with 0 and the message when it raised. *)
Lemma run_scraping_job_logged target s :
  log_store_accepts w →
  let s0 := (log INFO ("Starting scraping job for: " +:+ target) s).2 in
  let s1 := (scrape_and_store cfg w target s0).2 in
  ∃ s',
    match (scrape_and_store cfg w target s0).1 with
    | Ret n =>
        run_scraping_job cfg w target s = (Ret true, s')
        ∧ st_db s'
          = with_logs (st_db s1)
              (tbl_logs (st_db s1)
               ++ [job_row (st_db s1) (st_clock s1) target "success" n None (st_clock s)])
    | Raise e =>
        run_scraping_job cfg w target s = (Ret false, s')
        ∧ st_db s'
          = with_logs (st_db s1)
              (tbl_logs (st_db s1)
               ++ [job_row (st_db s1) (st_clock s1) target "failed" 0
                           (Some (exn_str e)) (st_clock s)])
    end.
Proof.
  intros Hlog s0 s1. unfold run_scraping_job.
  erewrite run_bind_ret by apply run_now.
  destruct (scrape_and_store cfg w target s0) as [[n|e] s1'] eqn:E; subst s1; cbn [fst snd].
  - destruct (log_scraping_run_accepted target "success" n None (st_clock s) s1' (Hlog _))
      as [H1 H2].
    eexists. split.
    + erewrite run_try_ret; [reflexivity|].
      erewrite run_bind_ret by apply run_log. fold s0.
      erewrite run_bind_ret by exact E.
      erewrite run_bind_ret
        by (rewrite (pair_eta (log_scraping_run _ _ _ _ _ _)), H1; reflexivity).
      erewrite run_bind_ret by apply run_log. reflexivity.
    + rewrite <- H2. apply keeps_db_log.
  - set (s2 := (log ERROR ("Scraping job failed for " +:+ target +:+ ": " +:+ exn_str e) s1').2).
    assert (st_db s2 = st_db s1' ∧ st_clock s2 = st_clock s1') as [Hdb Hck] by done.
    destruct (log_scraping_run_accepted target "failed" 0 (Some (exn_str e))
                (st_clock s) s2 (Hlog _)) as [H1 H2].
    eexists. split.
    + erewrite run_try_handled; [| |reflexivity].
      2:{ erewrite run_bind_ret by apply run_log. fold s0.
          erewrite run_bind_raise by exact E. reflexivity. }
      erewrite run_bind_ret by apply run_log. fold s2.
      erewrite run_bind_ret
        by (rewrite (pair_eta (log_scraping_run _ _ _ _ _ _)), H1; reflexivity).
      reflexivity.
    + by rewrite H2, Hdb, Hck.
Qed.

Lemma run_scraping_job_no_raise target :
  log_store_fails_softly w → no_raise (run_scraping_job cfg w target).
Proof.
  intros Hsoft. unfold run_scraping_job.
  apply no_raise_bind; [done|intros t0].
  apply no_raise_try_except. intros e.
  apply no_raise_bind; [apply log_no_raise|intros _].
  apply no_raise_bind; [by apply log_scraping_run_no_raise|intros _].
  apply no_raise_ret.
Qed.
End Store.

Section Unreachable.
Context (cfg : Config) (w : World).

Lemma fetch_attempts_all_fail url attempts :
  (∀ i, request_fails w url i) →
  Forall (λ a, 0 ≤ a) attempts →
  ∀ s, (fetch_attempts cfg w url attempts s).1 = Ret None.
Proof.
  intros Hfail. induction 1 as [|attempt rest Hpos _ IH]; intros s; [done|].
  destruct (Hfail (st_requests s)) as (e & He & Hc).
  cbn [fetch_attempts].
  erewrite run_try_handled; [| |exact Hc].
  2:{ erewrite run_bind_raise; [reflexivity|]. unfold session_get. by rewrite He. }
  erewrite run_bind_ret by apply run_log.
  destruct (attempt <? max_retries cfg - 1).
  - erewrite run_bind_ret; [apply IH|]. unfold sleep.
    assert ((2 ^ attempt <? 0) = false) as -> by (apply Z.ltb_ge, Z.pow_nonneg; lia).
    reflexivity.
  - done.
Qed.

Lemma range_nonneg n : Forall (λ a, 0 ≤ a) (range n).
Proof. unfold range. apply Forall_fmap, Forall_forall. intros k _. cbn. lia. Qed.

Lemma fetch_page_all_fail url s :
  (∀ i, request_fails w url i) → (fetch_page cfg w url s).1 = Ret None.
Proof. intros H. by apply fetch_attempts_all_fail; [|apply range_nonneg]. Qed.

Lemma scrape_books_url_unreachable url acc s :
  (∀ i, request_fails w url i) → (scrape_books_url cfg w url acc s).1 = Ret acc.
Proof.
  intros H. unfold scrape_books_url.
  erewrite run_bind_ret by apply run_log.
  erewrite run_bind_ret
    by (rewrite (pair_eta (fetch_page _ _ _)), fetch_page_all_fail by done; reflexivity).
  done.
Qed.

Lemma scrape_products_url_unreachable url acc s :
  (∀ i, request_fails w url i) → (scrape_products_url cfg w url acc s).1 = Ret acc.
Proof.
  intros H. unfold scrape_products_url.
  erewrite run_bind_ret by apply run_log.
  erewrite run_bind_ret
    by (rewrite (pair_eta (fetch_page _ _ _)), fetch_page_all_fail by done; reflexivity).
  done.
Qed.

Lemma for_each_skips {A S} (xs : list A) (body : A → S → M S) :
  (∀ x acc s, x ∈ xs → (body x acc s).1 = Ret acc) →
  ∀ acc s, (for_each xs body acc s).1 = Ret acc.
Proof.
  induction xs as [|x xs IH]; intros Hb acc s; [done|]. cbn [for_each].
  erewrite run_bind_ret.
  2:{ rewrite (pair_eta (body x acc)), Hb by left. reflexivity. }
  apply IH. intros y acc' s' Hy. apply Hb. by right.
Qed.

Lemma scrape_target_unreachable target urls s :
  (∀ url i, url ∈ urls → request_fails w url i) →
  (scrape_target cfg w target urls s).1 = Ret [].
Proof.
  intros H. unfold scrape_target, scrape_books, scrape_products.
  destruct (String.eqb target "books"); apply for_each_skips; intros url acc s' Hin.
  - apply scrape_books_url_unreachable. intros i. by apply H.
  - apply scrape_products_url_unreachable. intros i. by apply H.
Qed.

(** With nothing to store the pipeline comes through with a count of 0,
    whatever the store and the file system do. *)
Lemma scrape_and_store_empty target s :
  known_target target →
  (scrape_target cfg w target (target_urls cfg target) s).1 = Ret [] →
  (scrape_and_store cfg w target s).1 = Ret 0.
Proof.
  intros [-> | ->]; unfold scrape_target, target_urls, scrape_and_store;
    cbn [String.eqb Ascii.eqb Bool.eqb]; intros H.
  - erewrite run_bind_ret by (rewrite (pair_eta (scrape_books _ _ _)), H; reflexivity).
    erewrite run_bind_ret by reflexivity.
    erewrite run_bind_ret by apply run_log.
    destruct (no_raise_inv (export_to_csv w "books" (Some "output/books_latest.csv"))
                (log WARNING ("No data to save to " +:+ "books.csv")
                   (scrape_books cfg w (books_urls cfg) s).2).2
                (export_no_raise w _ _)) as [p Hp].
    erewrite run_bind_ret by (rewrite (pair_eta (export_to_csv _ _ _)), Hp; reflexivity).
    done.
  - erewrite run_bind_ret by (rewrite (pair_eta (scrape_products _ _ _)), H; reflexivity).
    erewrite run_bind_ret by reflexivity.
    erewrite run_bind_ret by apply run_log.
    destruct (no_raise_inv (export_to_csv w "products" (Some "output/products_latest.csv"))
                (log WARNING ("No data to save to " +:+ "products.csv")
                   (scrape_products cfg w (products_urls cfg) s).2).2
                (export_no_raise w _ _)) as [p Hp].
    erewrite run_bind_ret by (rewrite (pair_eta (export_to_csv _ _ _)), Hp; reflexivity).
    done.
Qed.

(** C8.  When every configured URL of a target fails to fetch, the
    target's scraper returns the empty list and the job comes through
    with a count of 0, whatever the store does with an insert: an empty
    record set is stored without error.  The job then logs [success]
    with [records_scraped = 0]; with a log store that takes the entry,
    that is the one row it appends. *)
Theorem unreachable_target_logs_success target s :
  known_target target →
  (∀ url i, url ∈ target_urls cfg target → request_fails w url i) →
  (scrape_target cfg w target (target_urls cfg target) s).1 = Ret []
  ∧ (scrape_and_store cfg w target
       (log INFO ("Starting scraping job for: " +:+ target) s).2).1 = Ret 0
  ∧ (log_store_accepts w →
     ∃ entry s',
       run_scraping_job cfg w target s = (Ret true, s')
       ∧ tbl_logs (st_db s') = tbl_logs (st_db s) ++ [entry]
       ∧ field "target" entry = Some (VStr target)
       ∧ field "status" entry = Some (VStr "success")
       ∧ field "records_scraped" entry = Some (VInt 0)).
Proof.
  intros Hknown Hfail.
  set (s0 := (log INFO ("Starting scraping job for: " +:+ target) s).2).
  assert ((scrape_and_store cfg w target s0).1 = Ret 0) as Hstore
    by (by apply scrape_and_store_empty, scrape_target_unreachable).
  split; [by apply scrape_target_unreachable|]. split; [exact Hstore|].
  intros Hlog.
  destruct (run_scraping_job_logged cfg w target s Hlog) as [s' Hrun].
  fold s0 in Hrun.
  pose proof (scrape_and_store_spec cfg w target s0) as [Hlogs _].
  rewrite Hstore in Hrun. destruct Hrun as [Hrun Hdb].
  eexists _, s'. split; [exact Hrun|]. rewrite Hdb. cbn [tbl_logs with_logs].
  rewrite Hlogs. by split_and!.
Qed.
End Unreachable.

Section Jobs.
Context (cfg : Config) (w : World).

Lemma save_data_rejected data table s e :
  db_fault w table (st_statements s) = Some e →
  is_class SQLAlchemyError e = true →
  (_save_data w data table s).1 = Ret 0.
Proof.
  intros H Hc. unfold _save_data. destruct data as [|r data]; [done|].
  erewrite run_try_handled; [| |exact Hc].
  2:{ erewrite run_bind_ret by apply run_now.
      erewrite run_bind_raise; [reflexivity|]. unfold db_execute. by rewrite H. }
  by erewrite run_bind_ret by apply run_log.
Qed.

Lemma save_data_crashes data table s e :
  data ≠ [] →
  db_fault w table (st_statements s) = Some e →
  is_class SQLAlchemyError e = false →
  (_save_data w data table s).1 = Raise e.
Proof.
  intros Hd H Hc. unfold _save_data. destruct data as [|r data]; [done|].
  erewrite run_try_unhandled; [| |exact Hc]; [done|].
  erewrite run_bind_ret by apply run_now.
  erewrite run_bind_raise; [reflexivity|]. unfold db_execute. by rewrite H.
Qed.

Lemma scrape_target_statements target urls s :
  st_statements (scrape_target cfg w target urls s).2 = st_statements s.
Proof.
  unfold scrape_target. destruct (String.eqb target "books").
  - pose proof (keeps_store_scrape_books cfg w urls s) as H. by injection H.
  - pose proof (keeps_store_scrape_products cfg w urls s) as H. by injection H.
Qed.

(** The pipeline of a known target, written with [scrape_target]. *)
Lemma scrape_and_store_known target :
  known_target target →
  scrape_and_store cfg w target
  = (do data <- scrape_target cfg w target (target_urls cfg target);
     do records_saved <- _save_data w data target;
     do _ <- save_to_csv w data (target +:+ ".csv");
     do _ <- export_to_csv w target (Some ("output/" +:+ target +:+ "_latest.csv"));
     ret records_saved).
Proof. by intros [-> | ->]. Qed.

Lemma scrape_and_store_rejected target s recs e :
  known_target target →
  (scrape_target cfg w target (target_urls cfg target) s).1 = Ret recs →
  db_fault w target (st_statements s) = Some e →
  is_class SQLAlchemyError e = true →
  (scrape_and_store cfg w target s).1 = Ret 0.
Proof.
  intros Hk Hs Hf Hc. rewrite scrape_and_store_known by done.
  erewrite run_bind_ret by (rewrite (pair_eta (scrape_target _ _ _ _)), Hs; reflexivity).
  set (s1 := (scrape_target _ _ _ _ _).2).
  assert (st_statements s1 = st_statements s) as Hst by apply scrape_target_statements.
  erewrite run_bind_ret.
  2:{ rewrite (pair_eta (_save_data _ _ _)), (save_data_rejected _ _ _ e); [reflexivity| |done].
      by rewrite Hst. }
  set (s2 := (_save_data _ _ _ _).2).
  destruct (no_raise_inv (save_to_csv w recs (target +:+ ".csv")) s2
              (save_to_csv_no_raise w _ _)) as [[] Hcsv].
  erewrite run_bind_ret by (rewrite (pair_eta (save_to_csv _ _ _)), Hcsv; reflexivity).
  set (s3 := (save_to_csv _ _ _ _).2).
  destruct (no_raise_inv (export_to_csv w target (Some ("output/" +:+ target +:+ "_latest.csv")))
              s3 (export_no_raise w _ _)) as [p Hp].
  erewrite run_bind_ret by (rewrite (pair_eta (export_to_csv _ _ _)), Hp; reflexivity).
  done.
Qed.

Lemma scrape_and_store_crashes target s recs e :
  known_target target →
  (scrape_target cfg w target (target_urls cfg target) s).1 = Ret recs →
  recs ≠ [] →
  db_fault w target (st_statements s) = Some e →
  is_class SQLAlchemyError e = false →
  (scrape_and_store cfg w target s).1 = Raise e.
Proof.
  intros Hk Hs Hne Hf Hc. rewrite scrape_and_store_known by done.
  erewrite run_bind_ret by (rewrite (pair_eta (scrape_target _ _ _ _)), Hs; reflexivity).
  set (s1 := (scrape_target _ _ _ _ _).2).
  assert (st_statements s1 = st_statements s) as Hst by apply scrape_target_statements.
  erewrite run_bind_raise; [done|].
  rewrite (pair_eta (_save_data _ _ _)), (save_data_crashes _ _ _ e); [reflexivity|done| |done].
  by rewrite Hst.
Qed.

(** C3, as the code has it.  When the log store takes the entry, a job
    for any target identifier, known or not, and whatever fails on the
    way, appends exactly one row to [scraping_logs] and returns [True]
    exactly when that row says [success]. *)
Theorem run_scraping_job_appends_one target s :
  log_store_accepts w →
  ∃ ok entry s',
    run_scraping_job cfg w target s = (Ret ok, s')
    ∧ tbl_logs (st_db s') = tbl_logs (st_db s) ++ [entry]
    ∧ field "target" entry = Some (VStr target)
    ∧ (field "status" entry = Some (VStr "success")
       ∨ field "status" entry = Some (VStr "failed"))
    ∧ (ok = true ↔ field "status" entry = Some (VStr "success")).
Proof.
  intros Hlog.
  destruct (run_scraping_job_logged cfg w target s Hlog) as [s' Hrun].
  set (s0 := (log INFO ("Starting scraping job for: " +:+ target) s).2) in *.
  pose proof (scrape_and_store_spec cfg w target s0) as [Hlogs _].
  destruct (scrape_and_store cfg w target s0).1 as [n|e];
    destruct Hrun as [Hrun Hdb]; eexists _, _, s'; (split; [exact Hrun|]);
    rewrite Hdb; cbn [tbl_logs with_logs]; rewrite Hlogs;
    (split; [reflexivity|]); split_and!; try done; first [by left|by right].
Qed.

(** C1, as the code has it.  When the log store takes the entry, its
    [records_scraped] is the number of rows the data tables grew by
    during the job, and 0 on a failed job.  A rejection that the engine
    raises as [SQLAlchemyError] is absorbed by [_save_data]: the job is
    logged as [success] with 0 records.  Only an exception of another
    class leaving the persistence call makes the job [failed]. *)
Theorem records_scraped_counts_accepted target s :
  log_store_accepts w →
  let s0 := (log INFO ("Starting scraping job for: " +:+ target) s).2 in
  ∃ ok entry s',
    run_scraping_job cfg w target s = (Ret ok, s')
    ∧ tbl_logs (st_db s') = tbl_logs (st_db s) ++ [entry]
    ∧ field "records_scraped" entry
      = Some (VInt (Z.of_nat (data_rows (st_db s')) - Z.of_nat (data_rows (st_db s))))
    ∧ (field "status" entry = Some (VStr "failed") →
       field "records_scraped" entry = Some (VInt 0))
    ∧ (∀ recs e,
         known_target target →
         (scrape_target cfg w target (target_urls cfg target) s0).1 = Ret recs →
         db_fault w target (st_statements s) = Some e →
         (is_class SQLAlchemyError e = true →
          ok = true
          ∧ field "status" entry = Some (VStr "success")
          ∧ field "records_scraped" entry = Some (VInt 0))
         ∧ (is_class SQLAlchemyError e = false → recs ≠ [] →
            ok = false
            ∧ field "status" entry = Some (VStr "failed")
            ∧ field "records_scraped" entry = Some (VInt 0)
            ∧ field "error_message" entry = Some (VStr (exn_str e)))).
Proof.
  intros Hlog s0.
  destruct (run_scraping_job_logged cfg w target s Hlog) as [s' Hrun].
  fold s0 in Hrun.
  pose proof (scrape_and_store_spec cfg w target s0) as [Hlogs Hrows].
  pose proof (scrape_and_store_rejected target s0) as Hrej.
  pose proof (scrape_and_store_crashes target s0) as Hcrash.
  destruct (scrape_and_store cfg w target s0).1 as [n|e'];
    destruct Hrun as [Hrun Hdb]; eexists _, _, s'; (split; [exact Hrun|]);
    rewrite Hdb; cbn [tbl_logs with_logs]; rewrite Hlogs;
    (split; [reflexivity|]); split_and!.
  - cbn. do 2 f_equal. unfold data_rows in *. cbn in *. lia.
  - done.
  - intros recs e Hk Hs Hf. split.
    + intros Hc. specialize (Hrej recs e Hk Hs Hf Hc). by injection Hrej as ->.
    + intros Hc Hne. by specialize (Hcrash recs e Hk Hs Hne Hf Hc).
  - unfold data_rows. cbn [tbl_books tbl_products with_logs]. rewrite Hrows.
    cbn. do 2 f_equal. lia.
  - done.
  - intros recs e Hk Hs Hf. split.
    + intros Hc. by specialize (Hrej recs e Hk Hs Hf Hc).
    + intros Hc Hne. specialize (Hcrash recs e Hk Hs Hne Hf Hc). by injection Hcrash as ->.
Qed.
End Jobs.

Section Orchestrator.
Context (cfg : Config) (w : World).

Lemma get_scraping_stats_no_raise : no_raise (get_scraping_stats w).
Proof.
  unfold get_scraping_stats. apply no_raise_try_except. intros e.
  apply no_raise_bind; [apply log_no_raise|intros; apply no_raise_ret].
Qed.

Lemma get_scraping_stats_failed s k table e :
  stats_queries !! k = Some table →
  db_fault w table (st_statements s + k) = Some e →
  (get_scraping_stats w s).1 = Ret ∅.
Proof.
  intros Hk Hf. unfold get_scraping_stats.
  unfold try_except, bind, db_query.
  destruct (db_fault w "books" (st_statements s)) eqn:E0; [reflexivity|].
  change (st_statements (set_statements S s)) with (S (st_statements s)).
  destruct (db_fault w "products" (S (st_statements s))) eqn:E1; [reflexivity|].
  change (st_statements (set_statements S (set_statements S s)))
    with (S (S (st_statements s))).
  destruct (db_fault w "books" (S (S (st_statements s)))) eqn:E2; [reflexivity|].
  change (st_statements (set_statements S (set_statements S (set_statements S s))))
    with (S (S (S (st_statements s)))).
  destruct (db_fault w "products" (S (S (S (st_statements s))))) eqn:E3; [reflexivity|].
  change (st_statements
            (set_statements S (set_statements S (set_statements S (set_statements S s)))))
    with (S (S (S (S (st_statements s))))).
  destruct (db_fault w "scraping_logs" (S (S (S (S (st_statements s)))))) eqn:E4;
    [reflexivity|].
  exfalso.
  destruct k as [|[|[|[|[|k]]]]]; cbn in Hk; try done; injection Hk as <-;
    rewrite ?Nat.add_succ_r, ?Nat.add_0_r in Hf; congruence.
Qed.

Lemma keeps_clock_db_query {A} table (q : database → result A) :
  keeps st_clock (db_query w table q).
Proof. intros s. unfold db_query. by destruct (db_fault w table (st_statements s)). Qed.

Lemma keeps_clock_log l msg : keeps st_clock (log l msg).
Proof. intros s. unfold log. by destruct (level_enabled l). Qed.

Hint Resolve keeps_clock_db_query keeps_clock_log : keeps.

Lemma keeps_clock_stats : keeps st_clock (get_scraping_stats w).
Proof. unfold get_scraping_stats. solve_keeps. Qed.

Lemma generate_report_written stats results s :
  report_writable w →
  ∃ s', _generate_report w stats results s = (Ret (), s')
        ∧ st_files s' !! report_path
          = Some (FText (report_lines w (st_clock s) stats results)).
Proof.
  intros Hw. unfold _generate_report.
  erewrite run_bind_ret by apply run_now.
  erewrite run_bind_ret by reflexivity.
  unfold write_file. cbn [st_writes set_stdout]. fold report_path. rewrite Hw.
  eexists. split; [reflexivity|]. cbn. apply lookup_insert_eq.
Qed.

Lemma run_sleep site secs s :
  0 ≤ secs → sleep site secs s = (Ret (), (sleep site secs s).2).
Proof. intros H. unfold sleep. by destruct (Z.ltb_spec secs 0); [lia|]. Qed.

Lemma run_target_runs target results s :
  log_store_fails_softly w →
  ∃ ok s1,
    run_scraping_job cfg w target s = (Ret ok, s1)
    ∧ run_target cfg w target results s
      = (Ret (<[target := ok]> results), (sleep JobPause 2 s1).2).
Proof.
  intros Hsoft.
  destruct (no_raise_inv (run_scraping_job cfg w target) s
              (run_scraping_job_no_raise cfg w target Hsoft)) as [ok Hok].
  exists ok, (run_scraping_job cfg w target s).2.
  assert (run_scraping_job cfg w target s = (Ret ok, (run_scraping_job cfg w target s).2))
    as Hrun by (rewrite (pair_eta (run_scraping_job _ _ _)), Hok; reflexivity).
  split; [exact Hrun|]. unfold run_target.
  erewrite run_bind_ret by exact Hrun.
  erewrite run_bind_ret by (apply run_sleep; lia). reflexivity.
Qed.

(** C7, as the code has it.  Provided the log store fails only with its
    own error class and the report file can be written, a run never
    raises and never stops early: it runs the books job, then the
    products job, whatever the first returned, returns a mapping with
    both targets, and writes the report from the statistics, which are
    empty when one of the five statistics queries raises, so that the
    report shows the defaults. *)
Theorem run_all_completes s :
  log_store_fails_softly w →
  report_writable w →
  ∃ ok_books ok_products s1 s2 stats s',
    run_scraping_job cfg w "books" (log INFO "Starting all scraping jobs" s).2
    = (Ret ok_books, s1)
    ∧ run_scraping_job cfg w "products" (sleep JobPause 2 s1).2 = (Ret ok_products, s2)
    ∧ let results : gmap string bool :=
        <["products" := ok_products]> (<["books" := ok_books]> ∅) in
      let s3 := (sleep JobPause 2 s2).2 in
      run_all_scraping_jobs cfg w s = (Ret results, s')
      ∧ dom results = {["books"; "products"]}
      ∧ (get_scraping_stats w s3).1 = Ret stats
      ∧ st_files s' !! report_path
        = Some (FText (report_lines w (st_clock s3) stats results))
      ∧ (∀ k table e,
           stats_queries !! k = Some table →
           db_fault w table (st_statements s3 + k) = Some e →
           stats = ∅
              ∧ get_or stats "total_books" (VInt 0) = VInt 0
              ∧ get_or stats "total_products" (VInt 0) = VInt 0
              ∧ get_or stats "last_book_scrape" (VStr "Never") = VStr "Never"
              ∧ get_or stats "last_product_scrape" (VStr "Never") = VStr "Never"
              ∧ get_or stats "success_rate" (VInt 0) = VInt 0).
Proof.
  intros Hsoft Hw.
  set (s0 := (log INFO "Starting all scraping jobs" s).2).
  destruct (run_target_runs "books" ∅ s0 Hsoft) as (okb & s1 & Hb & Hrb).
  destruct (run_target_runs "products" (<["books" := okb]> ∅) (sleep JobPause 2 s1).2 Hsoft)
    as (okp & s2 & Hp & Hrp).
  set (s3 := (sleep JobPause 2 s2).2) in *.
  destruct (no_raise_inv (get_scraping_stats w) s3 get_scraping_stats_no_raise)
    as [stats Hstats].
  set (s4 := (get_scraping_stats w s3).2).
  set (results := <["products" := okp]> (<["books" := okb]> (∅ : gmap string bool))).
  destruct (generate_report_written stats results s4 Hw) as (s5 & Hrep & Hfile).
  exists okb, okp, s1, s2, stats, (log INFO "All scraping jobs completed" s5).2.
  split; [exact Hb|]. split; [exact Hp|]. cbn zeta. fold results. split_and!.
  - unfold run_all_scraping_jobs.
    erewrite run_bind_ret by apply run_log. fold s0.
    erewrite run_bind_ret.
    2:{ cbn [for_each]. erewrite run_bind_ret by exact Hrb.
        erewrite run_bind_ret by exact Hrp. reflexivity. }
    fold s3 results.
    erewrite run_bind_ret by (rewrite (pair_eta (get_scraping_stats _)), Hstats; reflexivity).
    fold s4.
    erewrite run_bind_ret by exact Hrep.
    erewrite run_bind_ret by apply run_log. reflexivity.
  - unfold results. rewrite !dom_insert_L, dom_empty_L. set_solver.
  - exact Hstats.
  - rewrite keeps_log_files, Hfile. do 3 f_equal. apply (keeps_clock_stats s3).
  - intros k table e Hk He. rewrite (get_scraping_stats_failed s3 k table e Hk He) in Hstats.
    injection Hstats as <-. by split_and!.
Qed.
End Orchestrator.

Section Exports.
Context (w : World).

Lemma save_data_grows table data s :
  known_target table →
  match (_save_data w data table s).1 with
  | Ret n => Z.of_nat (length (stored_rows table (st_db (_save_data w data table s).2)))
             = Z.of_nat (length (stored_rows table (st_db s))) + n
  | Raise _ => True
  end.
Proof.
  intros [-> | ->].
  - pose proof (save_books_spec w data s) as (_ & _ & H). unfold save_books in H.
    by destruct (_save_data w data "books" s).1.
  - pose proof (save_products_spec w data s) as (_ & _ & H). unfold save_products in H.
    by destruct (_save_data w data "products" s).1.
Qed.

Lemma export_to_csv_file table filename s path s' :
  known_target table →
  export_to_csv w table filename s = (Ret (Some path), s') →
  ∃ df, st_files s' !! path = Some (FCsv df)
        ∧ length (df_rows df) = length (stored_rows table (st_db s)).
Proof.
  intros Hk. unfold export_to_csv, try_except.
  destruct (bind (read_sql_query w table) _ s) as [[p|e] s1] eqn:E; cbn [any_exception].
  2:{ erewrite run_bind_ret by apply run_log. done. }
  intros [= -> ->]. revert E. unfold bind at 1.
  unfold read_sql_query, db_query.
  destruct (db_fault w table (st_statements s)) as [e|]; [done|].
  assert (select_all table (st_db s)
          = Ret (if String.eqb table "books" then books_columns else products_columns,
                 stored_rows table (st_db s))) as ->
    by (by destruct Hk as [-> | ->]).
  cbn [mbind result_bind rbind mret result_ret fst snd].
  unfold bind at 1. unfold write_file. cbn [st_writes set_statements].
  destruct (fs_fault w _ _) as [e|]; [done|].
  erewrite run_bind_ret by apply run_log. intros [= <- <-].
  eexists. cbn [st_files set_files set_logger set_statements].
  rewrite lookup_insert_eq. split; [reflexivity|]. cbn. by rewrite length_fmap.
Qed.

(** C9, as the code has it.  The export reads the whole table, and the
    table keeps the rows of earlier runs: after storing a record
    sequence, a successful export writes a file whose row count is the
    number of rows the table held before plus the count the store
    returned, so it is that count exactly when the table was empty. *)
Theorem export_after_save_counts table data filename s n s1 path s2 :
  known_target table →
  _save_data w data table s = (Ret n, s1) →
  export_to_csv w table filename s1 = (Ret (Some path), s2) →
  ∃ f, st_files s2 !! path = Some f
       ∧ Z.of_nat (csv_rows f) = Z.of_nat (length (stored_rows table (st_db s))) + n
       ∧ (stored_rows table (st_db s) = [] → Z.of_nat (csv_rows f) = n).
Proof.
  intros Hk Hsave Hexp.
  destruct (export_to_csv_file table filename s1 path s2 Hk Hexp) as (df & Hf & Hlen).
  pose proof (save_data_grows table data s Hk) as Hg. rewrite Hsave in Hg. cbn in Hg.
  exists (FCsv df). split; [done|]. cbn [csv_rows]. rewrite Hlen, Hg.
  split; [done|]. intros ->. cbn. lia.
Qed.
End Exports.

Section Extract.
Context (cfg : Config) (w : World).

Lemma get_book_description_no_raise path : no_raise (_get_book_description cfg w path).
Proof.
  unfold _get_book_description. apply no_raise_try_except. intros e. apply no_raise_ret.
Qed.

Lemma parse_book_dropped url book acc s e :
  book_fields w url book = Raise e →
  parse_book cfg w url book acc s
  = (Ret acc, (log ERROR ("Error parsing book: " +:+ exn_str e) s).2).
Proof.
  intros H. unfold parse_book.
  erewrite run_try_handled; [| |reflexivity].
  2:{ erewrite run_bind_raise; [reflexivity|]. unfold scrape_book.
      erewrite run_bind_raise; [reflexivity|]. unfold lift. by rewrite H. }
  by erewrite run_bind_ret by apply run_log.
Qed.

Lemma parse_book_kept url book acc s fields :
  book_fields w url book = Ret fields →
  ∃ d s', parse_book cfg w url book acc s
          = (Ret (acc ++ [fields.1 ++ [("description", VStr d)]]), s').
Proof.
  intros H. unfold parse_book.
  destruct (no_raise_inv (_get_book_description cfg w fields.2) s
              (get_book_description_no_raise _)) as [d Hd].
  exists d. eexists.
  erewrite run_try_ret; [reflexivity|].
  erewrite run_bind_ret.
  2:{ unfold scrape_book. erewrite run_bind_ret by (unfold lift; rewrite H; reflexivity).
      erewrite run_bind_ret
        by (rewrite (pair_eta (_get_book_description _ _ _)), Hd; reflexivity).
      reflexivity. }
  erewrite run_bind_ret by apply run_log. reflexivity.
Qed.

Lemma parse_product_dropped url product acc s e :
  scrape_product w url product = Raise e →
  parse_product w url product acc s
  = (Ret acc, (log ERROR ("Error parsing product: " +:+ exn_str e) s).2).
Proof.
  intros H. unfold parse_product.
  erewrite run_try_handled; [| |reflexivity].
  2:{ erewrite run_bind_raise; [reflexivity|]. unfold lift. by rewrite H. }
  by erewrite run_bind_ret by apply run_log.
Qed.

Lemma parse_product_kept url product acc s rec :
  scrape_product w url product = Ret rec →
  parse_product w url product acc s = (Ret (acc ++ [rec]), s).
Proof.
  intros H. unfold parse_product.
  erewrite run_try_ret; [reflexivity|].
  erewrite run_bind_ret by (unfold lift; rewrite H; reflexivity).
  erewrite run_bind_ret by apply run_log. reflexivity.
Qed.

Lemma for_each_parse_product url items : ∀ acc s,
  for_each items (parse_product w url) acc s
  = (Ret (acc ++ omap (λ item, parses (scrape_product w url item)) items),
     set_logger (λ ls, ls ++ omap (λ item, dropped "Error parsing product: "
                                             (scrape_product w url item)) items) s).
Proof.
  induction items as [|item items IH]; intros acc s; cbn [for_each omap].
  - unfold ret. f_equal; [by rewrite app_nil_r|].
    destruct s. unfold set_logger. cbn. by rewrite app_nil_r.
  - destruct (scrape_product w url item) as [rec|e] eqn:E.
    + erewrite run_bind_ret by (by apply parse_product_kept).
      rewrite IH. cbn [omap list_omap]. rewrite E. cbn [parses dropped].
      by rewrite <- app_assoc.
    + erewrite run_bind_ret by (by apply parse_product_dropped).
      rewrite IH. cbn [omap list_omap]. rewrite E. cbn [parses dropped].
      f_equal. destruct s. unfold set_logger. cbn. f_equal. by rewrite <- app_assoc.
Qed.

Lemma for_each_parse_book url items : ∀ acc s,
  ∃ recs s',
    for_each items (parse_book cfg w url) acc s = (Ret (acc ++ recs), s')
    ∧ Forall2 (λ rec (fields : record * string),
                 ∃ d, rec = fields.1 ++ [("description", VStr d)])
              recs (omap (λ item, parses (book_fields w url item)) items).
Proof.
  induction items as [|item items IH]; intros acc s; cbn [for_each omap].
  - exists [], s. by rewrite app_nil_r.
  - cbn [list_omap]. destruct (book_fields w url item) as [fields|e] eqn:E; cbn [parses].
    + destruct (parse_book_kept url item acc s fields E) as (d & s1 & H1).
      destruct (IH (acc ++ [fields.1 ++ [("description", VStr d)]]) s1) as (recs & s' & H2 & HF).
      exists ((fields.1 ++ [("description", VStr d)]) :: recs), s'. split.
      * erewrite run_bind_ret by exact H1. rewrite H2. by rewrite <- app_assoc.
      * constructor; [by exists d|done].
    + destruct (IH acc (log ERROR ("Error parsing book: " +:+ exn_str e) s).2)
        as (recs & s' & H2 & HF).
      exists recs, s'. split; [|done].
      erewrite run_bind_ret by (by apply parse_book_dropped). exact H2.
Qed.

(** C6, as the code has it.  Extraction never raises because of a
    malformed item.  An item whose parsing raises is dropped with one
    record of the logger, at [ERROR] level, and nothing else changes; the
    loop goes on, and the result holds a record for every remaining
    item, in page order. *)
Theorem extract_isolates_malformed_items url soup acc s :
  (∀ book e, book_fields w url book = Raise e →
     parse_book cfg w url book acc s
     = (Ret acc, (log ERROR ("Error parsing book: " +:+ exn_str e) s).2))
  ∧ (∀ product e, scrape_product w url product = Raise e →
       parse_product w url product acc s
       = (Ret acc, (log ERROR ("Error parsing product: " +:+ exn_str e) s).2))
  ∧ (∃ recs s',
       extract_books cfg w url soup acc s = (Ret (acc ++ recs), s')
       ∧ Forall2 (λ rec (fields : record * string),
                    ∃ d, rec = fields.1 ++ [("description", VStr d)])
                 recs (omap (λ item, parses (book_fields w url item)) (book_items soup)))
  ∧ extract_products w url soup acc s
    = (Ret (acc ++ omap (λ item, parses (scrape_product w url item)) (product_items soup)),
       set_logger (λ ls, ls ++ omap (λ item, dropped "Error parsing product: "
                                               (scrape_product w url item))
                                    (product_items soup)) s).
Proof.
  split_and!.
  - intros book e. apply parse_book_dropped.
  - intros product e. apply parse_product_dropped.
  - apply for_each_parse_book.
  - apply for_each_parse_product.
Qed.
End Extract.

Section Steps.
Context (cfg : Config) (w : World).

Lemma bind_ret_r {A} (m : M A) s : bind m ret s = m s.
Proof. unfold bind, ret. by destruct (m s) as [[a|e] s']. Qed.

Lemma extract_books_no_raise url soup acc : no_raise (extract_books cfg w url soup acc).
Proof.
  intros s. destruct (for_each_parse_book cfg w url (book_items soup) acc s)
    as (recs & s' & H & _).
  unfold extract_books. fold (book_items soup). by rewrite H.
Qed.

Lemma extract_products_no_raise url soup acc : no_raise (extract_products w url soup acc).
Proof.
  intros s. unfold extract_products. fold (product_items soup).
  by rewrite for_each_parse_product.
Qed.

(** The step for one URL when the fetch gave nothing to parse. *)
Lemma scrape_books_url_skip url acc s content :
  let s0 := (log INFO ("Scraping books from: " +:+ url) s).2 in
  (fetch_page cfg w url s0).1 = Ret content →
  falsy content = true →
  scrape_books_url cfg w url acc s = (Ret acc, (fetch_page cfg w url s0).2).
Proof.
  intros s0 Hf Hc. unfold scrape_books_url.
  erewrite run_bind_ret by apply run_log. fold s0.
  erewrite run_bind_ret by (rewrite (pair_eta (fetch_page _ _ _)), Hf; reflexivity).
  by rewrite Hc.
Qed.

Lemma scrape_products_url_skip url acc s content :
  let s0 := (log INFO ("Scraping products from: " +:+ url) s).2 in
  (fetch_page cfg w url s0).1 = Ret content →
  falsy content = true →
  scrape_products_url cfg w url acc s = (Ret acc, (fetch_page cfg w url s0).2).
Proof.
  intros s0 Hf Hc. unfold scrape_products_url.
  erewrite run_bind_ret by apply run_log. fold s0.
  erewrite run_bind_ret by (rewrite (pair_eta (fetch_page _ _ _)), Hf; reflexivity).
  by rewrite Hc.
Qed.

(** The step for one URL when the fetch gave a page. *)
Lemma scrape_books_url_page url acc s content :
  0 ≤ delay_between_requests cfg →
  let s0 := (log INFO ("Scraping books from: " +:+ url) s).2 in
  let s1 := (fetch_page cfg w url s0).2 in
  (fetch_page cfg w url s0).1 = Ret content →
  falsy content = false →
  ∃ acc' s2,
    extract_books cfg w url (parse_html w (default "" content)) acc s1 = (Ret acc', s2)
    ∧ scrape_books_url cfg w url acc s
      = (Ret acc', (sleep Politeness (delay_between_requests cfg) s2).2)
    ∧ st_events (sleep Politeness (delay_between_requests cfg) s2).2
      = st_events s2 ++ [EvSleep Politeness (delay_between_requests cfg)].
Proof.
  intros Hd s0 s1 Hf Hc.
  destruct (no_raise_inv (extract_books cfg w url (parse_html w (default "" content)) acc) s1
              (extract_books_no_raise _ _ _)) as [acc' Hx].
  exists acc', (extract_books cfg w url (parse_html w (default "" content)) acc s1).2.
  assert (extract_books cfg w url (parse_html w (default "" content)) acc s1
          = (Ret acc', (extract_books cfg w url (parse_html w (default "" content)) acc s1).2))
    as Hx' by (rewrite (pair_eta (extract_books _ _ _ _ _)), Hx; reflexivity).
  split_and!; [exact Hx'| |].
  - unfold scrape_books_url.
    erewrite run_bind_ret by apply run_log. fold s0.
    erewrite run_bind_ret by (rewrite (pair_eta (fetch_page _ _ _)), Hf; reflexivity).
    rewrite Hc. fold s1.
    erewrite run_bind_ret by exact Hx'.
    erewrite run_bind_ret by (by apply run_sleep). reflexivity.
  - unfold sleep. by destruct (Z.ltb_spec (delay_between_requests cfg) 0); [lia|].
Qed.

Lemma scrape_products_url_page url acc s content :
  0 ≤ delay_between_requests cfg →
  let s0 := (log INFO ("Scraping products from: " +:+ url) s).2 in
  let s1 := (fetch_page cfg w url s0).2 in
  (fetch_page cfg w url s0).1 = Ret content →
  falsy content = false →
  ∃ acc' s2,
    extract_products w url (parse_html w (default "" content)) acc s1 = (Ret acc', s2)
    ∧ scrape_products_url cfg w url acc s
      = (Ret acc', (sleep Politeness (delay_between_requests cfg) s2).2)
    ∧ st_events (sleep Politeness (delay_between_requests cfg) s2).2
      = st_events s2 ++ [EvSleep Politeness (delay_between_requests cfg)].
Proof.
  intros Hd s0 s1 Hf Hc.
  destruct (no_raise_inv (extract_products w url (parse_html w (default "" content)) acc) s1
              (extract_products_no_raise _ _ _)) as [acc' Hx].
  exists acc', (extract_products w url (parse_html w (default "" content)) acc s1).2.
  assert (extract_products w url (parse_html w (default "" content)) acc s1
          = (Ret acc', (extract_products w url (parse_html w (default "" content)) acc s1).2))
    as Hx' by (rewrite (pair_eta (extract_products _ _ _ _)), Hx; reflexivity).
  split_and!; [exact Hx'| |].
  - unfold scrape_products_url.
    erewrite run_bind_ret by apply run_log. fold s0.
    erewrite run_bind_ret by (rewrite (pair_eta (fetch_page _ _ _)), Hf; reflexivity).
    rewrite Hc. fold s1.
    erewrite run_bind_ret by exact Hx'.
    erewrite run_bind_ret by (by apply run_sleep). reflexivity.
  - unfold sleep. by destruct (Z.ltb_spec (delay_between_requests cfg) 0); [lia|].
Qed.

(** Only the politeness sleep adds a politeness wait to the trace. *)
Lemma keeps_waits_log l msg : keeps politeness_waits (log l msg).
Proof. intros s. unfold log. by destruct (level_enabled l). Qed.

Lemma keeps_waits_session_get url : keeps politeness_waits (session_get w url).
Proof.
  intros s. unfold politeness_waits. cbn. by rewrite List.filter_app, length_app, Nat.add_0_r.
Qed.

Lemma keeps_waits_backoff secs : keeps politeness_waits (sleep Backoff secs).
Proof.
  intros s. unfold sleep. destruct (secs <? 0); [done|].
  unfold politeness_waits. cbn. by rewrite List.filter_app, length_app, Nat.add_0_r.
Qed.

Hint Resolve keeps_waits_log keeps_waits_session_get keeps_waits_backoff : keeps.

Lemma keeps_waits_fetch_attempts url attempts :
  keeps politeness_waits (fetch_attempts cfg w url attempts).
Proof.
  induction attempts as [|attempt rest IH]; cbn [fetch_attempts]; solve_keeps.
Qed.

Lemma keeps_waits_fetch_page url : keeps politeness_waits (fetch_page cfg w url).
Proof. apply keeps_waits_fetch_attempts. Qed.

Hint Resolve keeps_waits_fetch_page : keeps.

Lemma keeps_waits_extract_books url soup acc :
  keeps politeness_waits (extract_books cfg w url soup acc).
Proof.
  unfold extract_books, parse_book, scrape_book, _get_book_description. solve_keeps.
Qed.

Lemma keeps_waits_extract_products url soup acc :
  keeps politeness_waits (extract_products w url soup acc).
Proof. unfold extract_products, parse_product. solve_keeps. Qed.

Lemma politeness_sleep_counts s :
  0 ≤ delay_between_requests cfg →
  politeness_waits (sleep Politeness (delay_between_requests cfg) s).2
  = S (politeness_waits s).
Proof.
  intros Hd. unfold sleep. destruct (Z.ltb_spec (delay_between_requests cfg) 0); [lia|].
  unfold politeness_waits. cbn. rewrite List.filter_app, length_app. cbn. lia.
Qed.

Lemma fetch_page_content url s :
  0 < max_retries cfg →
  always_content w [url] →
  ∃ html, (fetch_page cfg w url s).1 = Ret (Some html) ∧ html ≠ "".
Proof.
  intros Hmax Hc. destruct (Hc url (st_requests s)) as (html & Hget & Hne); [by left|].
  exists html. split; [|done].
  destruct (fetch_page_backoff cfg w url s (Z.to_nat (max_retries cfg)))
    as (_ & _ & H); [lia|lia|].
  destruct (H 0%nat html) as (H1 & _); [lia|intros k Hk; lia| |done].
  by rewrite Nat.add_0_r.
Qed.

Lemma falsy_content html : html ≠ "" → falsy (Some html) = false.
Proof. intros H. cbn. by apply String.eqb_neq. Qed.

Lemma for_each_counts {A S} (xs : list A) (body : A → S → M S) (g : state → nat) c :
  (∀ x acc s, x ∈ xs →
     raises (body x acc s).1 = false ∧ g (body x acc s).2 = (g s + c)%nat) →
  ∀ acc s, raises (for_each xs body acc s).1 = false
           ∧ g (for_each xs body acc s).2 = (g s + c * length xs)%nat.
Proof.
  induction xs as [|x xs IH]; intros Hb acc s; cbn [for_each length].
  - split; [done|]. cbn. lia.
  - destruct (Hb x acc s) as [Hr Hg]; [by left|]. unfold bind.
    destruct (body x acc s) as [[acc'|e] s']; [|done]. cbn in Hg.
    destruct (IH (λ y acc0 s0 Hy, Hb y acc0 s0 (list_elem_of_further _ _ _ Hy)) acc' s')
      as [Hr' Hg'].
    split; [done|]. rewrite Hg', Hg. lia.
Qed.

(** The steps over a whole URL list. *)
Lemma scrape_books_waits urls s :
  0 ≤ delay_between_requests cfg →
  0 < max_retries cfg →
  (always_content w urls →
   politeness_waits (scrape_books cfg w urls s).2 = (politeness_waits s + length urls)%nat)
  ∧ ((∀ url i, url ∈ urls → request_fails w url i) →
     politeness_waits (scrape_books cfg w urls s).2 = politeness_waits s).
Proof.
  intros Hd Hmax. unfold scrape_books. split; intros H.
  - destruct (for_each_counts urls (scrape_books_url cfg w) politeness_waits 1) with
      (acc := @nil record) (s := s) as [_ Hg]; [|rewrite Hg; lia].
    intros url acc s' Hin.
    destruct (fetch_page_content url (log INFO ("Scraping books from: " +:+ url) s').2 Hmax)
      as (html & Hf & Hne).
    { intros u i Hu. apply list_elem_of_singleton in Hu as ->. by apply H. }
    destruct (scrape_books_url_page url acc s' (Some html) Hd Hf (falsy_content _ Hne))
      as (acc' & s2 & Hx & -> & _).
    split; [done|]. cbn [snd]. rewrite politeness_sleep_counts by done.
    assert (s2 = (extract_books cfg w url (parse_html w (default "" (Some html))) acc
                    (fetch_page cfg w url
                       (log INFO ("Scraping books from: " +:+ url) s').2).2).2) as ->
      by (by rewrite Hx).
    rewrite keeps_waits_extract_books, keeps_waits_fetch_page, keeps_waits_log. lia.
  - destruct (for_each_counts urls (scrape_books_url cfg w) politeness_waits 0) with
      (acc := @nil record) (s := s) as [_ Hg]; [|rewrite Hg; lia].
    intros url acc s' Hin.
    rewrite (scrape_books_url_skip url acc s' None);
      [|by apply fetch_page_all_fail; intros i; apply H|done].
    split; [done|]. cbn [snd]. rewrite keeps_waits_fetch_page, keeps_waits_log. lia.
Qed.

Lemma scrape_products_waits urls s :
  0 ≤ delay_between_requests cfg →
  0 < max_retries cfg →
  (always_content w urls →
   politeness_waits (scrape_products cfg w urls s).2
   = (politeness_waits s + length urls)%nat)
  ∧ ((∀ url i, url ∈ urls → request_fails w url i) →
     politeness_waits (scrape_products cfg w urls s).2 = politeness_waits s).
Proof.
  intros Hd Hmax. unfold scrape_products. split; intros H.
  - destruct (for_each_counts urls (scrape_products_url cfg w) politeness_waits 1) with
      (acc := @nil record) (s := s) as [_ Hg]; [|rewrite Hg; lia].
    intros url acc s' Hin.
    destruct (fetch_page_content url (log INFO ("Scraping products from: " +:+ url) s').2
                Hmax) as (html & Hf & Hne).
    { intros u i Hu. apply list_elem_of_singleton in Hu as ->. by apply H. }
    destruct (scrape_products_url_page url acc s' (Some html) Hd Hf (falsy_content _ Hne))
      as (acc' & s2 & Hx & -> & _).
    split; [done|]. cbn [snd]. rewrite politeness_sleep_counts by done.
    assert (s2 = (extract_products w url (parse_html w (default "" (Some html))) acc
                    (fetch_page cfg w url
                       (log INFO ("Scraping products from: " +:+ url) s').2).2).2) as ->
      by (by rewrite Hx).
    rewrite keeps_waits_extract_products, keeps_waits_fetch_page, keeps_waits_log. lia.
  - destruct (for_each_counts urls (scrape_products_url cfg w) politeness_waits 0) with
      (acc := @nil record) (s := s) as [_ Hg]; [|rewrite Hg; lia].
    intros url acc s' Hin.
    rewrite (scrape_products_url_skip url acc s' None);
      [|by apply fetch_page_all_fail; intros i; apply H|done].
    split; [done|]. cbn [snd]. rewrite keeps_waits_fetch_page, keeps_waits_log. lia.
Qed.

(** C4, as the code has it.  The politeness delay follows the
    extraction of a page: after every URL whose fetch returned content
    that is not empty, the last one included, the scraper waits the
    configured delay; after a URL whose fetch returned absent, or the
    empty string, it does not wait at all.  So a list of URLs that all
    answer with a page costs as many waits as it has URLs, and a list
    of URLs that all fail costs none. *)
Theorem politeness_delay_follows_content url acc s content :
  0 ≤ delay_between_requests cfg →
  let b0 := (log INFO ("Scraping books from: " +:+ url) s).2 in
  let p0 := (log INFO ("Scraping products from: " +:+ url) s).2 in
  ((fetch_page cfg w url b0).1 = Ret content →
   if falsy content
   then scrape_books_url cfg w url acc s = (Ret acc, (fetch_page cfg w url b0).2)
   else ∃ acc' s2,
       extract_books cfg w url (parse_html w (default "" content)) acc
                     (fetch_page cfg w url b0).2 = (Ret acc', s2)
       ∧ scrape_books_url cfg w url acc s
         = (Ret acc', (sleep Politeness (delay_between_requests cfg) s2).2)
       ∧ st_events (sleep Politeness (delay_between_requests cfg) s2).2
         = st_events s2 ++ [EvSleep Politeness (delay_between_requests cfg)])
  ∧ ((fetch_page cfg w url p0).1 = Ret content →
     if falsy content
     then scrape_products_url cfg w url acc s = (Ret acc, (fetch_page cfg w url p0).2)
     else ∃ acc' s2,
         extract_products w url (parse_html w (default "" content)) acc
                          (fetch_page cfg w url p0).2 = (Ret acc', s2)
         ∧ scrape_products_url cfg w url acc s
           = (Ret acc', (sleep Politeness (delay_between_requests cfg) s2).2)
         ∧ st_events (sleep Politeness (delay_between_requests cfg) s2).2
           = st_events s2 ++ [EvSleep Politeness (delay_between_requests cfg)])
  ∧ (∀ urls,
       scrape_books cfg w (urls ++ [url]) s
       = (do all_books <- scrape_books cfg w urls; scrape_books_url cfg w url all_books) s
       ∧ scrape_products cfg w (urls ++ [url]) s
         = (do all_products <- scrape_products cfg w urls;
            scrape_products_url cfg w url all_products) s)
  ∧ (∀ urls,
       0 < max_retries cfg →
       (always_content w urls →
        politeness_waits (scrape_books cfg w urls s).2
        = (politeness_waits s + length urls)%nat
        ∧ politeness_waits (scrape_products cfg w urls s).2
          = (politeness_waits s + length urls)%nat)
       ∧ ((∀ u i, u ∈ urls → request_fails w u i) →
          politeness_waits (scrape_books cfg w urls s).2 = politeness_waits s
          ∧ politeness_waits (scrape_products cfg w urls s).2 = politeness_waits s)).
Proof.
  intros Hd b0 p0. split_and!.
  - intros Hf. destruct (falsy content) eqn:Hc.
    + by apply (scrape_books_url_skip url acc s content).
    + by apply (scrape_books_url_page url acc s content).
  - intros Hf. destruct (falsy content) eqn:Hc.
    + by apply (scrape_products_url_skip url acc s content).
    + by apply (scrape_products_url_page url acc s content).
  - intros urls. unfold scrape_books, scrape_products. rewrite !for_each_app.
    cbn [for_each]. unfold bind at 1 3 4 6.
    split.
    + destruct (for_each urls _ [] s) as [[a|e] s']; [apply bind_ret_r|done].
    + destruct (for_each urls _ [] s) as [[a|e] s']; [apply bind_ret_r|done].
  - intros urls Hmax.
    destruct (scrape_books_waits urls s Hd Hmax) as [Hb1 Hb2].
    destruct (scrape_products_waits urls s Hd Hmax) as [Hp1 Hp2].
    split; intros H; split; auto.
Qed.

(** C10.  An empty page counts as no page.  The fetcher returns the
    empty text of a successful response at once, after one request and
    without a retry; the scrapers then take the same branch as for an
    absent page: nothing is parsed, no record is added and the state is
    the one the fetch left, so the scrape of that URL consists of the
    single request. *)
Theorem empty_page_is_skipped url acc s :
  0 < max_retries cfg →
  http_get w url (st_requests s) = Ret "" →
  ((fetch_page cfg w url s).1 = Ret (Some "")
   ∧ st_events (fetch_page cfg w url s).2 = st_events s ++ [EvGet url]
   ∧ st_requests (fetch_page cfg w url s).2 = S (st_requests s))
  ∧ (∀ content,
       falsy content = true →
       ((fetch_page cfg w url (log INFO ("Scraping books from: " +:+ url) s).2).1
        = Ret content →
        scrape_books_url cfg w url acc s
        = (Ret acc, (fetch_page cfg w url (log INFO ("Scraping books from: " +:+ url) s).2).2))
       ∧ ((fetch_page cfg w url (log INFO ("Scraping products from: " +:+ url) s).2).1
          = Ret content →
          scrape_products_url cfg w url acc s
          = (Ret acc,
             (fetch_page cfg w url (log INFO ("Scraping products from: " +:+ url) s).2).2)))
  ∧ (scrape_books_url cfg w url acc s).1 = Ret acc
  ∧ st_events (scrape_books_url cfg w url acc s).2 = st_events s ++ [EvGet url]
  ∧ (scrape_products_url cfg w url acc s).1 = Ret acc
  ∧ st_events (scrape_products_url cfg w url acc s).2 = st_events s ++ [EvGet url].
Proof.
  intros Hmax Hget.
  assert (∀ s', st_requests s' = st_requests s →
            (fetch_page cfg w url s').1 = Ret (Some "")
            ∧ st_events (fetch_page cfg w url s').2 = st_events s' ++ [EvGet url]
            ∧ st_requests (fetch_page cfg w url s').2 = S (st_requests s')) as Hfetch.
  { intros s' Hs'.
    destruct (fetch_page_backoff cfg w url s' (Z.to_nat (max_retries cfg)))
      as (_ & _ & H); [lia|lia|].
    destruct (H 0%nat "") as (H1 & H2 & H3); [lia|intros k Hk; lia| |].
    - by rewrite Nat.add_0_r, Hs'.
    - split_and!; [done|done|]. rewrite H3. lia. }
  split; [|split; [|split_and!]].
  - by apply Hfetch.
  - intros content Hc. split; intros Hf.
    + by apply (scrape_books_url_skip url acc s content).
    + by apply (scrape_products_url_skip url acc s content).
  - destruct (Hfetch (log INFO ("Scraping books from: " +:+ url) s).2) as (H1 & _); [done|].
    by rewrite (scrape_books_url_skip url acc s (Some "")).
  - destruct (Hfetch (log INFO ("Scraping books from: " +:+ url) s).2) as (H1 & H2 & _);
      [done|].
    by rewrite (scrape_books_url_skip url acc s (Some "")).
  - destruct (Hfetch (log INFO ("Scraping products from: " +:+ url) s).2) as (H1 & _); [done|].
    by rewrite (scrape_products_url_skip url acc s (Some "")).
  - destruct (Hfetch (log INFO ("Scraping products from: " +:+ url) s).2) as (H1 & H2 & _);
      [done|].
    by rewrite (scrape_products_url_skip url acc s (Some "")).
Qed.
End Steps.

Section Defaults.
Context (cfg : Config) (w : World).

Lemma scrape_product_defaults url product :
  present_elements_parse w product →
  ∃ rec,
    scrape_product w url product = Ret rec
    ∧ (name_elem product = None →
       field "name" rec = Some (VStr "N/A") ∧ field "url" rec = Some (VStr url))
    ∧ (price_elem product = None → field "price" rec = Some (VFloat 0%float))
    ∧ (desc_elem product = None → field "description" rec = Some (VStr ""))
    ∧ (rating_elem product = None → field "rating" rec = Some (VFloat 0%float))
    ∧ (reviews_elem product = None → field "reviews" rec = Some (VInt 0)).
Proof.
  intros (Hprice & Hrating & Hreviews & Hname). unfold scrape_product. cbv zeta.
  fold (name_elem product) (price_elem product) (desc_elem product)
       (rating_elem product) (reviews_elem product).
  assert (∃ price, match price_elem product with
                   | Some e => to_float w (PyStr.replace "$" "" (Soup.text e))
                   | None => mret 0%float
                   end = Ret price
                   ∧ (price_elem product = None → price = 0%float))
    as (price & -> & Hp).
  { destruct (price_elem product) as [e|]; [|by eexists].
    destruct (Hprice e eq_refl) as [f Hf]. exists f. unfold to_float. by rewrite Hf. }
  assert (∃ rating, match rating_elem product with
                    | Some e => v ← subscript (Some e) "data-rating"; to_float w v
                    | None => mret 0%float
                    end = Ret rating
                    ∧ (rating_elem product = None → rating = 0%float))
    as (rating & -> & Hr).
  { destruct (rating_elem product) as [e|]; [|by eexists].
    destruct (Hrating e eq_refl) as (v & Hv & f & Hf). exists f.
    unfold subscript, to_float. rewrite Hv. cbn. by rewrite Hf. }
  assert (∃ reviews, match reviews_elem product with
                     | Some e => tok ← index (PyStr.split_ws (Soup.text e)) 0; to_int w tok
                     | None => mret 0
                     end = Ret reviews
                     ∧ (reviews_elem product = None → reviews = 0))
    as (reviews & -> & Hv).
  { destruct (reviews_elem product) as [e|]; [|by eexists].
    destruct (Hreviews e eq_refl) as (tok & Htok & n & Hn). exists n.
    unfold index, to_int. rewrite Htok. cbn. by rewrite Hn. }
  assert (∃ link, match name_elem product with
                  | Some e => h ← subscript (Some e) "href"; mret ("https://webscraper.io" +:+ h)
                  | None => mret url
                  end = Ret link
                  ∧ (name_elem product = None → link = url))
    as (link & -> & Hl).
  { destruct (name_elem product) as [e|]; [|by eexists].
    destruct (Hname e eq_refl) as [h Hh]. eexists. unfold subscript. by rewrite Hh. }
  eexists. split; [reflexivity|]. cbn [field String.eqb Ascii.eqb Bool.eqb].
  split_and!.
  - intros Hn. rewrite Hn, (Hl Hn). done.
  - intros H. by rewrite (Hp H).
  - by intros ->.
  - intros H. by rewrite (Hr H).
  - intros H. by rewrite (Hv H).
Qed.

Lemma book_fields_absent url book :
  book_element_absent book → raises (book_fields w url book) = true.
Proof.
  unfold book_element_absent, book_fields. intros H.
  destruct (Soup.find "h3" Soup.any book) as [h3|]; [|done].
  cbn [child mbind result_bind rbind].
  destruct (subscript (Soup.find "a" Soup.any h3) "title") as [title|e]; [|done].
  cbn [mbind result_bind rbind].
  destruct (Soup.find "p" (Soup.has_class "price_color") book) as [pr|]; [|done].
  cbn [text_of mbind result_bind rbind].
  destruct (to_float w _) as [price|e]; [|done].
  cbn [mbind result_bind rbind].
  destruct (Soup.find "p" Soup.any book) as [p|]; [|done].
  destruct (subscript_class (Some p)) as [cls|e]; [|done].
  cbn [mbind result_bind rbind].
  destruct (index cls 1) as [rating|e]; [|done].
  cbn [mbind result_bind rbind].
  destruct (Soup.find "p" (Soup.has_class "instock availability") book) as [av|]; [|done].
  by destruct H as [H|[H|[H|H]]].
Qed.

Lemma get_book_description_unreachable path s :
  (∀ i, request_fails w ("http://books.toscrape.com/catalogue/"
                         +:+ PyStr.replace "../../../" "" path) i) →
  (_get_book_description cfg w path s).1 = Ret "".
Proof.
  intros H. unfold _get_book_description.
  erewrite run_try_ret; [reflexivity|].
  erewrite run_bind_ret
    by (rewrite (pair_eta (fetch_page _ _ _)), fetch_page_all_fail by done; reflexivity).
  reflexivity.
Qed.

(** C5, as the code has it.  The products extractor has a default for
    each of the five elements it looks for: [N/A] and the page URL for
    an absent title link, 0.0 for an absent price or rating, the empty
    string for an absent description and 0 for an absent review count;
    when the elements that are present can be read, a record is produced
    whatever is absent.  The books extractor has a default for the
    description only: it is empty when the detail page cannot be
    fetched, and the record is still produced; a book block without its
    heading, price paragraph, first paragraph or availability paragraph
    is dropped. *)
Theorem field_defaults url item s :
  (present_elements_parse w item →
   ∃ rec,
     scrape_product w url item = Ret rec
     ∧ (name_elem item = None →
        field "name" rec = Some (VStr "N/A") ∧ field "url" rec = Some (VStr url))
     ∧ (price_elem item = None → field "price" rec = Some (VFloat 0%float))
     ∧ (desc_elem item = None → field "description" rec = Some (VStr ""))
     ∧ (rating_elem item = None → field "rating" rec = Some (VFloat 0%float))
     ∧ (reviews_elem item = None → field "reviews" rec = Some (VInt 0)))
  ∧ (∀ fields,
       book_fields w url item = Ret fields →
       (∃ d s', scrape_book cfg w url item s
                = (Ret (fields.1 ++ [("description", VStr d)]), s'))
       ∧ ((∀ i, request_fails w ("http://books.toscrape.com/catalogue/"
                                 +:+ PyStr.replace "../../../" "" fields.2) i) →
          (scrape_book cfg w url item s).1
          = Ret (fields.1 ++ [("description", VStr "")])))
  ∧ (book_element_absent item →
     ∀ acc, ∃ e, book_fields w url item = Raise e
                 ∧ parse_book cfg w url item acc s
                   = (Ret acc, (log ERROR ("Error parsing book: " +:+ exn_str e) s).2)).
Proof.
  split_and!.
  - apply scrape_product_defaults.
  - intros fields Hf. split.
    + destruct (no_raise_inv (_get_book_description cfg w fields.2) s
                  (get_book_description_no_raise cfg w _)) as [d Hd].
      exists d. eexists. unfold scrape_book.
      erewrite run_bind_ret by (unfold lift; rewrite Hf; reflexivity).
      erewrite run_bind_ret
        by (rewrite (pair_eta (_get_book_description _ _ _)), Hd; reflexivity).
      reflexivity.
    + intros Hfail. unfold scrape_book.
      erewrite run_bind_ret by (unfold lift; rewrite Hf; reflexivity).
      erewrite run_bind_ret
        by (rewrite (pair_eta (_get_book_description _ _ _)),
              get_book_description_unreachable by done; reflexivity).
      reflexivity.
  - intros Habs acc. pose proof (book_fields_absent url item Habs) as Hr.
    destruct (book_fields w url item) as [f|e] eqn:E; [done|].
    exists e. split; [done|]. by apply parse_book_dropped.
Qed.
End Defaults.

(** * Further properties of the code *)

Section FetchEdges.
Context (cfg : Config) (w : World).

Lemma range_empty n : n ≤ 0 → range n = [].
Proof. intros H. unfold range. by replace (Z.to_nat n) with 0%nat by lia. Qed.

Lemma fetch_page_no_attempt url s :
  max_retries cfg ≤ 0 → fetch_page cfg w url s = (Ret None, s).
Proof. intros H. unfold fetch_page. by rewrite range_empty. Qed.

(** X1.  With a maximum attempt count of zero or less the loop of
    [fetch_page] has no iteration: the function returns absent without
    a request, a wait or a logger line.  Both scrapers then skip every
    URL and return the empty list without any network traffic. *)
Theorem fetch_page_without_attempts url urls s :
  max_retries cfg ≤ 0 →
  fetch_page cfg w url s = (Ret None, s)
  ∧ (scrape_books cfg w urls s).1 = Ret []
  ∧ st_events (scrape_books cfg w urls s).2 = st_events s
  ∧ (scrape_products cfg w urls s).1 = Ret []
  ∧ st_events (scrape_products cfg w urls s).2 = st_events s.
Proof.
  intros Hmax. split; [by apply fetch_page_no_attempt|].
  assert (∀ u acc s0, scrape_books_url cfg w u acc s0
                      = (Ret acc, set_logger (λ ls, ls ++ [Log INFO ("Scraping books from: " +:+ u)]) s0)) as Hb.
  { intros u acc s0. unfold scrape_books_url.
    erewrite run_bind_ret by apply run_log.
    erewrite run_bind_ret by (by apply fetch_page_no_attempt). reflexivity. }
  assert (∀ u acc s0, scrape_products_url cfg w u acc s0
                      = (Ret acc, set_logger (λ ls, ls ++ [Log INFO ("Scraping products from: " +:+ u)]) s0)) as Hp.
  { intros u acc s0. unfold scrape_products_url.
    erewrite run_bind_ret by apply run_log.
    erewrite run_bind_ret by (by apply fetch_page_no_attempt). reflexivity. }
  unfold scrape_books, scrape_products.
  assert (∀ (body : string → list record → M (list record)) (pre : string),
            (∀ u acc s0, body u acc s0
                         = (Ret acc, set_logger (λ ls, ls ++ [Log INFO (pre +:+ u)]) s0)) →
            (for_each urls body [] s).1 = Ret []
            ∧ st_events (for_each urls body [] s).2 = st_events s) as Hgen.
  { intros body pre Hbody. clear Hb Hp. generalize (@nil record) as acc. revert s.
    induction urls as [|u us IH]; intros s acc; [done|].
    cbn [for_each]. erewrite run_bind_ret by apply Hbody.
    destruct (IH (set_logger (λ ls, ls ++ [Log INFO (pre +:+ u)]) s) acc) as [H1 H2].
    by rewrite H1, H2. }
  destruct (Hgen _ _ Hb) as [H1 H2]. destruct (Hgen _ _ Hp) as [H3 H4].
  by split_and!.
Qed.

(** What a failed attempt that is retried does to the state. *)
Lemma fetch_attempts_retry_state url attempt rest s e :
  http_get w url (st_requests s) = Raise e →
  is_class RequestException e = true →
  (attempt <? max_retries cfg - 1) = true →
  0 ≤ attempt →
  ∃ s', fetch_attempts cfg w url (attempt :: rest) s = fetch_attempts cfg w url rest s'
     ∧ st_events s' = st_events s ++ [EvGet url; EvSleep Backoff (2 ^ attempt)]
     ∧ st_requests s' = S (st_requests s)
     ∧ st_clock s' = st_clock s + 2 ^ attempt
     ∧ length (st_logger s') = S (length (st_logger s)).
Proof.
  intros H Hc Hlt Hpos. cbn [fetch_attempts]. unfold try_except at 1. unfold bind at 1.
  unfold session_get at 1. rewrite H. cbn [fst snd]. rewrite Hc.
  unfold bind at 1. unfold log at 1. cbn [level_enabled]. rewrite Hlt.
  unfold bind at 1. unfold sleep at 1.
  assert ((2 ^ attempt <? 0) = false) as -> by (apply Z.ltb_ge; apply Z.pow_nonneg; lia).
  eexists. split; [reflexivity|]. cbn. rewrite <- app_assoc, length_app. cbn.
  split_and!; [done|done|done|lia].
Qed.

(** A request that raises something else than a [RequestException]. *)
Lemma fetch_attempts_escape url attempt rest s e :
  http_get w url (st_requests s) = Raise e →
  is_class RequestException e = false →
  fetch_attempts cfg w url (attempt :: rest) s
  = (Raise e, set_requests S (set_events (λ es, es ++ [EvGet url]) s)).
Proof.
  intros H Hc. cbn [fetch_attempts]. unfold try_except, bind, session_get.
  rewrite H. cbn [fst snd]. by rewrite Hc.
Qed.

Lemma fetch_attempts_escape_after url e j : ∀ a m s,
  (j < m)%nat →
  Z.of_nat (a + m) ≤ max_retries cfg →
  (∀ i, (i < j)%nat → request_fails w url (st_requests s + i)) →
  http_get w url (st_requests s + j) = Raise e →
  is_class RequestException e = false →
  (fetch_attempts cfg w url (Z.of_nat <$> seq a m) s).1 = Raise e
  ∧ st_events (fetch_attempts cfg w url (Z.of_nat <$> seq a m) s).2
    = st_events s ++ flat_map (failed_attempt url) (seq (S a) j) ++ [EvGet url]
  ∧ st_requests (fetch_attempts cfg w url (Z.of_nat <$> seq a m) s).2
    = (st_requests s + S j)%nat
  ∧ length (st_logger (fetch_attempts cfg w url (Z.of_nat <$> seq a m) s).2)
    = (length (st_logger s) + j)%nat.
Proof.
  induction j as [|j IH]; intros a m s Hjm Hmax Hfail He Hc.
  - destruct m as [|m]; [lia|]. rewrite Nat.add_0_r in He.
    cbn [seq fmap list_fmap]. rewrite (fetch_attempts_escape _ _ _ _ e) by done.
    cbn. split_and!; [done|done|lia|lia].
  - destruct m as [|m]; [lia|].
    destruct (Hfail 0%nat) as (e0 & He0 & Hc0); [lia|]. rewrite Nat.add_0_r in He0.
    change (Z.of_nat <$> seq a (S m)) with (Z.of_nat a :: (Z.of_nat <$> seq (S a) m)).
    destruct (fetch_attempts_retry_state url (Z.of_nat a) (Z.of_nat <$> seq (S a) m) s e0
                He0 Hc0) as (s' & -> & Hev & Hrq & _ & Hlg).
    { apply Z.ltb_lt. lia. }
    { lia. }
    destruct (IH (S a) m s') as (H1 & H2 & H3 & H4).
    { lia. }
    { lia. }
    { intros i Hi. rewrite Hrq.
      replace (S (st_requests s) + i)%nat with (st_requests s + S i)%nat by lia.
      apply Hfail. lia. }
    { rewrite Hrq. replace (S (st_requests s) + j)%nat with (st_requests s + S j)%nat by lia.
      exact He. }
    { done. }
    rewrite H1, H2, H3, H4, Hev, Hrq, Hlg. split_and!; [done| |lia|lia].
    cbn [seq flat_map]. unfold failed_attempt at 2.
    replace (Z.of_nat (S a) - 1) with (Z.of_nat a) by lia.
    rewrite <- !app_assoc. reflexivity.
Qed.

(** X2.  [fetch_page] handles [RequestException] only.  When, after
    [j] failed and retried attempts, a request raises an exception of
    another class, that exception leaves [fetch_page] at once: the
    request is the last event of the trace, there is no wait and no
    further attempt, and the logger holds the [j] warnings of the
    retried attempts and nothing about the exception. *)
Theorem fetch_page_propagates url s (j : nat) e :
  Z.of_nat j < max_retries cfg →
  (∀ k, (k < j)%nat → request_fails w url (st_requests s + k)) →
  http_get w url (st_requests s + j) = Raise e →
  is_class RequestException e = false →
  (fetch_page cfg w url s).1 = Raise e
  ∧ st_events (fetch_page cfg w url s).2
    = st_events s ++ failed_attempts url j ++ [EvGet url]
  ∧ st_requests (fetch_page cfg w url s).2 = (st_requests s + S j)%nat
  ∧ length (st_logger (fetch_page cfg w url s).2) = (length (st_logger s) + j)%nat.
Proof.
  intros Hj Hfail He Hc. unfold fetch_page, range, failed_attempts.
  apply fetch_attempts_escape_after; [lia|lia|done|done|done].
Qed.

(** The time a sequence of attempts can take. *)
Lemma fetch_attempts_clock_bound url m : ∀ a s,
  max_retries cfg ≤ Z.of_nat (a + m) →
  ∃ d, st_clock (fetch_attempts cfg w url (Z.of_nat <$> seq a m) s).2 = st_clock s + d
       ∧ 0 ≤ d ≤ 2 ^ Z.of_nat (a + Nat.pred m) - 2 ^ Z.of_nat a.
Proof.
  induction m as [|m IH]; intros a s Hmax.
  - exists 0. cbn. rewrite Nat.add_0_r. lia.
  - change (Z.of_nat <$> seq a (S m)) with (Z.of_nat a :: (Z.of_nat <$> seq (S a) m)).
    cbn [Nat.pred].
    assert (2 ^ Z.of_nat a ≤ 2 ^ Z.of_nat (a + m)) as Hle
      by (apply Z.pow_le_mono_r; lia).
    cbn [fetch_attempts]. unfold try_except at 1. unfold bind at 1.
    unfold session_get at 1.
    destruct (http_get w url (st_requests s)) as [text|e]; cbn [fst snd].
    + exists 0. cbn. lia.
    + destruct (is_class RequestException e); [|exists 0; cbn; lia].
      unfold bind at 1. unfold log at 1. cbn [level_enabled].
      destruct (Z.ltb_spec (Z.of_nat a) (max_retries cfg - 1)) as [Hlt|Hge].
      * unfold bind at 1. unfold sleep at 1.
        assert ((2 ^ Z.of_nat a <? 0) = false) as ->
          by (apply Z.ltb_ge; apply Z.pow_nonneg; lia).
        match goal with
        | |- context [fetch_attempts cfg w url _ ?s1] =>
            destruct (IH (S a) s1) as (d & Hd & H1 & H2); [lia|]
        end.
        rewrite Hd. cbn [st_clock set_clock set_events set_logger set_requests].
        exists (2 ^ Z.of_nat a + d).
        assert (0 ≤ 2 ^ Z.of_nat a) by (apply Z.pow_nonneg; lia).
        split; [lia|]. split; [lia|].
        destruct m as [|m']; [lia|].
        cbn [Nat.pred] in H2.
        replace (S a + m')%nat with (a + S m')%nat in H2 by lia.
        replace (Z.of_nat (S a)) with (Z.of_nat a + 1) in H2 by lia.
        rewrite Z.pow_add_r in H2 by lia. lia.
      * exists 0. cbn. lia.
Qed.

Lemma fetch_attempts_exhaust_clock url k : ∀ a s,
  max_retries cfg = Z.of_nat (a + S k) →
  (∀ i, (i < S k)%nat → request_fails w url (st_requests s + i)) →
  st_clock (fetch_attempts cfg w url (Z.of_nat <$> seq a (S k)) s).2
  = st_clock s + (2 ^ Z.of_nat (a + k) - 2 ^ Z.of_nat a).
Proof.
  induction k as [|k IH]; intros a s Hmax Hfail.
  - destruct (Hfail 0%nat) as (e & He & Hc); [lia|]. rewrite Nat.add_0_r in He.
    cbn [seq fmap list_fmap]. rewrite Nat.add_0_r.
    cbn [fetch_attempts]. unfold try_except, bind, session_get.
    rewrite He. cbn [fst snd]. rewrite Hc. cbn [level_enabled log].
    assert ((Z.of_nat a <? max_retries cfg - 1) = false) as -> by (apply Z.ltb_ge; lia).
    cbn. lia.
  - destruct (Hfail 0%nat) as (e & He & Hc); [lia|]. rewrite Nat.add_0_r in He.
    change (Z.of_nat <$> seq a (S (S k)))
      with (Z.of_nat a :: (Z.of_nat <$> seq (S a) (S k))).
    destruct (fetch_attempts_retry_state url (Z.of_nat a) (Z.of_nat <$> seq (S a) (S k)) s e
                He Hc) as (s' & -> & _ & Hrq & Hck & _).
    { apply Z.ltb_lt. lia. }
    { lia. }
    rewrite (IH (S a) s').
    + rewrite Hck. replace (S a + k)%nat with (a + S k)%nat by lia.
      replace (Z.of_nat (S a)) with (Z.of_nat a + 1) by lia.
      rewrite (Z.pow_add_r 2 (Z.of_nat a) 1) by lia. lia.
    + rewrite Hmax. f_equal. lia.
    + intros i Hi. rewrite Hrq.
      replace (S (st_requests s) + i)%nat with (st_requests s + S i)%nat by lia.
      apply Hfail. lia.
Qed.

(** X3.  The time a fetch spends waiting.  With a maximum of
    [n >= 1] attempts, the waits of one call of [fetch_page] add up
    to at most [2^(n-1) - 1] seconds, whatever the server does, and
    to exactly that when all [n] attempts fail: 3 seconds for the
    configured 3 attempts. *)
Theorem fetch_page_total_backoff url s (n : nat) :
  max_retries cfg = Z.of_nat n →
  (1 ≤ n)%nat →
  st_clock s ≤ st_clock (fetch_page cfg w url s).2
  ∧ st_clock (fetch_page cfg w url s).2 ≤ st_clock s + (2 ^ (Z.of_nat n - 1) - 1)
  ∧ ((∀ k, (k < n)%nat → request_fails w url (st_requests s + k)) →
     st_clock (fetch_page cfg w url s).2 = st_clock s + (2 ^ (Z.of_nat n - 1) - 1)).
Proof.
  intros Hmax Hn. unfold fetch_page, range. rewrite Hmax, Nat2Z.id.
  destruct n as [|k]; [lia|].
  replace (Z.of_nat (S k) - 1) with (Z.of_nat k) by lia.
  destruct (fetch_attempts_clock_bound url (S k) 0 s) as (d & Hd & H1 & H2); [lia|].
  cbn [Nat.pred Nat.add] in H2. change (2 ^ Z.of_nat 0) with 1 in H2.
  rewrite Hd. split; [lia|]. split; [lia|]. rewrite <- Hd.
  intros Hfail. rewrite (fetch_attempts_exhaust_clock url k 0 s); [done|by rewrite Hmax|done].
Qed.

End FetchEdges.

Section Strings.

Lemma append_nil_r s : s +:+ "" = s.
Proof.
  induction s as [|c s IH]; [done|].
  change (String c (s +:+ "") = String c s). by rewrite IH.
Qed.

Lemma append_assoc s1 s2 s3 : (s1 +:+ s2) +:+ s3 = s1 +:+ (s2 +:+ s3).
Proof.
  induction s1 as [|c s1 IH]; [done|].
  change (String c ((s1 +:+ s2) +:+ s3) = String c (s1 +:+ (s2 +:+ s3))). by rewrite IH.
Qed.

Lemma string_of_list_ascii_app l1 l2 :
  string_of_list_ascii (l1 ++ l2) = string_of_list_ascii l1 +:+ string_of_list_ascii l2.
Proof.
  induction l1 as [|c l1 IH]; [done|].
  change (String c (string_of_list_ascii (l1 ++ l2))
          = String c (string_of_list_ascii l1 +:+ string_of_list_ascii l2)).
  by rewrite IH.
Qed.

Lemma rev_cons c s : PyStr.rev (String c s) = PyStr.rev s +:+ String c "".
Proof. unfold PyStr.rev. cbn. by rewrite string_of_list_ascii_app. Qed.

Lemma contains_app c s1 s2 :
  PyStr.contains c (s1 +:+ s2) = PyStr.contains c s1 || PyStr.contains c s2.
Proof.
  induction s1 as [|d s1 IH]; [done|].
  change (Ascii.eqb c d || PyStr.contains c (s1 +:+ s2)
          = Ascii.eqb c d || PyStr.contains c s1 || PyStr.contains c s2).
  rewrite IH. by rewrite orb_assoc.
Qed.

(** A string without the separator is one piece. *)
Lemma split_go_one sep s : ∀ cur,
  PyStr.contains sep s = false → PyStr.split_go sep cur s = [PyStr.rev cur +:+ s].
Proof.
  induction s as [|c s IH]; intros cur H.
  - cbn. by rewrite append_nil_r.
  - cbn in H. apply orb_false_iff in H as [Hc Hs].
    cbn. rewrite eqb_sym, Hc. rewrite IH by done.
    by rewrite rev_cons, append_assoc.
Qed.

(** The pieces on both sides of a separator. *)
Lemma split_go_app sep a b : ∀ cur,
  PyStr.split_go sep cur (a +:+ String sep b)
  = PyStr.split_go sep cur a ++ PyStr.split_go sep "" b.
Proof.
  induction a as [|c a IH]; intros cur.
  - change ("" +:+ String sep b) with (String sep b). cbn. by rewrite Ascii.eqb_refl.
  - change (String c a +:+ String sep b) with (String c (a +:+ String sep b)).
    cbn [PyStr.split_go]. destruct (Ascii.eqb c sep); [|apply IH].
    by rewrite IH.
Qed.

Lemma split_last sep pre last :
  PyStr.contains sep last = false →
  PyStr.split sep (pre +:+ String sep last) = PyStr.split sep pre ++ [last].
Proof.
  intros H. unfold PyStr.split. rewrite split_go_app, (split_go_one sep last) by done.
  done.
Qed.

Lemma split_one sep s :
  PyStr.contains sep s = false → PyStr.split sep s = [s].
Proof. intros H. unfold PyStr.split. by rewrite split_go_one. Qed.

Lemma from_end_1 {A} (l : list A) x : PyStr.from_end (l ++ [x]) 1 = Some x.
Proof. unfold PyStr.from_end. by rewrite rev_app_distr. Qed.

Lemma from_end_2 {A} (l : list A) x y : PyStr.from_end (l ++ [x; y]) 2 = Some x.
Proof. unfold PyStr.from_end. by rewrite rev_app_distr. Qed.

(** X4.  The category of a product page is what follows the last
    slash of its URL, so it holds no slash itself and is empty for a
    URL that ends in one; a URL without a slash gives [all]. *)
Theorem extract_category_last_segment :
  (∀ url, PyStr.contains "/" url = false → _extract_category url = "all")
  ∧ (∀ pre last,
       PyStr.contains "/" last = false →
       _extract_category (pre +:+ "/" +:+ last) = last).
Proof.
  split.
  - intros url H. unfold _extract_category. by rewrite H.
  - intros pre last H. unfold _extract_category.
    change ("/" +:+ last) with (String "/" last).
    rewrite contains_app. cbn [PyStr.contains]. rewrite Ascii.eqb_refl, orb_true_r.
    by rewrite split_last, from_end_1.
Qed.

(** X5.  The category of a book is the piece of the page URL between
    its last two slashes: the directory of the page, or the host for a
    URL that ends right after it.  A URL without any slash gives
    [unknown]. *)
Theorem book_category_second_last :
  (∀ url, PyStr.contains "/" url = false → book_category url = "unknown")
  ∧ (∀ seg last,
       PyStr.contains "/" seg = false →
       PyStr.contains "/" last = false →
       book_category (seg +:+ "/" +:+ last) = seg)
  ∧ (∀ pre seg last,
       PyStr.contains "/" seg = false →
       PyStr.contains "/" last = false →
       book_category (pre +:+ "/" +:+ seg +:+ "/" +:+ last) = seg).
Proof.
  split_and!.
  - intros url H. unfold book_category. by rewrite split_one.
  - intros seg last Hs Hl. unfold book_category.
    change ("/" +:+ last) with (String "/" last).
    rewrite split_last, split_one by done.
    change ([seg] ++ [last]) with ([] ++ [seg; last]).
    by rewrite from_end_2.
  - intros pre seg last Hs Hl. unfold book_category.
    change (pre +:+ "/" +:+ seg +:+ "/" +:+ last)
      with (pre +:+ (String "/" seg +:+ String "/" last)).
    rewrite <- append_assoc, !split_last by done.
    rewrite <- app_assoc. cbn [app].
    rewrite from_end_2, length_app. cbn [length].
    by replace (2 <=? length (PyStr.split "/" pre) + 2)%nat with true
      by (symmetry; apply Nat.leb_le; lia).
Qed.

End Strings.

Section Description.
Context (cfg : Config) (w : World).

(** The description costs the fetch of the detail page and nothing
    else. *)
Lemma get_book_description_run path s :
  ∃ d, _get_book_description cfg w path s
       = (Ret d, (fetch_page cfg w (detail_url path) s).2).
Proof.
  unfold _get_book_description. fold (detail_url path). unfold try_except, bind.
  destruct (fetch_page cfg w (detail_url path) s) as [[content|e] s1]; cbn [fst snd].
  - destruct (falsy content); [by exists ""|].
    destruct (Soup.find _ _ _) as [description|]; [|by exists ""].
    cbn [lift subscript]. destruct (Soup.attr "content" description) as [c|]; cbn.
    + by exists c.
    + by exists "".
  - by exists "".
Qed.

(** X6.  [_get_book_description] never raises and does nothing but
    fetch the detail page: the state it leaves is the one the fetch
    left.  It returns the [content] of the page's description [meta]
    tag, and the empty string in every other case: the page is absent
    or empty, it has no such tag, the tag has no [content] attribute,
    or the fetch raised. *)
Theorem get_book_description_value path s :
  let page := fetch_page cfg w (detail_url path) s in
  (∃ d, _get_book_description cfg w path s = (Ret d, page.2))
  ∧ (∀ html,
       page.1 = Ret (Some html) →
       html ≠ "" →
       (_get_book_description cfg w path s).1
       = Ret (match description_meta (parse_html w html) with
              | Some description => default "" (Soup.attr "content" description)
              | None => ""
              end))
  ∧ (∀ content,
       page.1 = Ret content →
       falsy content = true →
       (_get_book_description cfg w path s).1 = Ret "")
  ∧ (∀ e, page.1 = Raise e → (_get_book_description cfg w path s).1 = Ret "").
Proof.
  intros page. unfold _get_book_description. fold (detail_url path).
  unfold try_except, bind. fold page.
  destruct page as [[content|e] s1] eqn:Hpage; cbn [fst snd].
  - destruct (falsy content) eqn:Hc.
    + split; [by exists ""|]. split_and!.
      * intros html [= ->] Hne. cbn in Hc. apply String.eqb_eq in Hc. by destruct Hne.
      * done.
      * done.
    + destruct content as [html|]; [|done].
      change (default "" (Some html)) with html. unfold description_meta.
      destruct (Soup.find "meta" (Soup.attr_is "name" "description") (parse_html w html))
        as [description|] eqn:Hm; cbn [subscript lift].
      * destruct (Soup.attr "content" description) as [c|] eqn:Ha; cbn.
        -- split; [by exists c|].
           split_and!; [|intros ? [= <-] Hf; congruence|done].
           intros ? [= <-] _. by rewrite Hm, Ha.
        -- split; [by exists ""|].
           split_and!; [|intros ? [= <-] Hf; congruence|done].
           intros ? [= <-] _. by rewrite Hm, Ha.
      * split; [by exists ""|].
        split_and!; [|intros ? [= <-] Hf; congruence|done].
        intros ? [= <-] _. by rewrite Hm.
  - cbn. split; [by exists ""|]. by split_and!.
Qed.

End Description.

Section Schema.
Context (cfg : Config) (w : World).

Lemma scrape_product_keys url item rec :
  scrape_product w url item = Ret rec → keys rec = product_keys.
Proof.
  unfold scrape_product. cbv zeta. unfold mbind, result_bind, rbind.
  repeat match goal with
         | |- match ?r with Ret _ => _ | Raise _ => _ end = _ → _ =>
             destruct r; [|discriminate]
         end.
  by intros [= <-].
Qed.

Lemma book_fields_keys url book fields :
  book_fields w url book = Ret fields →
  keys (fields.1 ++ [("description", VStr "")]) = book_keys.
Proof.
  unfold book_fields. unfold mbind, result_bind, rbind.
  repeat match goal with
         | |- match ?r with Ret _ => _ | Raise _ => _ end = _ → _ =>
             destruct r; [|discriminate]
         end.
  by intros [= <-].
Qed.

Lemma page_products_keys url html :
  Forall (λ r, keys r = product_keys) (page_products w url html).
Proof.
  unfold page_products. apply Forall_forall. intros r Hr.
  apply list_elem_of_omap in Hr as (item & _ & Hitem).
  destruct (scrape_product w url item) as [rec|e] eqn:E; [|done].
  injection Hitem as <-. by eapply scrape_product_keys.
Qed.

(** An invariant of the accumulator of a loop. *)
Lemma for_each_invariant {A S} (P : S → Prop) (xs : list A) (body : A → S → M S) :
  (∀ x acc s acc' s', P acc → body x acc s = (Ret acc', s') → P acc') →
  ∀ acc s acc' s', P acc → for_each xs body acc s = (Ret acc', s') → P acc'.
Proof.
  intros Hb. induction xs as [|x xs IH]; intros acc s acc' s' HP.
  - by intros [= <- <-].
  - cbn [for_each]. unfold bind at 1.
    destruct (body x acc s) as [[acc1|e] s1] eqn:E; [|done].
    apply IH. by eapply Hb.
Qed.

Lemma scrape_products_url_keys url acc s acc' s' :
  Forall (λ r, keys r = product_keys) acc →
  scrape_products_url cfg w url acc s = (Ret acc', s') →
  Forall (λ r, keys r = product_keys) acc'.
Proof.
  intros Hacc. unfold scrape_products_url.
  erewrite run_bind_ret by apply run_log. unfold bind at 1.
  destruct (fetch_page cfg w url _) as [[content|e] s1]; [|done].
  destruct (falsy content); [by intros [= <- <-]|].
  unfold extract_products. unfold bind at 1. rewrite for_each_parse_product.
  unfold bind at 1. destruct (sleep _ _ _) as [[[]|e] s2]; [|done].
  intros [= <- <-]. apply Forall_app. split; [done|].
  apply page_products_keys.
Qed.

Lemma scrape_products_keys urls s recs s1 :
  scrape_products cfg w urls s = (Ret recs, s1) →
  Forall (λ r, keys r = product_keys) recs.
Proof.
  unfold scrape_products.
  apply (for_each_invariant (Forall (λ r, keys r = product_keys))); [|done].
  intros url acc s0 acc' s'. apply scrape_products_url_keys.
Qed.

Lemma parse_book_keys url book acc s acc' s' :
  Forall (λ r, keys r = book_keys) acc →
  parse_book cfg w url book acc s = (Ret acc', s') →
  Forall (λ r, keys r = book_keys) acc'.
Proof.
  intros Hacc. destruct (book_fields w url book) as [fields|e] eqn:E.
  - destruct (parse_book_kept cfg w url book acc s fields E) as (d & s2 & ->).
    intros [= <- <-]. apply Forall_app. split; [done|].
    constructor; [|done]. pose proof (book_fields_keys url book fields E) as Hk.
    unfold keys in *. by rewrite fmap_app in *.
  - rewrite (parse_book_dropped cfg w url book acc s e E). by intros [= <- <-].
Qed.

Lemma scrape_books_url_keys url acc s acc' s' :
  Forall (λ r, keys r = book_keys) acc →
  scrape_books_url cfg w url acc s = (Ret acc', s') →
  Forall (λ r, keys r = book_keys) acc'.
Proof.
  intros Hacc. unfold scrape_books_url.
  erewrite run_bind_ret by apply run_log. unfold bind at 1.
  destruct (fetch_page cfg w url _) as [[content|e] s1]; [|done].
  destruct (falsy content); [by intros [= <- <-]|].
  unfold extract_books. unfold bind at 1.
  destruct (for_each _ _ acc s1) as [[acc1|e] s2] eqn:E; [|done].
  unfold bind at 1. destruct (sleep _ _ _) as [[[]|e] s3]; [|done].
  intros [= <- <-]. revert E.
  apply (for_each_invariant (Forall (λ r, keys r = book_keys))); [|done].
  intros book acc0 s0 acc0' s0'. apply parse_book_keys.
Qed.

Lemma scrape_books_keys urls s recs s1 :
  scrape_books cfg w urls s = (Ret recs, s1) →
  Forall (λ r, keys r = book_keys) recs.
Proof.
  unfold scrape_books.
  apply (for_each_invariant (Forall (λ r, keys r = book_keys))); [|done].
  intros url acc s0 acc' s'. apply scrape_books_url_keys.
Qed.

(** A dict gives a value for each of its own keys, and all of it is
    bound by a statement that was compiled for its keys. *)
Lemma has_key_own (r : record) : forallb (has_key r) (keys r) = true.
Proof.
  apply forallb_forall. intros k Hk. apply list_elem_of_In in Hk.
  unfold has_key. induction r as [|[k' v] r IH]; [by apply elem_of_nil in Hk|].
  cbn [field]. destruct (String.eqb_spec k k') as [->|Hne]; [done|].
  apply IH. cbn in Hk. apply elem_of_cons in Hk as [?|?]; done.
Qed.

Lemma bound_all ks (r : record) :
  (∀ k, k ∈ keys r → k ∈ ks) → bound ks r = r.
Proof.
  unfold bound. induction r as [|[k v] r IH]; intros Hks; [done|].
  cbn [List.filter fst]. replace (existsb (String.eqb k) ks) with true.
  - f_equal. apply IH. intros k' Hk'. apply Hks. cbn. by right.
  - symmetry. apply existsb_exists. exists k. split; [|apply String.eqb_refl].
    apply list_elem_of_In, Hks. cbn. by left.
Qed.

Lemma bound_own (r : record) : bound (keys r) r = r.
Proof. by apply bound_all. Qed.

(** The insert takes records that share one list of keys, all of them
    columns, and stores each of them whole. *)
Lemma insert_rows_accepts columns ks t data rows :
  forallb (λ k, existsb (String.eqb k) columns) ks = true →
  Forall (λ r, keys r = ks) data →
  insert_rows columns t data rows
  = Ret (rows ++ imap (λ i r, make_row columns (Z.of_nat (length rows + i) + 1) t r) data).
Proof.
  intros Hks Hdata. unfold insert_rows.
  destruct data as [|first rest] eqn:Ed; [by rewrite app_nil_r|]. rewrite <- Ed in *.
  assert (keys first = ks) as -> by (rewrite Ed in Hdata; by inversion Hdata).
  cbv zeta. rewrite Hks. cbn [negb].
  replace (forallb _ data) with true.
  - cbn [negb]. do 2 f_equal. apply imap_ext. intros i r Hr. cbn.
    rewrite Forall_lookup in Hdata. rewrite <- (Hdata i r Hr). by rewrite bound_own.
  - symmetry. apply forallb_forall. intros r Hr. apply list_elem_of_In in Hr.
    rewrite Forall_forall in Hdata. rewrite <- (Hdata r Hr). apply has_key_own.
Qed.

Lemma save_data_accepted table columns ks data s :
  (table = "books" ∧ columns = books_columns
   ∨ table = "products" ∧ columns = products_columns) →
  forallb (λ k, existsb (String.eqb k) columns) ks = true →
  Forall (λ r, keys r = ks) data →
  db_fault w table (st_statements s) = None →
  (_save_data w data table s).1 = Ret (Z.of_nat (length data))
  ∧ stored_rows table (st_db (_save_data w data table s).2)
    = stored_rows table (st_db s)
      ++ imap (λ i r, make_row columns
                        (Z.of_nat (length (stored_rows table (st_db s)) + i) + 1)
                        (st_clock s) r) data.
Proof.
  intros Ht Hks Hdata Hf. unfold _save_data.
  destruct data as [|r data]; [by rewrite app_nil_r|].
  set (d := r :: data) in *. unfold try_except, bind, now, db_execute. rewrite Hf.
  destruct Ht as [[-> ->]|[-> ->]]; cbn [String.eqb Ascii.eqb Bool.eqb];
    rewrite (insert_rows_accepts _ ks) by done; cbn; done.
Qed.

(** X7.  What the extractors build is what the tables take.  Every
    record [scrape_products] returns has the seven keys of the
    [product_data] literal, every record [scrape_books] returns the
    seven keys of [book_data]; all of them are columns of the table the
    records go to.  So the insert never refuses a scraped record for
    its shape: unless the engine fails, [save_products] and
    [save_books] store every record and return their number. *)
Theorem scraped_records_fit_tables urls s recs s1 :
  (scrape_products cfg w urls s = (Ret recs, s1) →
   Forall (λ r, keys r = product_keys) recs
   ∧ (db_fault w "products" (st_statements s1) = None →
      (save_products w recs s1).1 = Ret (Z.of_nat (length recs))
      ∧ length (tbl_products (st_db (save_products w recs s1).2))
        = (length (tbl_products (st_db s1)) + length recs)%nat))
  ∧ (scrape_books cfg w urls s = (Ret recs, s1) →
     Forall (λ r, keys r = book_keys) recs
     ∧ (db_fault w "books" (st_statements s1) = None →
        (save_books w recs s1).1 = Ret (Z.of_nat (length recs))
        ∧ length (tbl_books (st_db (save_books w recs s1).2))
          = (length (tbl_books (st_db s1)) + length recs)%nat)).
Proof.
  split.
  - intros Hs. pose proof (scrape_products_keys urls s recs s1 Hs) as Hk.
    split; [done|]. intros Hf. unfold save_products.
    destruct (save_data_accepted "products" products_columns product_keys recs s1)
      as [H1 H2]; [by right|done|done|done|].
    split; [done|]. cbn [stored_rows String.eqb Ascii.eqb Bool.eqb] in H2.
    by rewrite H2, length_app, length_imap.
  - intros Hs. pose proof (scrape_books_keys urls s recs s1 Hs) as Hk.
    split; [done|]. intros Hf. unfold save_books.
    destruct (save_data_accepted "books" books_columns book_keys recs s1)
      as [H1 H2]; [by left|done|done|done|].
    split; [done|]. cbn [stored_rows String.eqb Ascii.eqb Bool.eqb] in H2.
    by rewrite H2, length_app, length_imap.
Qed.

Lemma fetch_page_first_success url s text :
  0 < max_retries cfg →
  http_get w url (st_requests s) = Ret text →
  (fetch_page cfg w url s).1 = Ret (Some text)
  ∧ st_requests (fetch_page cfg w url s).2 = S (st_requests s).
Proof.
  intros Hmax Hget. unfold fetch_page, range.
  destruct (Z.to_nat (max_retries cfg)) as [|n] eqn:E; [lia|].
  cbn [seq fmap list_fmap].
  by destruct (fetch_attempts_success cfg w url (Z.of_nat 0) (Z.of_nat <$> seq 1 n) s text Hget)
    as (H1 & _ & H3).
Qed.

Lemma scrape_products_url_stable url (page : string → string) acc s :
  0 ≤ delay_between_requests cfg →
  0 < max_retries cfg →
  (∀ i, http_get w url i = Ret (page url)) →
  page url ≠ "" →
  ∃ s', scrape_products_url cfg w url acc s
        = (Ret (acc ++ page_products w url (page url)), s')
        ∧ st_requests s' = S (st_requests s).
Proof.
  intros Hd Hmax Hget Hne.
  set (s0 := (log INFO ("Scraping products from: " +:+ url) s).2).
  destruct (fetch_page_first_success url s0 (page url) Hmax (Hget _)) as [Hf Hr].
  destruct (scrape_products_url_page cfg w url acc s (Some (page url)) Hd Hf)
    as (acc' & s2 & Hx & Hrun & _); [by apply falsy_content|].
  unfold extract_products in Hx. rewrite for_each_parse_product in Hx.
  injection Hx as <- <-. eexists. split; [exact Hrun|].
  unfold sleep. destruct (Z.ltb_spec (delay_between_requests cfg) 0); [lia|].
  cbn. unfold s0, log in Hr. cbn in Hr. exact Hr.
Qed.

(** X8.  On a site that answers every request for a URL with the same
    page, [scrape_products] sends one request per listed URL and
    returns the records of the pages in the order of the list, each
    page giving one record per item block that parses, in page order.
    Nothing is merged: a URL that is listed twice is fetched twice and
    gives its records twice. *)
Theorem scrape_products_stable_site urls (page : string → string) s :
  0 ≤ delay_between_requests cfg →
  0 < max_retries cfg →
  (∀ url i, url ∈ urls → http_get w url i = Ret (page url) ∧ page url ≠ "") →
  (scrape_products cfg w urls s).1
  = Ret (flat_map (λ url, page_products w url (page url)) urls)
  ∧ st_requests (scrape_products cfg w urls s).2 = (st_requests s + length urls)%nat.
Proof.
  intros Hd Hmax Hsite. unfold scrape_products.
  change (flat_map (λ url, page_products w url (page url)) urls)
    with ([] ++ flat_map (λ url, page_products w url (page url)) urls).
  generalize (@nil record) as acc. revert s.
  induction urls as [|url urls IH]; intros s acc.
  - cbn. rewrite app_nil_r. split; [done|lia].
  - cbn [for_each flat_map length].
    destruct (scrape_products_url_stable url page acc s Hd Hmax) as (s' & Hrun & Hrq).
    { intros i. apply Hsite. by left. }
    { apply (Hsite url 0%nat). by left. }
    erewrite run_bind_ret by exact Hrun.
    destruct (IH (λ u i Hu, Hsite u i (list_elem_of_further _ _ _ Hu)) s'
                 (acc ++ page_products w url (page url))) as [H1 H2].
    rewrite H1, H2, Hrq, <- app_assoc. split; [done|lia].
Qed.

End Schema.

Section RoundTrips.
Context (w : World).







Lemma select_all_known table db :
  known_target table →
  select_all table db = Ret (table_columns table, stored_rows table db).
Proof. by intros [-> | ->]. Qed.

(** What [export_to_csv] does, case by case. *)
Lemma export_to_csv_run table filename s :
  export_to_csv w table filename s
  = match db_fault w table (st_statements s) with
    | Some e =>
        (Ret None,
         (log ERROR ("Error exporting " +:+ table +:+ " to CSV: " +:+ exn_str e)
              (set_statements S s)).2)
    | None =>
        match select_all table (st_db s) with
        | Raise e =>
            (Ret None,
             (log ERROR ("Error exporting " +:+ table +:+ " to CSV: " +:+ exn_str e)
                  (set_statements S s)).2)
        | Ret t =>
            match fs_fault w (export_path table filename) (st_writes s) with
            | Some e =>
                (Ret None,
                 (log ERROR ("Error exporting " +:+ table +:+ " to CSV: " +:+ exn_str e)
                      (set_writes S (set_statements S s))).2)
            | None =>
                (Ret (Some (export_path table filename)),
                 (log INFO ("Exported "
                            +:+ str_of_Z (Z.of_nat (length (row_values t.1 <$> t.2)))
                            +:+ " records from " +:+ table +:+ " to "
                            +:+ export_path table filename)
                      (set_files (λ fs, <[export_path table filename := table_file t.1 t.2]> fs)
                                 (set_writes S (set_statements S s)))).2)
            end
        end
    end.
Proof.
  unfold export_to_csv, try_except, bind, read_sql_query, db_query, write_file.
  fold (export_path table filename).
  destruct (db_fault w table (st_statements s)) as [e|]; [done|].
  destruct (select_all table (st_db s)) as [t|e]; [|done].
  cbn [mbind result_bind rbind mret result_ret fst snd st_writes set_statements].
  by destruct (fs_fault w (export_path table filename) (st_writes s)) as [e|].
Qed.

Lemma export_to_csv_files table filename s :
  st_files (export_to_csv w table filename s).2 = st_files s
  ∨ ∃ f, st_files (export_to_csv w table filename s).2
         = <[export_path table filename := f]> (st_files s).
Proof.
  rewrite export_to_csv_run.
  destruct (db_fault w table (st_statements s)) as [e|]; [by left|].
  destruct (select_all table (st_db s)) as [t|e]; [|by left].
  destruct (fs_fault w (export_path table filename) (st_writes s)) as [e|]; [by left|].
  right. by eexists.
Qed.










(** X12.  An export that is given no file name writes
    [output/<table>.csv], which is the very file [save_to_csv] writes
    for the job of that target.  After such an export the file no
    longer holds the records of the last scrape: it holds the whole
    table, under the columns of the table. *)
Theorem export_default_overwrites_snapshot table data s :
  known_target table →
  data ≠ [] →
  fs_fault w ("output/" +:+ table +:+ ".csv") (st_writes s) = None →
  fs_fault w ("output/" +:+ table +:+ ".csv") (S (st_writes s)) = None →
  db_fault w table (st_statements s) = None →
  let s1 := (save_to_csv w data (table +:+ ".csv") s).2 in
  let s2 := (export_to_csv w table None s1).2 in
  st_files s1 !! ("output/" +:+ table +:+ ".csv") = Some (FCsv (DataFrame data))
  ∧ (export_to_csv w table None s1).1 = Ret (Some ("output/" +:+ table +:+ ".csv"))
  ∧ st_files s2 !! ("output/" +:+ table +:+ ".csv")
    = Some (table_file (table_columns table) (stored_rows table (st_db s))).
Proof.
  intros Ht Hne Hw1 Hw2 Hdb s1 s2.
  assert (s1 = (log INFO ("Saved " +:+ str_of_Z (Z.of_nat (length data))
                          +:+ " records to output/" +:+ table +:+ ".csv")
                    (set_files (λ fs, <["output/" +:+ table +:+ ".csv"
                                         := FCsv (DataFrame data)]> fs)
                               (set_writes S s))).2) as Hs1.
  { unfold s1, save_to_csv. destruct data as [|r data]; [done|].
    unfold try_except, bind, write_file. by rewrite Hw1. }
  unfold s2. rewrite export_to_csv_run. rewrite Hs1.
  cbn [log level_enabled snd st_statements st_writes st_db st_files
       set_logger set_files set_writes].
  rewrite Hdb, (select_all_known table (st_db s) Ht).
  unfold export_path. cbn [default from_option id]. rewrite Hw2.
  cbn [fst snd st_files set_logger set_files set_writes set_statements].
  rewrite !lookup_insert_eq. done.
Qed.

(** X13.  [_save_data] compares the table name with [books] and
    [products] and has no branch for anything else.  For another name
    and a record list that is not empty it opens the connection, runs
    no insert, commits, and reports success: it returns the number of
    records and logs that they were saved, and no table has changed. *)
Theorem save_data_unknown_table data table s :
  table ≠ "books" →
  table ≠ "products" →
  data ≠ [] →
  db_fault w table (st_statements s) = None →
  _save_data w data table s
  = (Ret (Z.of_nat (length data)),
     set_logger (λ ls, ls ++ [Log INFO ("Successfully saved "
                                        +:+ str_of_Z (Z.of_nat (length data))
                                        +:+ " records to " +:+ table +:+ " table")])
                (set_statements S s))
  ∧ st_db (_save_data w data table s).2 = st_db s.
Proof.
  intros Hb Hp Hne Hf. destruct data as [|r data]; [done|].
  unfold _save_data, try_except, bind, now, db_execute. rewrite Hf.
  apply String.eqb_neq in Hb, Hp. rewrite Hb, Hp.
  cbn. by destruct s as [? ? ? ? [] ? ? ? ?].
Qed.

End RoundTrips.

Section Advances.
Context (w : World).

Lemma advances_refl s : advances s s.
Proof. by constructor. Qed.

Lemma advances_trans s1 s2 s3 : advances s1 s2 → advances s2 s3 → advances s1 s3.
Proof.
  intros [] []. constructor; try (etrans; eassumption); lia.
Qed.

Lemma grows_ret {A} (a : A) : grows (ret a).
Proof. intros s. apply advances_refl. Qed.

Lemma grows_raise {A} e : grows (raise (A:=A) e).
Proof. intros s. apply advances_refl. Qed.

Lemma grows_lift {A} (r : result A) : grows (lift r).
Proof. intros s. apply advances_refl. Qed.

Lemma grows_now : grows now.
Proof. intros s. apply advances_refl. Qed.

Lemma grows_bind {A B} (m : M A) (k : A → M B) :
  grows m → (∀ a, grows (k a)) → grows (bind m k).
Proof.
  intros Hm Hk s. unfold bind. specialize (Hm s).
  destruct (m s) as [[a|e] s1]; [|done].
  eapply advances_trans; [exact Hm|apply Hk].
Qed.

Lemma grows_try_except {A} (m : M A) handles h :
  grows m → (∀ e, grows (h e)) → grows (try_except m handles h).
Proof.
  intros Hm Hh s. unfold try_except. specialize (Hm s).
  destruct (m s) as [[a|e] s1]; [done|].
  destruct (handles e); [|done].
  eapply advances_trans; [exact Hm|apply Hh].
Qed.

Lemma grows_for_each {A S} (xs : list A) (body : A → S → M S) :
  (∀ x acc, grows (body x acc)) → ∀ acc, grows (for_each xs body acc).
Proof.
  intros Hb. induction xs as [|x xs IH]; intros acc; [apply grows_ret|].
  cbn [for_each]. apply grows_bind; [apply Hb|apply IH].
Qed.

Lemma grows_log l msg : grows (log l msg).
Proof.
  intros s. unfold log. destruct (level_enabled l); [|apply advances_refl].
  constructor; cbn; try done. by apply prefix_app_r.
Qed.

Lemma grows_sleep site secs : grows (sleep site secs).
Proof.
  intros s. unfold sleep. destruct (Z.ltb_spec secs 0); [apply advances_refl|].
  constructor; cbn; try done; [by apply prefix_app_r|lia].
Qed.

Lemma grows_print text : grows (print text).
Proof. intros s. constructor; cbn; try done. by apply prefix_app_r. Qed.

Lemma grows_session_get url : grows (session_get w url).
Proof. intros s. constructor; cbn; try done; [by apply prefix_app_r|lia]. Qed.

Lemma grows_db_query {A} table (q : database → result A) : grows (db_query w table q).
Proof.
  intros s. unfold db_query.
  destruct (db_fault w table (st_statements s)); constructor; cbn; try done; lia.
Qed.

Lemma grows_db_execute table f : appends f → grows (db_execute w table f).
Proof.
  intros Hf s. unfold db_execute.
  destruct (db_fault w table (st_statements s)); [constructor; cbn; try done; lia|].
  destruct (f (st_db s)) as [db'|e] eqn:E; [|constructor; cbn; try done; lia].
  destruct (Hf _ _ E) as (H1 & H2 & H3). constructor; cbn; try done; lia.
Qed.

Lemma grows_write_file path content : grows (write_file w path content).
Proof.
  intros s. unfold write_file.
  destruct (fs_fault w path (st_writes s)); constructor; cbn; try done; try lia.
  apply dom_insert_subseteq.
Qed.

Lemma grows_makedirs path : grows (makedirs w path).
Proof.
  intros s. unfold makedirs.
  destruct (fs_fault w path (st_writes s)); apply advances_refl.
Qed.

Lemma insert_rows_prefix columns t data rows rows' :
  insert_rows columns t data rows = Ret rows' → rows `prefix_of` rows'.
Proof.
  unfold insert_rows. destruct data as [|first rest]; [by intros [= <-]|].
  destruct (negb _); [done|]. destruct (negb _); [done|].
  intros [= <-]. by apply prefix_app_r.
Qed.

Lemma appends_save table t data :
  appends (λ db,
             if String.eqb table "books"
             then with_books db <$> insert_rows books_columns t data (tbl_books db)
             else if String.eqb table "products"
             then with_products db <$> insert_rows products_columns t data (tbl_products db)
             else Ret db).
Proof.
  intros db db'. destruct (String.eqb table "books").
  - destruct (insert_rows _ _ _ _) as [rows|e] eqn:E; [|done].
    intros [= <-]. cbn. split_and!; [by eapply insert_rows_prefix|done|done].
  - destruct (String.eqb table "products"); [|by intros [= <-]].
    destruct (insert_rows _ _ _ _) as [rows|e] eqn:E; [|done].
    intros [= <-]. cbn. split_and!; [done|by eapply insert_rows_prefix|done].
Qed.

Lemma appends_log t entry :
  appends (λ db, with_logs db <$> insert_rows logs_columns t [entry] (tbl_logs db)).
Proof.
  intros db db'. destruct (insert_rows _ _ _ _) as [rows|e] eqn:E; [|done].
  intros [= <-]. cbn. split_and!; [done|done|by eapply insert_rows_prefix].
Qed.

Lemma appends_nothing : appends Ret.
Proof. by intros db db' [= <-]. Qed.

End Advances.

Create HintDb grows.

#[export] Hint Resolve grows_log grows_sleep grows_print grows_session_get grows_db_query
  grows_write_file grows_makedirs grows_now : grows.

Ltac grows_step :=
  match goal with
  | |- grows (bind _ _) => apply grows_bind; [|intros ?]
  | |- grows (try_except _ _ _) => apply grows_try_except; [|intros ?]
  | |- grows (for_each _ _ _) => apply grows_for_each; intros ? ?
  | |- grows (ret _) => apply grows_ret
  | |- grows (raise _) => apply grows_raise
  | |- grows (lift _) => apply grows_lift
  | |- grows (db_execute _ _ _) =>
      apply grows_db_execute;
      first [apply appends_save | apply appends_log | apply appends_nothing]
  | |- grows (if ?b then _ else _) => destruct b
  | |- grows (match ?x with _ => _ end) => destruct x
  | |- grows _ => solve [auto with grows]
  end.

Ltac solve_grows := repeat grows_step.

Section Monotone.
Context (cfg : Config) (w : World).

Lemma grows_fetch_attempts url attempts : grows (fetch_attempts cfg w url attempts).
Proof. induction attempts as [|attempt rest IH]; cbn [fetch_attempts]; solve_grows. Qed.

Lemma grows_fetch_page url : grows (fetch_page cfg w url).
Proof. apply grows_fetch_attempts. Qed.

Hint Resolve grows_fetch_page : grows.

Lemma grows_description path : grows (_get_book_description cfg w path).
Proof. unfold _get_book_description. solve_grows. Qed.

Hint Resolve grows_description : grows.

Lemma grows_scrape_books urls : grows (scrape_books cfg w urls).
Proof.
  unfold scrape_books, scrape_books_url, extract_books, parse_book, scrape_book.
  solve_grows.
Qed.

Lemma grows_scrape_products urls : grows (scrape_products cfg w urls).
Proof.
  unfold scrape_products, scrape_products_url, extract_products, parse_product.
  solve_grows.
Qed.

Lemma grows_save_data data table : grows (_save_data w data table).
Proof. unfold _save_data. solve_grows. Qed.

Lemma grows_save_to_csv data filename : grows (save_to_csv w data filename).
Proof. unfold save_to_csv. solve_grows. Qed.

Lemma grows_export table filename : grows (export_to_csv w table filename).
Proof. unfold export_to_csv, read_sql_query. solve_grows. Qed.

Lemma grows_log_scraping_run target status n msg t0 :
  grows (log_scraping_run w target status n msg t0).
Proof. unfold log_scraping_run. solve_grows. Qed.

Hint Resolve grows_scrape_books grows_scrape_products grows_save_data grows_save_to_csv
  grows_export grows_log_scraping_run : grows.

Lemma grows_scrape_and_store target : grows (scrape_and_store cfg w target).
Proof. unfold scrape_and_store, save_books, save_products. solve_grows. Qed.

Hint Resolve grows_scrape_and_store : grows.

Lemma grows_run_scraping_job target : grows (run_scraping_job cfg w target).
Proof. unfold run_scraping_job. solve_grows. Qed.

Hint Resolve grows_run_scraping_job : grows.

Lemma grows_get_scraping_stats : grows (get_scraping_stats w).
Proof. unfold get_scraping_stats. solve_grows. Qed.

Lemma grows_generate_report stats results : grows (_generate_report w stats results).
Proof. unfold _generate_report. solve_grows. Qed.

Hint Resolve grows_get_scraping_stats grows_generate_report : grows.

Lemma grows_run_all : grows (run_all_scraping_jobs cfg w).
Proof. unfold run_all_scraping_jobs, run_target. solve_grows. Qed.

Hint Resolve grows_run_all : grows.

Lemma grows_WebScraper : grows (WebScraper w).
Proof.
  unfold WebScraper, DatabaseManager, _create_tables, _setup_output_dirs. solve_grows.
Qed.

Hint Resolve grows_WebScraper : grows.

Lemma grows_run_scheduled_scraping : grows (run_scheduled_scraping cfg w).
Proof. unfold run_scheduled_scraping. solve_grows. Qed.

(** X14.  The store is append-only, and so is everything a run
    leaves behind.  Whatever a job, a whole run or a scheduled run does,
    returns or raises, each of the three tables afterwards is the table
    before, row for row, followed by the new rows: no row is ever
    changed, moved or deleted.  Likewise no file disappears, the trace
    and the logger are only extended, and the clock never goes back. *)
Theorem store_is_append_only target s :
  advances s (run_scraping_job cfg w target s).2
  ∧ advances s (run_all_scraping_jobs cfg w s).2
  ∧ advances s (run_scheduled_scraping cfg w s).2
  ∧ (∀ s', advances s s' →
       (∀ i row, tbl_books (st_db s) !! i = Some row → tbl_books (st_db s') !! i = Some row)
       ∧ (∀ i row, tbl_products (st_db s) !! i = Some row
                   → tbl_products (st_db s') !! i = Some row)
       ∧ (∀ i row, tbl_logs (st_db s) !! i = Some row → tbl_logs (st_db s') !! i = Some row)
       ∧ (∀ path, is_Some (st_files s !! path) → is_Some (st_files s' !! path))).
Proof.
  split_and!.
  - apply grows_run_scraping_job.
  - apply grows_run_all.
  - apply grows_run_scheduled_scraping.
  - intros s' []. split_and!.
    + intros i row Hrow. by eapply prefix_lookup_Some.
    + intros i row Hrow. by eapply prefix_lookup_Some.
    + intros i row Hrow. by eapply prefix_lookup_Some.
    + intros path Hp. apply elem_of_dom. apply adv_files0. by apply elem_of_dom.
Qed.

End Monotone.

Section JobOutcomes.
Context (cfg : Config) (w : World).

Lemma keeps_outside_log l msg : keeps outside (log l msg).
Proof. intros s. unfold log. by destruct (level_enabled l). Qed.

Lemma keeps_outside_db_execute table f : keeps outside (db_execute w table f).
Proof.
  intros s. unfold db_execute. destruct (db_fault w table (st_statements s)); [done|].
  by destruct (f (st_db s)).
Qed.

Hint Resolve keeps_outside_log keeps_outside_db_execute : keeps.

Lemma keeps_outside_log_scraping_run target status n msg t0 :
  keeps outside (log_scraping_run w target status n msg t0).
Proof. unfold log_scraping_run. solve_keeps. Qed.

Lemma log_scraping_run_crashes target status n msg t0 s e :
  db_fault w "scraping_logs" (st_statements s) = Some e →
  is_class SQLAlchemyError e = false →
  log_scraping_run w target status n msg (Some t0) s = (Raise e, set_statements S s).
Proof.
  intros H Hc. unfold log_scraping_run, try_except, bind, now, ret, db_execute.
  cbn [fst snd]. rewrite H. cbn [fst snd]. by rewrite Hc.
Qed.

Lemma run_scraping_job_parts target s :
  run_scraping_job cfg w target s
  = try_except
      (do _ <- log INFO ("Starting scraping job for: " +:+ target);
       do records_saved <- scrape_and_store cfg w target;
       job_tail w target (st_clock s) records_saved)
      any_exception (job_handler w target (st_clock s)) s.
Proof. reflexivity. Qed.

Lemma job_tail_outside target t0 n : keeps outside (job_tail w target t0 n).
Proof.
  unfold job_tail. pose proof keeps_outside_log_scraping_run. solve_keeps.
Qed.

Lemma job_handler_outside target t0 e : keeps outside (job_handler w target t0 e).
Proof.
  unfold job_handler. pose proof keeps_outside_log_scraping_run. solve_keeps.
Qed.

Lemma job_tail_grows target t0 n : grows (job_tail w target t0 n).
Proof. unfold job_tail. pose proof (grows_log_scraping_run w). solve_grows. Qed.

Lemma job_handler_grows target t0 e : grows (job_handler w target t0 e).
Proof. unfold job_handler. pose proof (grows_log_scraping_run w). solve_grows. Qed.

(** Once the pipeline of a job is over, the job only logs. *)
Lemma run_scraping_job_outside target s :
  let s1 := (scrape_and_store cfg w target
               (log INFO ("Starting scraping job for: " +:+ target) s).2).2 in
  outside (run_scraping_job cfg w target s).2 = outside s1
  ∧ advances s1 (run_scraping_job cfg w target s).2.
Proof.
  intros s1. subst s1.
  remember (run_scraping_job cfg w target s) as p eqn:Hp.
  rewrite run_scraping_job_parts in Hp. unfold try_except in Hp.
  erewrite run_bind_ret in Hp by apply run_log. unfold bind at 1 in Hp.
  destruct (scrape_and_store cfg w target _) as [[n|e] s1]; cbn [fst snd any_exception] in *.
  - pose proof (job_tail_outside target (st_clock s) n s1) as Ho.
    pose proof (job_tail_grows target (st_clock s) n s1) as Hg.
    destruct (job_tail w target (st_clock s) n s1) as [[b|e] s2]; subst p;
      cbn [fst snd] in *; [by split|].
    pose proof (job_handler_outside target (st_clock s) e s2) as Ho'.
    pose proof (job_handler_grows target (st_clock s) e s2) as Hg'.
    split; [by rewrite Ho'|by eapply advances_trans].
  - subst p. split; [apply job_handler_outside|apply job_handler_grows].
Qed.

(** A job whose pipeline came through, and a job whose pipeline
    raised, with a log store that takes the entry. *)
Lemma run_scraping_job_success target s n s1 :
  scrape_and_store cfg w target (log INFO ("Starting scraping job for: " +:+ target) s).2
  = (Ret n, s1) →
  db_fault w "scraping_logs" (st_statements s1) = None →
  ∃ s', run_scraping_job cfg w target s = (Ret true, s')
        ∧ st_db s'
          = with_logs (st_db s1)
              (tbl_logs (st_db s1)
               ++ [job_row (st_db s1) (st_clock s1) target "success" n None (st_clock s)])
        ∧ outside s' = outside s1.
Proof.
  intros E Hf. unfold run_scraping_job.
  erewrite run_bind_ret by apply run_now.
  destruct (log_scraping_run_accepted w target "success" n None (st_clock s) s1 Hf)
    as [H1 H2].
  pose proof (keeps_outside_log_scraping_run target "success" n None (Some (st_clock s)) s1)
    as H3.
  eexists. split; [|split].
  - erewrite run_try_ret; [reflexivity|].
    erewrite run_bind_ret by apply run_log.
    erewrite run_bind_ret by exact E.
    erewrite run_bind_ret
      by (rewrite (pair_eta (log_scraping_run _ _ _ _ _ _)), H1; reflexivity).
    erewrite run_bind_ret by apply run_log. reflexivity.
  - rewrite <- H2. apply keeps_db_log.
  - rewrite <- H3. apply keeps_outside_log.
Qed.

Lemma run_scraping_job_failure target s e s1 :
  scrape_and_store cfg w target (log INFO ("Starting scraping job for: " +:+ target) s).2
  = (Raise e, s1) →
  db_fault w "scraping_logs" (st_statements s1) = None →
  ∃ s', run_scraping_job cfg w target s = (Ret false, s')
        ∧ st_db s'
          = with_logs (st_db s1)
              (tbl_logs (st_db s1)
               ++ [job_row (st_db s1) (st_clock s1) target "failed" 0
                           (Some (exn_str e)) (st_clock s)])
        ∧ outside s' = outside s1
        ∧ Log ERROR ("Scraping job failed for " +:+ target +:+ ": " +:+ exn_str e)
          ∈ st_logger s'.
Proof.
  intros E Hf. unfold run_scraping_job.
  erewrite run_bind_ret by apply run_now.
  set (s2 := (log ERROR ("Scraping job failed for " +:+ target +:+ ": " +:+ exn_str e) s1).2).
  assert (st_db s2 = st_db s1 ∧ st_clock s2 = st_clock s1
          ∧ st_statements s2 = st_statements s1 ∧ outside s2 = outside s1)
    as (Hdb & Hck & Hst & Hout) by done.
  rewrite <- Hst in Hf.
  destruct (log_scraping_run_accepted w target "failed" 0 (Some (exn_str e))
              (st_clock s) s2 Hf) as [H1 H2].
  pose proof (keeps_outside_log_scraping_run target "failed" 0 (Some (exn_str e))
                (Some (st_clock s)) s2) as H3.
  pose proof (adv_logger _ _ (grows_log_scraping_run w target "failed" 0 (Some (exn_str e))
                                (Some (st_clock s)) s2)) as Hlogger.
  eexists. split; [|split; [|split]].
  - erewrite run_try_handled; [| |reflexivity].
    2:{ erewrite run_bind_ret by apply run_log.
        erewrite run_bind_raise by exact E. reflexivity. }
    erewrite run_bind_ret by apply run_log. fold s2.
    erewrite run_bind_ret
      by (rewrite (pair_eta (log_scraping_run _ _ _ _ _ _)), H1; reflexivity).
    reflexivity.
  - by rewrite H2, Hdb, Hck.
  - by rewrite H3.
  - eapply elem_of_prefix; [|exact Hlogger]. unfold s2. cbn.
    apply elem_of_app. right. by left.
Qed.

(** X15.  A target that is neither [books] nor [products] is
    refused before anything is fetched or written: the job sends no
    request, waits for nothing and writes no file and no data row.  It
    is logged as [failed] with 0 records and the message
    [Unknown target: <target>], and the job returns [False]. *)
Theorem unknown_target_is_logged_failed target s :
  target ≠ "books" →
  target ≠ "products" →
  db_fault w "scraping_logs" (st_statements s) = None →
  ∃ entry s',
    run_scraping_job cfg w target s = (Ret false, s')
    ∧ tbl_logs (st_db s') = tbl_logs (st_db s) ++ [entry]
    ∧ field "target" entry = Some (VStr target)
    ∧ field "status" entry = Some (VStr "failed")
    ∧ field "records_scraped" entry = Some (VInt 0)
    ∧ field "error_message" entry = Some (VStr ("Unknown target: " +:+ target))
    ∧ st_events s' = st_events s
    ∧ st_files s' = st_files s
    ∧ tbl_books (st_db s') = tbl_books (st_db s)
    ∧ tbl_products (st_db s') = tbl_products (st_db s).
Proof.
  intros Hb Hp Hf. apply String.eqb_neq in Hb, Hp.
  set (s0 := (log INFO ("Starting scraping job for: " +:+ target) s).2).
  assert (scrape_and_store cfg w target s0
          = (Raise (Exn ValueError ("Unknown target: " +:+ target)), s0)) as E
    by (unfold scrape_and_store; by rewrite Hb, Hp).
  destruct (run_scraping_job_failure target s _ s0 E Hf) as (s' & Hrun & Hdb & Hout & _).
  eexists _, s'. split; [exact Hrun|]. rewrite Hdb. cbn [tbl_logs tbl_books tbl_products with_logs].
  injection Hout as Hev _ _ Hfiles _ _. rewrite Hev, Hfiles.
  by split_and!.
Qed.

Lemma fetch_page_escape url s e :
  0 < max_retries cfg →
  http_get w url (st_requests s) = Raise e →
  is_class RequestException e = false →
  fetch_page cfg w url s
  = (Raise e, set_requests S (set_events (λ es, es ++ [EvGet url]) s)).
Proof.
  intros Hmax He Hc. unfold fetch_page, range.
  destruct (Z.to_nat (max_retries cfg)) as [|n] eqn:E; [lia|].
  cbn [seq fmap list_fmap]. by apply fetch_attempts_escape.
Qed.

Lemma scrape_target_escape target url rest s e :
  0 < max_retries cfg →
  http_get w url (st_requests s) = Raise e →
  is_class RequestException e = false →
  ∃ s1, scrape_target cfg w target (url :: rest) s = (Raise e, s1)
        ∧ st_events s1 = st_events s ++ [EvGet url]
        ∧ store s1 = store s.
Proof.
  intros Hmax He Hc. unfold scrape_target.
  destruct (String.eqb target "books").
  - unfold scrape_books. cbn [for_each]. eexists. split.
    + erewrite run_bind_raise; [reflexivity|]. unfold scrape_books_url.
      erewrite run_bind_ret by apply run_log.
      erewrite run_bind_raise; [reflexivity|]. by apply fetch_page_escape.
    + done.
  - unfold scrape_products. cbn [for_each]. eexists. split.
    + erewrite run_bind_raise; [reflexivity|]. unfold scrape_products_url.
      erewrite run_bind_ret by apply run_log.
      erewrite run_bind_raise; [reflexivity|]. by apply fetch_page_escape.
    + done.
Qed.

(** X16.  An error of the HTTP session that is not a
    [RequestException] is not retried and not skipped: raised by the
    first request of a job, it ends the scrape of the target after that
    single request.  No other URL is asked for, nothing is stored or
    written, and the job is logged as [failed] with the message of the
    error and returns [False]. *)
Theorem unexpected_fetch_error_fails_job target url rest s e :
  known_target target →
  target_urls cfg target = url :: rest →
  0 < max_retries cfg →
  http_get w url (st_requests s) = Raise e →
  is_class RequestException e = false →
  db_fault w "scraping_logs" (st_statements s) = None →
  ∃ entry s',
    run_scraping_job cfg w target s = (Ret false, s')
    ∧ tbl_logs (st_db s') = tbl_logs (st_db s) ++ [entry]
    ∧ field "status" entry = Some (VStr "failed")
    ∧ field "records_scraped" entry = Some (VInt 0)
    ∧ field "error_message" entry = Some (VStr (exn_str e))
    ∧ st_events s' = st_events s ++ [EvGet url]
    ∧ st_files s' = st_files s
    ∧ tbl_books (st_db s') = tbl_books (st_db s)
    ∧ tbl_products (st_db s') = tbl_products (st_db s).
Proof.
  intros Hk Hurls Hmax He Hc Hf.
  set (s0 := (log INFO ("Starting scraping job for: " +:+ target) s).2).
  destruct (scrape_target_escape target url rest s0 e Hmax He Hc) as (s1 & Hs & Hev & Hst).
  assert (scrape_and_store cfg w target s0 = (Raise e, s1)) as E.
  { rewrite scrape_and_store_known by done. rewrite Hurls.
    by erewrite run_bind_raise by exact Hs. }
  injection Hst as Hdb Hstmt Hfiles _.
  destruct (run_scraping_job_failure target s e s1 E) as (s' & Hrun & Hdb' & Hout & _).
  { by rewrite Hstmt. }
  eexists _, s'. split; [exact Hrun|]. rewrite Hdb', Hdb.
  cbn [tbl_logs tbl_books tbl_products with_logs].
  injection Hout as Hev' _ _ Hfiles' _ _. rewrite Hev', Hfiles', Hev, Hfiles.
  by split_and!.
Qed.

Lemma keeps_files_log l msg : keeps st_files (log l msg).
Proof. intros s. unfold log. by destruct (level_enabled l). Qed.

(** A job that scraped nothing. *)
Lemma scrape_and_store_nothing target s s1 :
  known_target target →
  scrape_target cfg w target (target_urls cfg target) s = (Ret [], s1) →
  scrape_and_store cfg w target s
  = (Ret 0,
     (export_to_csv w target (Some (latest_path target))
        (log WARNING ("No data to save to " +:+ target +:+ ".csv") s1).2).2).
Proof.
  intros Hk Hs. rewrite scrape_and_store_known by done.
  erewrite run_bind_ret by exact Hs.
  erewrite run_bind_ret by reflexivity.
  erewrite run_bind_ret by apply run_log.
  fold (latest_path target).
  destruct (no_raise_inv (export_to_csv w target (Some (latest_path target)))
              (log WARNING ("No data to save to " +:+ target +:+ ".csv") s1).2
              (export_no_raise w _ _)) as [p Hp].
  erewrite run_bind_ret by (rewrite (pair_eta (export_to_csv _ _ _)), Hp; reflexivity).
  reflexivity.
Qed.

Lemma snapshot_is_not_latest target : latest_path target ≠ snapshot_path target.
Proof.
  unfold latest_path, snapshot_path. intros H.
  apply String.app_inj in H. apply String.app_inj in H.
  apply (f_equal String.length) in H. by cbn in H.
Qed.

(** X17.  A job that scrapes nothing leaves the flat file of its
    target as it was.  When every URL of the target fails to fetch,
    [save_to_csv] only logs a warning, so [output/<target>.csv] still
    holds what an earlier job wrote, or is still missing.  Only
    [output/<target>_latest.csv] is written again, from the table,
    when the table can be read and the file can be written. *)
Theorem empty_scrape_keeps_old_snapshot target s :
  known_target target →
  (∀ url i, url ∈ target_urls cfg target → request_fails w url i) →
  let s' := (run_scraping_job cfg w target s).2 in
  st_files s' !! snapshot_path target = st_files s !! snapshot_path target
  ∧ Log WARNING ("No data to save to " +:+ target +:+ ".csv") ∈ st_logger s'
  ∧ (db_fault w target (st_statements s) = None →
     fs_fault w (latest_path target) (st_writes s) = None →
     st_files s' !! latest_path target
     = Some (table_file (table_columns target) (stored_rows target (st_db s)))).
Proof.
  intros Hk Hfail s'.
  set (s0 := (log INFO ("Starting scraping job for: " +:+ target) s).2).
  pose proof (scrape_target_unreachable cfg w target (target_urls cfg target) s0 Hfail) as Hs.
  set (s1 := (scrape_target cfg w target (target_urls cfg target) s0).2).
  assert (store s1 = store s) as Hstore.
  { unfold s1, scrape_target. destruct (String.eqb target "books").
    - by rewrite keeps_store_scrape_books.
    - by rewrite keeps_store_scrape_products. }
  injection Hstore as Hdb Hstmt Hfiles Hwrites.
  set (s2 := (log WARNING ("No data to save to " +:+ target +:+ ".csv") s1).2).
  assert (st_db s2 = st_db s1 ∧ st_statements s2 = st_statements s1
          ∧ st_files s2 = st_files s1 ∧ st_writes s2 = st_writes s1) as (Hdb2 & Hst2 & Hf2 & Hw2)
    by done.
  set (s3 := (export_to_csv w target (Some (latest_path target)) s2).2).
  assert (scrape_and_store cfg w target s0 = (Ret 0, s3)) as E.
  { apply scrape_and_store_nothing; [done|].
    by rewrite (pair_eta (scrape_target _ _ _ _)), Hs. }
  assert (Log WARNING ("No data to save to " +:+ target +:+ ".csv") ∈ st_logger s3) as Hwarn.
  { pose proof (adv_logger _ _ (grows_export w target (Some (latest_path target)) s2))
      as Hlogger.
    eapply elem_of_prefix; [|exact Hlogger]. unfold s2. cbn.
    apply elem_of_app. right. by left. }
  assert (st_files s' = st_files s3 ∧ st_logger s3 `prefix_of` st_logger s') as [Hs' Hlog].
  { pose proof (run_scraping_job_outside target s) as [Hout Hadv]. fold s0 in Hout, Hadv.
    rewrite E in Hout, Hadv. cbn [snd] in Hout, Hadv. fold s' in Hout, Hadv.
    injection Hout as _ _ _ Hfiles' _ _. split; [done|]. by destruct Hadv. }
  pose proof (export_to_csv_files w target (Some (latest_path target)) s2) as Hexp.
  fold s3 in Hexp. unfold export_path in Hexp. cbn [default from_option id] in Hexp.
  split_and!.
  - rewrite Hs'. destruct Hexp as [->|(f & ->)].
    + by rewrite Hf2, Hfiles.
    + rewrite lookup_insert_ne by apply snapshot_is_not_latest. by rewrite Hf2, Hfiles.
  - by eapply elem_of_prefix.
  - intros Hfdb Hffs. rewrite Hs'. unfold s3. rewrite export_to_csv_run.
    rewrite Hst2, Hstmt, Hfdb, Hdb2, Hdb, (select_all_known target (st_db s) Hk).
    unfold export_path. cbn [default from_option id]. rewrite Hw2, Hwrites, Hffs.
    cbn [snd st_files log level_enabled set_logger set_files fst].
    by rewrite lookup_insert_eq.
Qed.

(** X18.  The handler of a job is not protected itself.  When the
    log store fails with something else than its own error class on
    every statement, a job does not return: the error that
    [log_scraping_run] meets in the [except] branch leaves
    [run_scraping_job], no row is logged, and a run of all jobs stops
    with the books job, where that state is the last one: the products
    job is not started and no report is written. *)
Theorem log_failure_escapes_job target s :
  log_store_crashes w →
  (∃ e, (run_scraping_job cfg w target s).1 = Raise e
        ∧ is_class SQLAlchemyError e = false)
  ∧ tbl_logs (st_db (run_scraping_job cfg w target s).2) = tbl_logs (st_db s)
  ∧ (∃ e, run_all_scraping_jobs cfg w s
          = (Raise e, (run_scraping_job cfg w "books"
                         (log INFO "Starting all scraping jobs" s).2).2)).
Proof.
  intros Hcrash.
  assert (∀ tg s0, ∃ e s', run_scraping_job cfg w tg s0 = (Raise e, s')
                           ∧ is_class SQLAlchemyError e = false
                           ∧ tbl_logs (st_db s') = tbl_logs (st_db s0)) as Hjob.
  { intros tg s0. unfold run_scraping_job.
    erewrite run_bind_ret by apply run_now.
    set (s1 := (log INFO ("Starting scraping job for: " +:+ tg) s0).2).
    pose proof (scrape_and_store_spec cfg w tg s1) as [Hlogs _].
    assert (∃ e0 s2, bind (log INFO ("Starting scraping job for: " +:+ tg))
                          (λ _, do records_saved <- scrape_and_store cfg w tg;
                                do _ <- log_scraping_run w tg "success" records_saved None
                                          (Some (st_clock s0));
                                do _ <- log INFO ("Completed scraping job for " +:+ tg
                                                  +:+ ". Saved " +:+ str_of_Z records_saved
                                                  +:+ " records.");
                                ret true) s0 = (Raise e0, s2)
                     ∧ tbl_logs (st_db s2) = tbl_logs (st_db s0)) as (e0 & s2 & Hbody & Hl2).
    { erewrite run_bind_ret by apply run_log. fold s1.
      destruct (scrape_and_store cfg w tg s1) as [[n|e0] s2] eqn:E; cbn [fst snd] in Hlogs.
      - destruct (Hcrash (st_statements s2)) as (e1 & He1 & Hc1).
        exists e1. eexists. split.
        + erewrite run_bind_ret by exact E.
          erewrite run_bind_raise; [reflexivity|]. by apply log_scraping_run_crashes.
        + done.
      - exists e0, s2. split; [|done]. by erewrite run_bind_raise by exact E. }
    set (s3 := (log ERROR ("Scraping job failed for " +:+ tg +:+ ": " +:+ exn_str e0) s2).2).
    destruct (Hcrash (st_statements s3)) as (e2 & He2 & Hc2).
    exists e2. eexists. split; [|split; [exact Hc2|]].
    - erewrite run_try_handled; [| exact Hbody |reflexivity].
      erewrite run_bind_ret by apply run_log. fold s3.
      erewrite run_bind_raise; [reflexivity|]. by apply log_scraping_run_crashes.
    - done. }
  split_and!.
  - destruct (Hjob target s) as (e & s' & -> & Hc & _). by exists e.
  - by destruct (Hjob target s) as (e & s' & -> & _ & Hl).
  - destruct (Hjob "books" (log INFO "Starting all scraping jobs" s).2)
      as (e & s' & Hrun & _ & _).
    exists e. rewrite Hrun. unfold run_all_scraping_jobs.
    erewrite run_bind_ret by apply run_log.
    erewrite run_bind_raise; [reflexivity|]. cbn [for_each].
    erewrite run_bind_raise; [reflexivity|]. unfold run_target.
    by erewrite run_bind_raise by exact Hrun.
Qed.

(** X19.  The times of a log entry.  With a log store that takes
    the entry, the row a job appends carries the time the job started
    as [start_time] and, as [duration_seconds], the time that passed
    between the start and the logging of the job.  The duration is
    never negative. *)
Theorem job_duration_is_elapsed_time target s :
  log_store_accepts w →
  ∃ ok entry s' elapsed,
    run_scraping_job cfg w target s = (Ret ok, s')
    ∧ tbl_logs (st_db s') = tbl_logs (st_db s) ++ [entry]
    ∧ field "start_time" entry = Some (VTime (st_clock s))
    ∧ field "duration_seconds" entry = Some (VSeconds elapsed)
    ∧ st_clock s' = st_clock s + elapsed
    ∧ 0 ≤ elapsed.
Proof.
  intros Hlog.
  set (s0 := (log INFO ("Starting scraping job for: " +:+ target) s).2).
  pose proof (scrape_and_store_spec cfg w target s0) as [Hlogs _].
  pose proof (adv_clock _ _ (grows_scrape_and_store cfg w target s0)) as Hclock.
  assert (st_clock s0 = st_clock s) as Hc0 by done.
  destruct (scrape_and_store cfg w target s0) as [[n|e] s1] eqn:E; cbn [fst snd] in *.
  - destruct (run_scraping_job_success target s n s1 E (Hlog _)) as (s' & Hrun & Hdb & Hout).
    injection Hout as _ _ Hck _ _ _.
    eexists _, _, s', (st_clock s1 - st_clock s). split; [exact Hrun|].
    rewrite Hdb, Hck. cbn [tbl_logs with_logs]. rewrite Hlogs.
    split_and!; [done|done|done|lia|lia].
  - destruct (run_scraping_job_failure target s e s1 E (Hlog _))
      as (s' & Hrun & Hdb & Hout & _).
    injection Hout as _ _ Hck _ _ _.
    eexists _, _, s', (st_clock s1 - st_clock s). split; [exact Hrun|].
    rewrite Hdb, Hck. cbn [tbl_logs with_logs]. rewrite Hlogs.
    split_and!; [done|done|done|lia|lia].
Qed.

End JobOutcomes.

Section Statistics.
Context (cfg : Config) (w : World).

Hint Resolve keeps_db_log keeps_db_query : keeps.

Lemma keeps_db_stats : keeps st_db (get_scraping_stats w).
Proof. unfold get_scraping_stats. solve_keeps. Qed.

Lemma get_scraping_stats_run s :
  stats_available w s →
  (get_scraping_stats w s).1
  = Ret (<["total_books" := VInt (Z.of_nat (length (tbl_books (st_db s))))]>
         (<["total_products" := VInt (Z.of_nat (length (tbl_products (st_db s))))]>
          (<["last_book_scrape" := max_time "scraped_at" (tbl_books (st_db s))]>
           (<["last_product_scrape" := max_time "scraped_at" (tbl_products (st_db s))]>
            (<["success_rate" :=
                 if 0 <? Z.of_nat (length (tbl_logs (st_db s)))
                 then VFloat (py_round2 w
                                (percentage
                                   (Z.of_nat (length (List.filter is_success
                                                        (tbl_logs (st_db s)))))
                                   (Z.of_nat (length (tbl_logs (st_db s))))))
                 else VInt 0]> ∅))))).
Proof.
  intros Hav.
  pose proof (Hav 0%nat "books" eq_refl) as H0. rewrite Nat.add_0_r in H0.
  pose proof (Hav 1%nat "products" eq_refl) as H1.
  pose proof (Hav 2%nat "books" eq_refl) as H2.
  pose proof (Hav 3%nat "products" eq_refl) as H3.
  pose proof (Hav 4%nat "scraping_logs" eq_refl) as H4.
  replace (st_statements s + 1)%nat with (S (st_statements s)) in H1 by lia.
  replace (st_statements s + 2)%nat with (S (S (st_statements s))) in H2 by lia.
  replace (st_statements s + 3)%nat with (S (S (S (st_statements s)))) in H3 by lia.
  replace (st_statements s + 4)%nat with (S (S (S (S (st_statements s))))) in H4 by lia.
  unfold get_scraping_stats, try_except, bind, db_query.
  rewrite H0. change (st_statements (set_statements S s)) with (S (st_statements s)).
  rewrite H1.
  change (st_statements (set_statements S (set_statements S s)))
    with (S (S (st_statements s))).
  rewrite H2.
  change (st_statements (set_statements S (set_statements S (set_statements S s))))
    with (S (S (S (st_statements s)))).
  rewrite H3.
  change (st_statements
            (set_statements S (set_statements S (set_statements S (set_statements S s)))))
    with (S (S (S (S (st_statements s))))).
  rewrite H4. reflexivity.
Qed.

(** X20.  The statistics of a store that answers.  When none of the
    five queries fails, [get_scraping_stats] returns the number of rows
    of each data table, the latest [scraped_at] of each, and the share
    of [success] rows among all rows of the log, which is the integer 0
    when nothing has been logged yet, so that nothing is divided by
    zero.  The latest time of an empty table is [None], and since the
    key is there, the report prints [None] for it and not the [Never]
    of its default. *)
Theorem get_scraping_stats_healthy s :
  stats_available w s →
  ∃ stats,
    (get_scraping_stats w s).1 = Ret stats
    ∧ st_db (get_scraping_stats w s).2 = st_db s
    ∧ stats !! "total_books" = Some (VInt (Z.of_nat (length (tbl_books (st_db s)))))
    ∧ stats !! "total_products" = Some (VInt (Z.of_nat (length (tbl_products (st_db s)))))
    ∧ stats !! "last_book_scrape" = Some (max_time "scraped_at" (tbl_books (st_db s)))
    ∧ stats !! "last_product_scrape" = Some (max_time "scraped_at" (tbl_products (st_db s)))
    ∧ (tbl_logs (st_db s) = [] → stats !! "success_rate" = Some (VInt 0))
    ∧ (tbl_logs (st_db s) ≠ [] →
       stats !! "success_rate"
       = Some (VFloat (py_round2 w
                         (percentage
                            (Z.of_nat (length (List.filter is_success (tbl_logs (st_db s)))))
                            (Z.of_nat (length (tbl_logs (st_db s))))))))
    ∧ (tbl_books (st_db s) = [] →
       ∀ clock results,
         "- Last Book Scrape: None" ∈ report_lines w clock stats results).
Proof.
  intros Hav. eexists. split; [by apply get_scraping_stats_run|].
  split; [apply keeps_db_stats|]. split_and!.
  - done.
  - done.
  - done.
  - done.
  - intros ->. done.
  - intros Hne. rewrite !lookup_insert_ne by done. rewrite lookup_insert_eq.
    destruct (tbl_logs (st_db s)) as [|row rows]; [done|].
    by replace (0 <? Z.of_nat (length (row :: rows))) with true
      by (symmetry; apply Z.ltb_lt; cbn [length]; lia).
  - intros Hb clock results. unfold report_lines.
    do 12 apply list_elem_of_further. unfold get_or.
    rewrite lookup_insert_ne by done. rewrite lookup_insert_ne by done.
    rewrite lookup_insert_eq, Hb. by left.
Qed.

End Statistics.

Section Scheduler.
Context (cfg : Config) (w : World).

Lemma scheduled_try_block s :
  ∃ s' middle outcome,
    try_except
      (do _ <- WebScraper w;
       do results <- run_all_scraping_jobs cfg w;
       log INFO ("Scheduled run completed. Successful jobs: "
                 +:+ str_of_Z (success_count results) +:+ "/"
                 +:+ str_of_Z (Z.of_nat (size results))))
      any_exception
      (λ e, log ERROR ("Error during scheduled scraping: " +:+ exn_str e)) s
    = (Ret (), s')
    ∧ st_logger s' = st_logger s ++ middle ++ [outcome]
    ∧ st_clock s ≤ st_clock s'
    ∧ ((∃ successes total, outcome = run_completed successes total)
       ∨ (∃ e, outcome = run_aborted e)).
Proof.
  unfold try_except. unfold bind at 1.
  pose proof (adv_logger _ _ (grows_WebScraper w s)) as Hl1.
  pose proof (adv_clock _ _ (grows_WebScraper w s)) as Hc1.
  destruct (WebScraper w s) as [[[]|e] s1]; cbn [fst snd any_exception] in *.
  - destruct Hl1 as [m1 Hm1]. unfold bind at 1.
    pose proof (adv_logger _ _ (grows_run_all cfg w s1)) as Hl2.
    pose proof (adv_clock _ _ (grows_run_all cfg w s1)) as Hc2.
    destruct (run_all_scraping_jobs cfg w s1) as [[results|e] s2];
      cbn [fst snd any_exception] in *; destruct Hl2 as [m2 Hm2].
    + eexists _, (m1 ++ m2), _. split; [reflexivity|].
      cbn [log level_enabled snd st_logger set_logger st_clock].
      rewrite Hm2, Hm1, <- !app_assoc. split; [reflexivity|]. split; [lia|].
      left. by eexists _, _.
    + eexists _, (m1 ++ m2), _. split; [reflexivity|].
      cbn [log level_enabled snd st_logger set_logger st_clock].
      rewrite Hm2, Hm1, <- !app_assoc. split; [reflexivity|]. split; [lia|].
      right. by eexists.
  - destruct Hl1 as [m1 Hm1].
    eexists _, m1, _. split; [reflexivity|].
    cbn [log level_enabled snd st_logger set_logger st_clock].
    rewrite Hm1, <- !app_assoc. split; [reflexivity|]. split; [lia|].
    right. by eexists.
Qed.

(** X21.  A scheduled run never raises, whatever the network, the
    store and the file system do.  Whatever the scraper's constructor
    or the run of all jobs raises is caught and logged, so the logger
    always gets the opening lines, then what the run logged, then
    either the line with the number of successful jobs or the line
    with the error, and always the two closing lines.  [run_once],
    which logs one line and calls it, never raises either. *)
Theorem scheduled_run_never_raises s :
  (∃ s' middle outcome,
     run_scheduled_scraping cfg w s = (Ret (), s')
     ∧ st_logger s'
       = st_logger s ++ run_opening w (st_clock s) ++ middle ++ [outcome]
         ++ run_closing w (st_clock s')
     ∧ ((∃ successes total, outcome = run_completed successes total)
        ∨ (∃ e, outcome = run_aborted e)))
  ∧ (run_once cfg w s).1 = Ret ().
Proof.
  assert (∀ s0, ∃ s' middle outcome,
            run_scheduled_scraping cfg w s0 = (Ret (), s')
            ∧ st_logger s'
              = st_logger s0 ++ run_opening w (st_clock s0) ++ middle ++ [outcome]
                ++ run_closing w (st_clock s')
            ∧ ((∃ successes total, outcome = run_completed successes total)
               ∨ (∃ e, outcome = run_aborted e))) as Hrun.
  { intros s0. unfold run_scheduled_scraping.
    erewrite run_bind_ret by apply run_log.
    erewrite run_bind_ret by apply run_now.
    erewrite run_bind_ret by apply run_log.
    set (sa := (log INFO ("Starting scheduled scraping run at " +:+ py_str w (VTime _)) _).2).
    destruct (scheduled_try_block sa) as (sb & middle & outcome & Htry & Hlog & _ & Hform).
    erewrite run_bind_ret by exact Htry.
    erewrite run_bind_ret by apply run_now.
    erewrite run_bind_ret by apply run_log.
    eexists _, middle, outcome. split; [reflexivity|]. split; [|exact Hform].
    cbn [log level_enabled snd st_logger set_logger st_clock]. rewrite Hlog.
    unfold sa. cbn [log level_enabled snd st_logger set_logger st_clock].
    unfold run_opening, run_closing. rewrite <- !app_assoc. reflexivity. }
  split; [apply Hrun|]. unfold run_once.
  erewrite run_bind_ret by apply run_log.
  by destruct (Hrun (log INFO "Running one-time scraping job..." s).2) as (s' & _ & _ & -> & _).
Qed.

Lemma WebScraper_runs s :
  setup_succeeds w s →
  ∃ s', WebScraper w s = (Ret (), s')
        ∧ st_writes s' = st_writes s ∧ st_files s' = st_files s.
Proof.
  intros (Hdb & Hd1 & Hd2).
  assert (∃ s1, _create_tables w s = (Ret (), s1)
                ∧ st_writes s1 = st_writes s ∧ st_files s1 = st_files s)
    as (s1 & Hct & Hw1 & Hf1).
  { unfold _create_tables, try_except, bind, db_execute.
    destruct (db_fault w "metadata" (st_statements s)) as [e|] eqn:E.
    - rewrite (Hdb e eq_refl). by eexists.
    - by eexists. }
  assert (∀ path, fs_fault w path (st_writes s) = None → makedirs w path s1 = (Ret (), s1))
    as Hmk by (intros path Hp; unfold makedirs; by rewrite Hw1, Hp).
  exists s1. split; [|done]. unfold WebScraper, DatabaseManager, _setup_output_dirs.
  erewrite run_bind_ret by exact Hct.
  erewrite run_bind_ret by (by apply Hmk). by apply Hmk.
Qed.

Lemma success_count_two (ok_books ok_products : bool) :
  success_count (<["products" := ok_products]> (<["books" := ok_books]> ∅))
  = Z.b2z ok_books + Z.b2z ok_products
  ∧ size (<["products" := ok_products]> (<["books" := ok_books]> (∅ : gmap string bool)))
    = 2%nat.
Proof.
  split.
  - unfold success_count.
    assert (map_to_list (<["products" := ok_products]>
                           (<["books" := ok_books]> (∅ : gmap string bool)))
            ≡ₚ [("products", ok_products); ("books", ok_books)]) as Hp.
    { rewrite map_to_list_insert by done.
      rewrite map_to_list_insert by done. by rewrite map_to_list_empty. }
    assert (∀ l1 l2 : list (string * bool),
              l1 ≡ₚ l2 →
              length (List.filter (λ kv : string * bool, kv.2) l1)
              = length (List.filter (λ kv : string * bool, kv.2) l2)) as Hlen.
    { induction 1 as [|x l1 l2 _ IH|x y l|l1 l2 l3 _ IH1 _ IH2]; cbn.
      - done.
      - destruct x.2; cbn; by rewrite IH.
      - by destruct x.2, y.2.
      - by rewrite IH1. }
    rewrite (Hlen _ _ Hp). by destruct ok_books, ok_products.
  - rewrite map_size_insert_None by done.
    by rewrite map_size_insert_None, map_size_empty by done.
Qed.

(** One turn of the loop over the targets, for a job that returns. *)
Lemma run_target_result target results s ok s1 :
  run_scraping_job cfg w target s = (Ret ok, s1) →
  run_target cfg w target results s
  = (Ret (<[target := ok]> results), (sleep JobPause 2 s1).2).
Proof.
  intros Hrun. unfold run_target.
  erewrite run_bind_ret by exact Hrun.
  erewrite run_bind_ret by (apply run_sleep; lia). reflexivity.
Qed.

(** The loop over the two targets, for jobs that return. *)
Lemma run_all_jobs s ok_books s1 ok_products s2 :
  run_scraping_job cfg w "books" s = (Ret ok_books, s1) →
  run_scraping_job cfg w "products" (sleep JobPause 2 s1).2 = (Ret ok_products, s2) →
  for_each ["books"; "products"] (run_target cfg w) ∅ s
  = (Ret (<["products" := ok_products]> (<["books" := ok_books]> ∅)),
     (sleep JobPause 2 s2).2).
Proof.
  intros Hb Hp. cbn [for_each].
  erewrite run_bind_ret by (by apply run_target_result).
  erewrite run_bind_ret by (by apply run_target_result). reflexivity.
Qed.

Lemma run_all_returns s ok_books s1 ok_products s2 :
  run_scraping_job cfg w "books" (log INFO "Starting all scraping jobs" s).2
  = (Ret ok_books, s1) →
  run_scraping_job cfg w "products" (sleep JobPause 2 s1).2 = (Ret ok_products, s2) →
  report_writable w →
  ∃ stats clock s',
    run_all_scraping_jobs cfg w s
    = (Ret (<["products" := ok_products]> (<["books" := ok_books]> ∅)), s')
    ∧ st_files s' !! report_path
      = Some (FText (report_lines w clock stats
                       (<["products" := ok_products]> (<["books" := ok_books]> ∅)))).
Proof.
  intros Hb Hp Hw.
  set (s0 := (log INFO "Starting all scraping jobs" s).2) in *.
  set (s3 := (sleep JobPause 2 s2).2) in *.
  destruct (no_raise_inv (get_scraping_stats w) s3 (get_scraping_stats_no_raise w))
    as [stats Hstats].
  set (s4 := (get_scraping_stats w s3).2).
  set (results := <["products" := ok_products]>
                    (<["books" := ok_books]> (∅ : gmap string bool))).
  destruct (generate_report_written w stats results s4 Hw) as (s5 & Hrep & Hfile).
  exists stats, (st_clock s4), (log INFO "All scraping jobs completed" s5).2.
  fold results. split.
  - unfold run_all_scraping_jobs.
    erewrite run_bind_ret by apply run_log. fold s0.
    erewrite run_bind_ret by exact (run_all_jobs _ _ _ _ _ Hb Hp).
    fold s3 results.
    erewrite run_bind_ret by (rewrite (pair_eta (get_scraping_stats _)), Hstats; reflexivity).
    fold s4.
    erewrite run_bind_ret by exact Hrep.
    erewrite run_bind_ret by apply run_log. reflexivity.
  - by rewrite keeps_log_files, Hfile.
Qed.

Lemma run_all_report_fails s e ok_books s1 ok_products s2 :
  run_scraping_job cfg w "books" (log INFO "Starting all scraping jobs" s).2
  = (Ret ok_books, s1) →
  run_scraping_job cfg w "products" (sleep JobPause 2 s1).2 = (Ret ok_products, s2) →
  report_unwritable w e →
  ∃ s', run_all_scraping_jobs cfg w s = (Raise e, s').
Proof.
  intros Hb Hp Hw.
  set (s0 := (log INFO "Starting all scraping jobs" s).2) in *.
  set (s3 := (sleep JobPause 2 s2).2) in *.
  destruct (no_raise_inv (get_scraping_stats w) s3 (get_scraping_stats_no_raise w))
    as [stats Hstats].
  set (s4 := (get_scraping_stats w s3).2).
  eexists. unfold run_all_scraping_jobs.
  erewrite run_bind_ret by apply run_log. fold s0.
  erewrite run_bind_ret by exact (run_all_jobs _ _ _ _ _ Hb Hp).
  fold s3.
  erewrite run_bind_ret by (rewrite (pair_eta (get_scraping_stats _)), Hstats; reflexivity).
  fold s4.
  erewrite run_bind_raise; [reflexivity|]. unfold _generate_report.
  erewrite run_bind_ret by apply run_now.
  erewrite run_bind_ret by reflexivity.
  unfold write_file. fold report_path. by rewrite Hw.
Qed.

(** X22.  What a scheduled run says about its jobs.  With a
    constructor that comes through and a log store that fails only with
    its own error class, the run calls the books job in the state the
    constructor left, after the line that all jobs start, and the
    products job two seconds after the books job, and both return.
    When the report can be written, the run logs how many of these two
    calls returned [True], out of 2, and the report is written from
    the results of these two calls.  When the report cannot be
    written, the error of the write is what the run logs instead of
    the count, although both jobs have run. *)
Theorem scheduled_run_outcome s :
  log_store_fails_softly w →
  setup_succeeds w s →
  ∃ ok_books ok_products s1 s2,
    run_scraping_job cfg w "books"
      (log INFO "Starting all scraping jobs" (scheduled_start w s)).2
    = (Ret ok_books, s1)
    ∧ run_scraping_job cfg w "products" (sleep JobPause 2 s1).2 = (Ret ok_products, s2)
    ∧ (report_writable w →
       ∃ stats clock s',
         run_scheduled_scraping cfg w s = (Ret (), s')
         ∧ run_completed (Z.b2z ok_books + Z.b2z ok_products) 2 ∈ st_logger s'
         ∧ st_files s' !! report_path
           = Some (FText (report_lines w clock stats
                            (<["products" := ok_products]> (<["books" := ok_books]> ∅)))))
    ∧ (∀ e, report_unwritable w e →
         ∃ s', run_scheduled_scraping cfg w s = (Ret (), s')
               ∧ run_aborted e ∈ st_logger s').
Proof.
  intros Hsoft Hsetup. unfold scheduled_start.
  set (sa := (log INFO ("Starting scheduled scraping run at "
                        +:+ py_str w (VTime (st_clock s)))
                  (log INFO (times "=" 50) s).2).2).
  destruct (WebScraper_runs sa Hsetup) as (s0 & Hctor & _ & _).
  rewrite Hctor. cbn [snd].
  destruct (run_target_runs cfg w "books" ∅ (log INFO "Starting all scraping jobs" s0).2
              Hsoft) as (okb & s1 & Hb & _).
  destruct (run_target_runs cfg w "products" ∅ (sleep JobPause 2 s1).2 Hsoft)
    as (okp & s2 & Hp & _).
  exists okb, okp, s1, s2. split; [exact Hb|]. split; [exact Hp|]. split.
  - intros Hw. destruct (run_all_returns s0 okb s1 okp s2 Hb Hp Hw)
      as (stats & clock & s3 & Hrun & Hfile).
    destruct (success_count_two okb okp) as [Hcount Hsize].
    exists stats, clock. eexists.
    unfold run_scheduled_scraping.
    erewrite run_bind_ret by apply run_log.
    erewrite run_bind_ret by apply run_now.
    erewrite run_bind_ret by apply run_log. fold sa.
    erewrite run_bind_ret.
    2:{ erewrite run_try_ret; [reflexivity|].
        erewrite run_bind_ret by exact Hctor.
        erewrite run_bind_ret by exact Hrun.
        rewrite Hcount, Hsize. apply run_log. }
    erewrite run_bind_ret by apply run_now.
    erewrite run_bind_ret by apply run_log.
    split; [reflexivity|].
    cbn [log level_enabled snd st_logger st_files set_logger st_clock].
    split; [|exact Hfile].
    rewrite !elem_of_app. left. left. right. by left.
  - intros e Hw. destruct (run_all_report_fails s0 e okb s1 okp s2 Hb Hp Hw) as (s3 & Hrun).
    eexists. unfold run_scheduled_scraping.
    erewrite run_bind_ret by apply run_log.
    erewrite run_bind_ret by apply run_now.
    erewrite run_bind_ret by apply run_log. fold sa.
    erewrite run_bind_ret.
    2:{ erewrite run_try_handled; [apply run_log| |reflexivity].
        erewrite run_bind_ret by exact Hctor.
        erewrite run_bind_raise by exact Hrun. reflexivity. }
    erewrite run_bind_ret by apply run_now.
    erewrite run_bind_ret by apply run_log.
    split; [reflexivity|].
    cbn [log level_enabled snd st_logger st_files set_logger st_clock].
    rewrite !elem_of_app. left. left. right. by left.
Qed.

(** X23.  What the constructor lets through.  [_create_tables]
    catches the engine's own error class and only logs it: when the
    tables cannot be created, [WebScraper()] still returns a scraper,
    and the only trace of the failure is one line of the logger.  The
    output directories are made without such a guard: an error there
    leaves the constructor.  In no case are the tables, the files or
    the trace changed. *)
Theorem constructor_outcome s :
  let s' := (WebScraper w s).2 in
  (st_db s' = st_db s ∧ st_files s' = st_files s ∧ st_events s' = st_events s)
  ∧ (∀ e,
       db_fault w "metadata" (st_statements s) = Some e →
       is_class SQLAlchemyError e = true →
       fs_fault w "output" (st_writes s) = None →
       fs_fault w "output/json" (st_writes s) = None →
       (WebScraper w s).1 = Ret ()
       ∧ st_logger s' = st_logger s ++ [Log ERROR ("Error creating tables: " +:+ exn_str e)])
  ∧ (∀ e,
       (∀ e', db_fault w "metadata" (st_statements s) = Some e'
              → is_class SQLAlchemyError e' = true) →
       fs_fault w "output" (st_writes s) = Some e →
       (WebScraper w s).1 = Raise e).
Proof.
  intros s'. subst s'.
  assert (∃ r s1, _create_tables w s = (r, s1)
                  ∧ st_db s1 = st_db s ∧ st_files s1 = st_files s
                  ∧ st_events s1 = st_events s ∧ st_writes s1 = st_writes s
                  ∧ (∀ e, db_fault w "metadata" (st_statements s) = Some e →
                          is_class SQLAlchemyError e = true →
                          r = Ret ()
                          ∧ st_logger s1
                            = st_logger s
                              ++ [Log ERROR ("Error creating tables: " +:+ exn_str e)])
                  ∧ ((∀ e', db_fault w "metadata" (st_statements s) = Some e'
                            → is_class SQLAlchemyError e' = true) → r = Ret ()))
    as (r & s1 & Hct & Hdb & Hfiles & Hev & Hwr & Hsoft & Hok).
  { unfold _create_tables, try_except, bind, db_execute.
    destruct (db_fault w "metadata" (st_statements s)) as [e|] eqn:E.
    - cbn [fst snd]. destruct (is_class SQLAlchemyError e) eqn:Hc.
      + eexists _, _. split; [reflexivity|]. split_and!; try done.
        by intros e0 [= <-] _.
      + eexists _, _. split; [reflexivity|]. split_and!; try done.
        * intros e0 [= <-] Hc'. congruence.
        * intros H. specialize (H e eq_refl). congruence.
    - eexists _, _. split; [reflexivity|]. split_and!; try done. }
  remember (WebScraper w s) as p eqn:Hp.
  unfold WebScraper, DatabaseManager, _setup_output_dirs, bind in Hp.
  rewrite Hct in Hp. unfold makedirs in Hp. rewrite Hwr in Hp.
  split; [|split].
  - destruct r; [|subst p; cbn [snd]; by split_and!].
    destruct (fs_fault w "output" (st_writes s)); cbv beta iota in Hp;
      [subst p; cbn [snd]; by split_and!|].
    rewrite Hwr in Hp.
    destruct (fs_fault w "output/json" (st_writes s)); subst p; cbn [snd]; by split_and!.
  - intros e He Hc Hd1 Hd2. destruct (Hsoft e He Hc) as [-> Hlog].
    rewrite Hd1 in Hp. cbv beta iota in Hp. rewrite Hwr, Hd2 in Hp. by subst p.
  - intros e Hsoft' Hd1. rewrite (Hok Hsoft'), Hd1 in Hp. by subst p.
Qed.

End Scheduler.

Section Delays.
Context (cfg : Config) (w : World).

(** A fetch sends at least one request. *)
Lemma fetch_page_requests url s :
  0 < max_retries cfg →
  (S (st_requests s) ≤ st_requests (fetch_page cfg w url s).2)%nat.
Proof.
  intros Hmax. unfold fetch_page, range.
  destruct (Z.to_nat (max_retries cfg)) as [|n] eqn:E; [lia|].
  cbn [seq fmap list_fmap fetch_attempts]. unfold try_except at 1. unfold bind at 1.
  unfold session_get at 1.
  destruct (http_get w url (st_requests s)) as [text|e]; cbn [fst snd]; [cbn; lia|].
  destruct (is_class RequestException e); [|cbn; lia].
  match goal with
  | |- context [bind ?m ?k ?s1] =>
      assert (grows (bind m k)) as Hg
        by (pose proof (grows_fetch_attempts cfg w); solve_grows);
      pose proof (adv_requests _ _ (Hg s1)) as Hreq
  end.
  etrans; [|exact Hreq]. cbn. lia.
Qed.

(** What an item of a book page costs. *)
Lemma parse_book_cost url book acc s :
  0 < max_retries cfg →
  ∃ recs s',
    parse_book cfg w url book acc s = (Ret (acc ++ recs), s')
    ∧ (st_requests s + length recs ≤ st_requests s')%nat.
Proof.
  intros Hmax. destruct (book_fields w url book) as [fields|e] eqn:E.
  - destruct (get_book_description_run cfg w fields.2 s) as [d Hd].
    pose proof (fetch_page_requests (detail_url fields.2) s Hmax) as Hr.
    exists [fields.1 ++ [("description", VStr d)]]. eexists. split.
    + unfold parse_book, scrape_book. erewrite run_try_ret; [reflexivity|].
      erewrite run_bind_ret.
      2:{ erewrite run_bind_ret by (unfold lift; rewrite E; reflexivity).
          erewrite run_bind_ret by exact Hd. reflexivity. }
      erewrite run_bind_ret by apply run_log. reflexivity.
    + cbn. lia.
  - exists [], (log ERROR ("Error parsing book: " +:+ exn_str e) s).2. split.
    + rewrite app_nil_r. by apply parse_book_dropped.
    + cbn. lia.
Qed.

Lemma for_each_parse_book_cost url books : ∀ acc s,
  0 < max_retries cfg →
  ∃ recs s',
    for_each books (parse_book cfg w url) acc s = (Ret (acc ++ recs), s')
    ∧ (st_requests s + length recs ≤ st_requests s')%nat.
Proof.
  induction books as [|book books IH]; intros acc s Hmax.
  - exists [], s. rewrite app_nil_r. split; [done|]. cbn. lia.
  - destruct (parse_book_cost url book acc s Hmax) as (recs1 & s1 & H1 & Hr1).
    destruct (IH (acc ++ recs1) s1 Hmax) as (recs2 & s2 & H2 & Hr2).
    exists (recs1 ++ recs2), s2. cbn [for_each].
    erewrite run_bind_ret by exact H1. rewrite H2, app_assoc. split; [done|].
    rewrite length_app. lia.
Qed.

(** X24.  The detail pages of a book listing are fetched back to
    back.  Extracting a listing page never raises, sends at least one
    more request for each record it returns, the fetch of the book's
    detail page, and never waits the politeness delay in between. *)
Theorem detail_fetches_are_not_delayed url soup acc s :
  0 < max_retries cfg →
  ∃ recs s',
    extract_books cfg w url soup acc s = (Ret (acc ++ recs), s')
    ∧ (st_requests s + length recs ≤ st_requests s')%nat
    ∧ politeness_waits s' = politeness_waits s.
Proof.
  intros Hmax.
  pose proof (keeps_waits_extract_books cfg w url soup acc s) as Hwaits.
  destruct (for_each_parse_book_cost url (book_items soup) acc s Hmax)
    as (recs & s' & Hrun & Hreq).
  exists recs, s'. unfold extract_books in *. fold (book_items soup) in *.
  rewrite Hrun in Hwaits. by split_and!.
Qed.

Lemma run_negative_sleep site s :
  delay_between_requests cfg < 0 →
  sleep site (delay_between_requests cfg) s = (Raise negative_sleep, s).
Proof.
  intros H. unfold sleep. by destruct (Z.ltb_spec (delay_between_requests cfg) 0); [|lia].
Qed.

Lemma scrape_target_negative_delay target url rest html s :
  delay_between_requests cfg < 0 →
  0 < max_retries cfg →
  http_get w url (st_requests s) = Ret html →
  html ≠ "" →
  ∃ s1, scrape_target cfg w target (url :: rest) s = (Raise negative_sleep, s1).
Proof.
  intros Hd Hmax Hget Hne.
  unfold scrape_target. destruct (String.eqb target "books").
  - set (s0 := (log INFO ("Scraping books from: " +:+ url) s).2).
    destruct (fetch_page_first_success cfg w url s0 html Hmax Hget) as [Hf _].
    destruct (no_raise_inv (extract_books cfg w url (parse_html w html) [])
                (fetch_page cfg w url s0).2 (extract_books_no_raise cfg w _ _ _))
      as [acc' Hx].
    eexists. unfold scrape_books. cbn [for_each].
    erewrite run_bind_raise; [reflexivity|]. unfold scrape_books_url.
    erewrite run_bind_ret by apply run_log. fold s0.
    erewrite run_bind_ret by (rewrite (pair_eta (fetch_page _ _ _)), Hf; reflexivity).
    rewrite falsy_content by done. cbn [default from_option id].
    erewrite run_bind_ret by (rewrite (pair_eta (extract_books _ _ _ _ _)), Hx; reflexivity).
    erewrite run_bind_raise; [reflexivity|]. by apply run_negative_sleep.
  - set (s0 := (log INFO ("Scraping products from: " +:+ url) s).2).
    destruct (fetch_page_first_success cfg w url s0 html Hmax Hget) as [Hf _].
    eexists. unfold scrape_products. cbn [for_each].
    erewrite run_bind_raise; [reflexivity|]. unfold scrape_products_url.
    erewrite run_bind_ret by apply run_log. fold s0.
    erewrite run_bind_ret by (rewrite (pair_eta (fetch_page _ _ _)), Hf; reflexivity).
    rewrite falsy_content by done. cbn [default from_option id].
    unfold extract_products.
    erewrite run_bind_ret by apply for_each_parse_product.
    erewrite run_bind_raise; [reflexivity|]. by apply run_negative_sleep.
Qed.

(** X25.  A negative delay between requests is not checked when the
    configuration is read: it makes [time.sleep] raise.  The scrape of
    a target then raises at the first page that has content, after its
    items are extracted, so no record is returned.  Nothing is stored,
    and the job is logged as [failed] with 0 records and the message
    of [time.sleep]. *)
Theorem negative_delay_fails_job target url rest html s :
  known_target target →
  target_urls cfg target = url :: rest →
  delay_between_requests cfg < 0 →
  0 < max_retries cfg →
  http_get w url (st_requests s) = Ret html →
  html ≠ "" →
  db_fault w "scraping_logs" (st_statements s) = None →
  (scrape_target cfg w target (url :: rest)
     (log INFO ("Starting scraping job for: " +:+ target) s).2).1 = Raise negative_sleep
  ∧ ∃ entry s',
      run_scraping_job cfg w target s = (Ret false, s')
      ∧ tbl_logs (st_db s') = tbl_logs (st_db s) ++ [entry]
      ∧ field "status" entry = Some (VStr "failed")
      ∧ field "records_scraped" entry = Some (VInt 0)
      ∧ field "error_message" entry = Some (VStr "sleep length must be non-negative")
      ∧ tbl_books (st_db s') = tbl_books (st_db s)
      ∧ tbl_products (st_db s') = tbl_products (st_db s).
Proof.
  intros Hk Hurls Hd Hmax Hget Hne Hf.
  set (s0 := (log INFO ("Starting scraping job for: " +:+ target) s).2).
  destruct (scrape_target_negative_delay target url rest html s0 Hd Hmax Hget Hne)
    as (s1 & Hs).
  split; [by rewrite Hs|].
  assert (store s1 = store s) as Hstore.
  { replace s1 with (scrape_target cfg w target (url :: rest) s0).2 by (by rewrite Hs).
    unfold scrape_target. destruct (String.eqb target "books").
    - by rewrite keeps_store_scrape_books.
    - by rewrite keeps_store_scrape_products. }
  injection Hstore as Hdb Hstmt _ _.
  assert (scrape_and_store cfg w target s0 = (Raise negative_sleep, s1)) as E.
  { rewrite scrape_and_store_known by done. rewrite Hurls.
    by erewrite run_bind_raise by exact Hs. }
  destruct (run_scraping_job_failure cfg w target s _ s1 E) as (s' & Hrun & Hdb' & _ & _).
  { by rewrite Hstmt. }
  eexists _, s'. split; [exact Hrun|]. rewrite Hdb', Hdb.
  cbn [tbl_logs tbl_books tbl_products with_logs]. by split_and!.
Qed.

End Delays.

(** ** The theorems at work *)

(** Three attempts against a site that is down, with waits of 1 and 2
    between them and none at the end; the third attempt succeeding. *)
Lemma fetch_page_backoff_witness :
  ((fetch_page default_config Scenario.offline "http://down/" init_state).1 = Ret None
   ∧ st_events (fetch_page default_config Scenario.offline "http://down/" init_state).2
     = [EvGet "http://down/"; EvSleep Backoff 1; EvGet "http://down/"; EvSleep Backoff 2;
        EvGet "http://down/"])
  ∧ ((fetch_page default_config Scenario.flaky "http://flaky/" init_state).1
     = Ret (Some "<html></html>")
     ∧ st_events (fetch_page default_config Scenario.flaky "http://flaky/" init_state).2
       = [EvGet "http://flaky/"; EvSleep Backoff 1; EvGet "http://flaky/";
          EvSleep Backoff 2; EvGet "http://flaky/"]).
Proof.
  split.
  - destruct (fetch_page_backoff default_config Scenario.offline "http://down/" init_state 3
                eq_refl) as (_ & Hdown & _); [lia|].
    destruct Hdown as (H1 & H2 & _); [|by split].
    intros k _. exists Scenario.unavailable. by split.
  - destruct (fetch_page_backoff default_config Scenario.flaky "http://flaky/" init_state 3
                eq_refl) as (_ & _ & Hup); [lia|].
    destruct (Hup 2%nat "<html></html>") as (H1 & H2 & _); [lia| |reflexivity|by split].
    intros k Hk. exists Scenario.unavailable.
    destruct k as [|[|k]]; [by split|by split|lia].
Defined.

(** C1: the store refuses the one product that was extracted, and the job
    is logged as [success] with 0 records and reported as passed. *)
Lemma store_rejection_logged_as_success :
  (scrape_products default_config Scenario.shop_store_rejects
       (products_urls default_config) init_state).1
    = Ret [[("name", VStr "Laptop"); ("price", VFloat 12.5%float);
            ("description", VStr "15 inch"); ("rating", VFloat 3%float);
            ("reviews", VInt 7); ("category", VStr "allinone");
            ("url", VStr "https://webscraper.io/product/1")];
           [("name", VStr "N/A"); ("price", VFloat 0%float); ("description", VStr "");
            ("rating", VFloat 0%float); ("reviews", VInt 0); ("category", VStr "allinone");
            ("url", VStr "https://webscraper.io/test-sites/e-commerce/allinone")]]
  ∧ db_fault Scenario.shop_store_rejects "products" 0 = Some Scenario.locked
  ∧ (run_scraping_job default_config Scenario.shop_store_rejects "products" init_state).1
    = Ret true
  ∧ st_db (run_scraping_job default_config Scenario.shop_store_rejects "products"
             init_state).2
    = {| tbl_books := []; tbl_products := [];
         tbl_logs := [[("id", VInt 1); ("target", VStr "products");
                       ("status", VStr "success"); ("records_scraped", VInt 0);
                       ("error_message", VNone); ("start_time", VTime 0);
                       ("end_time", VTime 1); ("duration_seconds", VSeconds 1)]] |}.
Proof. by vm_compute. Qed.

Lemma records_scraped_counts_accepted_witness :
  (log_store_accepts Scenario.shop
   ∧ ∃ entry s',
       run_scraping_job default_config Scenario.shop "products" init_state = (Ret true, s')
       ∧ tbl_logs (st_db s') = [entry]
       ∧ length (tbl_products (st_db s')) = 2%nat
       ∧ field "records_scraped" entry = Some (VInt 2))
  ∧ (log_store_accepts Scenario.shop_store_rejects
     ∧ is_class SQLAlchemyError Scenario.locked = true
     ∧ ∃ entry s',
         run_scraping_job default_config Scenario.shop_store_rejects "products" init_state
         = (Ret true, s')
         ∧ tbl_logs (st_db s') = [entry]
         ∧ field "status" entry = Some (VStr "success")
         ∧ field "records_scraped" entry = Some (VInt 0))
  ∧ (log_store_accepts Scenario.shop_store_crashes
     ∧ is_class SQLAlchemyError Scenario.unexpected = false
     ∧ ∃ entry s',
         run_scraping_job default_config Scenario.shop_store_crashes "products" init_state
         = (Ret false, s')
         ∧ tbl_logs (st_db s') = [entry]
         ∧ field "status" entry = Some (VStr "failed")
         ∧ field "records_scraped" entry = Some (VInt 0)
         ∧ field "error_message" entry
           = Some (VStr "unexpected failure in the database driver")).
Proof.
  assert (log_store_accepts Scenario.shop) as Hshop by (by intros i).
  assert (log_store_accepts Scenario.shop_store_rejects) as Hrejects by (by intros i).
  assert (log_store_accepts Scenario.shop_store_crashes) as Hcrashes by (by intros i).
  split_and!; try done.
  - destruct (records_scraped_counts_accepted default_config Scenario.shop
                "products" init_state Hshop)
      as (ok & entry & s' & Hrun & Hlogs & Hn & _ & _).
    assert (s' = (run_scraping_job default_config Scenario.shop "products" init_state).2)
      as Hs' by (by rewrite Hrun).
    assert (ok = true) as ->.
    { apply (f_equal fst) in Hrun. vm_compute in Hrun. by injection Hrun. }
    exists entry, s'. split_and!; [exact Hrun|exact Hlogs| |].
    + rewrite Hs'. by vm_compute.
    + rewrite Hn, Hs'. by vm_compute.
  - destruct (records_scraped_counts_accepted default_config Scenario.shop_store_rejects
                "products" init_state Hrejects)
      as (ok & entry & s' & Hrun & Hlogs & _ & _ & Hrej).
    edestruct Hrej as [Habsorbed _]; [by right|by vm_compute|by vm_compute|].
    destruct (Habsorbed eq_refl) as (-> & Hst & Hn).
    exists entry, s'. split_and!; [exact Hrun|exact Hlogs|exact Hst|exact Hn].
  - destruct (records_scraped_counts_accepted default_config Scenario.shop_store_crashes
                "products" init_state Hcrashes)
      as (ok & entry & s' & Hrun & Hlogs & _ & _ & Hrej).
    edestruct Hrej as [_ Hcrashed]; [by right|by vm_compute|by vm_compute|].
    destruct (Hcrashed eq_refl) as (-> & Hst & Hn & Hmsg); [done|].
    exists entry, s'. split_and!; [exact Hrun|exact Hlogs|exact Hst|exact Hn|exact Hmsg].
Defined.

(** C3: the log store refuses the entry; the job returns [True] and no
    row was appended. *)
Lemma rejected_log_entry_is_lost :
  db_fault Scenario.log_store_rejects "scraping_logs" 1 = Some Scenario.locked
  ∧ (run_scraping_job default_config Scenario.log_store_rejects "books" init_state).1
    = Ret true
  ∧ tbl_logs (st_db (run_scraping_job default_config Scenario.log_store_rejects "books"
                       init_state).2) = []
  ∧ last (st_logger (run_scraping_job default_config Scenario.log_store_rejects "books"
                       init_state).2)
    = Some (Log INFO "Completed scraping job for books. Saved 0 records.")
  ∧ (run_scraping_job default_config Scenario.log_store_rejects "nowhere" init_state).1
    = Ret false
  ∧ tbl_logs (st_db (run_scraping_job default_config Scenario.log_store_rejects "nowhere"
                       init_state).2) = [].
Proof. by vm_compute. Qed.

Lemma run_scraping_job_appends_one_witness :
  log_store_accepts Scenario.offline
  ∧ ∃ entry s',
      run_scraping_job default_config Scenario.offline "magazines" init_state
      = (Ret false, s')
      ∧ tbl_logs (st_db s') = [entry]
      ∧ field "target" entry = Some (VStr "magazines")
      ∧ field "status" entry = Some (VStr "failed").
Proof.
  assert (log_store_accepts Scenario.offline) as Hlog by (by intros i).
  split; [exact Hlog|].
  destruct (run_scraping_job_appends_one default_config Scenario.offline "magazines"
              init_state Hlog) as (ok & entry & s' & Hrun & Hlogs & Ht & Hst & Hok).
  assert (ok = false) as ->.
  { apply (f_equal fst) in Hrun. vm_compute in Hrun. by injection Hrun. }
  exists entry, s'. split_and!; try done.
  destruct Hst as [Hs|Hs]; [|done]. apply Hok in Hs. done.
Defined.

(** C4: after the only URL of the list, which is also the last, the
    scraper still waits; between two URLs that could not be fetched it
    does not wait. *)
Lemma politeness_delay_trace :
  (st_events (scrape_products default_config Scenario.shop ["http://shop/"] init_state).2
   = [EvGet "http://shop/"; EvSleep Politeness 1]
   ∧ politeness_waits (scrape_products default_config Scenario.shop ["http://shop/"]
                         init_state).2 = 1%nat)
  ∧ (st_events (scrape_books default_config Scenario.offline ["http://a/"; "http://b/"]
                  init_state).2
     = [EvGet "http://a/"; EvSleep Backoff 1; EvGet "http://a/"; EvSleep Backoff 2;
        EvGet "http://a/";
        EvGet "http://b/"; EvSleep Backoff 1; EvGet "http://b/"; EvSleep Backoff 2;
        EvGet "http://b/"]
     ∧ politeness_waits (scrape_books default_config Scenario.offline
                           ["http://a/"; "http://b/"] init_state).2 = 0%nat).
Proof. by vm_compute. Qed.

Lemma politeness_delay_follows_content_witness :
  0 ≤ delay_between_requests default_config
  ∧ (∃ acc' s2,
       scrape_products_url default_config Scenario.shop "http://shop/" [] init_state
       = (Ret acc', (sleep Politeness 1 s2).2)
       ∧ st_events (sleep Politeness 1 s2).2 = st_events s2 ++ [EvSleep Politeness 1])
  ∧ scrape_books_url default_config Scenario.offline "http://a/" [] init_state
    = (Ret [], (fetch_page default_config Scenario.offline "http://a/"
                  (log INFO "Scraping books from: http://a/" init_state).2).2)
  ∧ (always_content Scenario.shop ["http://shop/"; "http://shop/2"]
     ∧ politeness_waits (scrape_products default_config Scenario.shop
                           ["http://shop/"; "http://shop/2"] init_state).2 = 2%nat).
Proof.
  assert (0 ≤ delay_between_requests default_config) as Hd by (by vm_compute).
  assert (always_content Scenario.shop ["http://shop/"; "http://shop/2"]) as Hc.
  { intros url i _. by exists "<html>shop</html>". }
  split; [exact Hd|]. split_and!.
  - destruct (politeness_delay_follows_content default_config Scenario.shop "http://shop/" []
                init_state (Some "<html>shop</html>") Hd) as (_ & Hp & _).
    destruct (Hp eq_refl) as (acc' & s2 & _ & H2 & H3).
    exists acc', s2. split; [exact H2|exact H3].
  - destruct (politeness_delay_follows_content default_config Scenario.offline "http://a/" []
                init_state None Hd) as (Hb & _ & _).
    exact (Hb eq_refl).
  - exact Hc.
  - destruct (politeness_delay_follows_content default_config Scenario.shop "http://shop/" []
                init_state None Hd) as (_ & _ & _ & Hw).
    destruct (Hw ["http://shop/"; "http://shop/2"]) as [Hall _]; [done|].
    destruct (Hall Hc) as [_ Hp]. exact Hp.
Defined.

(** C5: a book block that lacks nothing but its price paragraph yields no
    record, while the complete block yields one. *)
Lemma book_without_price_is_dropped :
  Soup.find "p" (Soup.has_class "price_color") Scenario.unpriced_book = None
  ∧ (scrape_books default_config Scenario.bookshop [Scenario.priced_url] init_state).1
    = Ret [[("title", VStr "A Light in the Attic"); ("price", VFloat 51.75%float);
            ("rating", VStr "Three"); ("availability", VStr "In stock");
            ("category", VStr "poetry_23");
            ("url", VStr "http://books.toscrape.com/catalogue/a-light-in-the-attic_1000/index.html");
            ("description", VStr "")]]
  ∧ (scrape_books default_config Scenario.bookshop [Scenario.unpriced_url] init_state).1
    = Ret []
  ∧ last (st_logger (scrape_books default_config Scenario.bookshop [Scenario.unpriced_url]
                       init_state).2)
    = Some (Log ERROR "Error parsing book: 'NoneType' object has no attribute 'text'").
Proof. by vm_compute. Qed.

Lemma field_defaults_witness :
  present_elements_parse Scenario.shop Scenario.unpriced_laptop
  ∧ price_elem Scenario.unpriced_laptop = None
  ∧ (∃ rec, scrape_product Scenario.shop "http://shop/" Scenario.unpriced_laptop = Ret rec
            ∧ field "name" rec = Some (VStr "Laptop")
            ∧ field "price" rec = Some (VFloat 0%float))
  ∧ (∃ rec, scrape_product Scenario.shop "http://shop/" Scenario.bare = Ret rec
            ∧ field "name" rec = Some (VStr "N/A")
            ∧ field "url" rec = Some (VStr "http://shop/")
            ∧ field "price" rec = Some (VFloat 0%float)
            ∧ field "description" rec = Some (VStr "")
            ∧ field "rating" rec = Some (VFloat 0%float)
            ∧ field "reviews" rec = Some (VInt 0))
  ∧ book_element_absent Scenario.unpriced_book
  ∧ ∃ e, parse_book default_config Scenario.bookshop Scenario.unpriced_url
                    Scenario.unpriced_book [] init_state
         = (Ret [], (log ERROR ("Error parsing book: " +:+ exn_str e) init_state).2).
Proof.
  assert (present_elements_parse Scenario.shop Scenario.unpriced_laptop) as Hlaptop.
  { split_and!; intros e; vm_compute; intros [= <-]; by eauto. }
  assert (present_elements_parse Scenario.shop Scenario.bare) as Hbare.
  { by split_and!. }
  assert (book_element_absent Scenario.unpriced_book) as Habs.
  { right. left. by vm_compute. }
  split; [exact Hlaptop|]. split; [by vm_compute|]. split_and!.
  - destruct (field_defaults default_config Scenario.shop "http://shop/"
                Scenario.unpriced_laptop init_state) as (Hp & _ & _).
    destruct (Hp Hlaptop) as (rec & Hrec & _ & Hprice & _).
    exists rec. split_and!; [exact Hrec| |by apply Hprice].
    assert (rec = default [] (parses (scrape_product Scenario.shop "http://shop/"
                                        Scenario.unpriced_laptop))) as ->
      by (by rewrite Hrec).
    by vm_compute.
  - destruct (field_defaults default_config Scenario.shop "http://shop/" Scenario.bare
                init_state) as (Hp & _ & _).
    destruct (Hp Hbare) as (rec & Hrec & Hname & Hprice & Hdesc & Hrating & Hreviews).
    exists rec. destruct (Hname eq_refl) as [Hn Hu].
    split_and!; [done|done|done|by apply Hprice|by apply Hdesc|by apply Hrating|
                 by apply Hreviews].
  - exact Habs.
  - destruct (field_defaults default_config Scenario.bookshop Scenario.unpriced_url
                Scenario.unpriced_book init_state) as (_ & _ & Hb).
    destruct (Hb Habs []) as (e & _ & He). by exists e.
Defined.

(** C6: the line the logger gets for the dropped block is an [ERROR]
    record; no [WARNING] record is emitted. *)
Lemma dropped_item_logged_as_error :
  scrape_product Scenario.shop "http://shop/" Scenario.garbled
  = Raise (Exn ValueError "could not convert string to float: 'call us'")
  ∧ (parse_product Scenario.shop "http://shop/" Scenario.garbled [] init_state).1 = Ret []
  ∧ st_logger (parse_product Scenario.shop "http://shop/" Scenario.garbled [] init_state).2
    = [Log ERROR "Error parsing product: could not convert string to float: 'call us'"]
  ∧ List.filter (λ l, match log_level l with WARNING => true | _ => false end)
      (st_logger (scrape_products default_config Scenario.shop ["http://shop/"]
                    init_state).2) = []
  ∧ log_level <$> st_logger (scrape_books default_config Scenario.bookshop
                               [Scenario.unpriced_url] init_state).2
    = [INFO; INFO; ERROR].
Proof. by vm_compute. Qed.

(** C6 on the product listing: the block whose price does not parse is
    dropped with one line of the logger, the other two yield records. *)
Lemma extract_isolates_malformed_items_witness :
  (extract_products Scenario.shop "http://shop/" (parse_html Scenario.shop "") []
     init_state).1
  = Ret [[("name", VStr "Laptop"); ("price", VFloat 12.5%float);
          ("description", VStr "15 inch"); ("rating", VFloat 3%float);
          ("reviews", VInt 7); ("category", VStr "");
          ("url", VStr "https://webscraper.io/product/1")];
         [("name", VStr "N/A"); ("price", VFloat 0%float); ("description", VStr "");
          ("rating", VFloat 0%float); ("reviews", VInt 0); ("category", VStr "");
          ("url", VStr "http://shop/")]]
  ∧ st_logger (extract_products Scenario.shop "http://shop/" (parse_html Scenario.shop "") []
                 init_state).2
    = [Log ERROR
         "Error parsing product: could not convert string to float: 'call us'"].
Proof.
  destruct (extract_isolates_malformed_items default_config Scenario.shop "http://shop/"
              (parse_html Scenario.shop "") [] init_state) as (_ & _ & _ & H).
  rewrite H. by vm_compute.
Defined.

(** C7: the books and the products job both pass, and the run raises
    when it writes the report. *)
Lemma unwritable_report_raises :
  fs_fault Scenario.report_unwritable "output/scraping_report.txt" 2
  = Some Scenario.read_only
  ∧ (run_all_scraping_jobs default_config Scenario.report_unwritable init_state).1
    = Raise Scenario.read_only
  ∧ (field "status" <$> tbl_logs (st_db (run_all_scraping_jobs default_config
                                           Scenario.report_unwritable init_state).2))
    = [Some (VStr "success"); Some (VStr "success")]
  ∧ st_files (run_all_scraping_jobs default_config Scenario.report_unwritable init_state).2
    !! "output/scraping_report.txt" = None.
Proof. by vm_compute. Qed.

Lemma run_all_completes_witness :
  log_store_fails_softly Scenario.stats_unavailable
  ∧ report_writable Scenario.stats_unavailable
  ∧ ∃ s',
      run_all_scraping_jobs default_config Scenario.stats_unavailable init_state
      = (Ret (<["products" := true]> (<["books" := true]> ∅)), s')
      ∧ st_files s' !! report_path
        = Some (FText (report_lines Scenario.stats_unavailable 13 ∅
                         (<["products" := true]> (<["books" := true]> ∅))))
      ∧ report_lines Scenario.stats_unavailable 13 ∅
          (<["products" := true]> (<["books" := true]> ∅)) !! 10%nat
        = Some "- Total Books: 0"
      ∧ report_lines Scenario.stats_unavailable 13 ∅
          (<["products" := true]> (<["books" := true]> ∅)) !! 12%nat
        = Some "- Last Book Scrape: Never".
Proof.
  assert (log_store_fails_softly Scenario.stats_unavailable) as Hsoft by (by intros i e).
  assert (report_writable Scenario.stats_unavailable) as Hrep by (by intros i).
  split; [exact Hsoft|]. split; [exact Hrep|].
  destruct (run_all_completes default_config Scenario.stats_unavailable init_state Hsoft Hrep)
    as (okb & okp & s1 & s2 & stats & s' & Hb & Hp & Hrun & _ & _ & Hfile & Hdefault).
  assert (s1 = (run_scraping_job default_config Scenario.stats_unavailable "books"
                  (log INFO "Starting all scraping jobs" init_state).2).2) as ->
    by (by rewrite Hb).
  assert (s2 = (run_scraping_job default_config Scenario.stats_unavailable "products"
                  (sleep JobPause 2
                     (run_scraping_job default_config Scenario.stats_unavailable "books"
                        (log INFO "Starting all scraping jobs" init_state).2).2).2).2) as ->
    by (by rewrite Hp).
  assert (okb = true) as ->.
  { apply (f_equal fst) in Hb. vm_compute in Hb. by injection Hb. }
  assert (okp = true) as ->.
  { apply (f_equal fst) in Hp. vm_compute in Hp. by injection Hp. }
  destruct (Hdefault 0%nat "books" Scenario.locked) as (-> & _); [done|by vm_compute|].
  exists s'. split; [exact Hrun|]. split; [|by split].
  rewrite Hfile. by vm_compute.
Defined.

(** C8 on the configured book URLs with the site down. *)
Lemma unreachable_target_logs_success_witness :
  known_target "books"
  ∧ log_store_accepts Scenario.offline
  ∧ (scrape_target default_config Scenario.offline "books"
       (target_urls default_config "books") init_state).1 = Ret []
  ∧ ∃ entry s',
      run_scraping_job default_config Scenario.offline "books" init_state = (Ret true, s')
      ∧ tbl_logs (st_db s') = [entry]
      ∧ field "status" entry = Some (VStr "success")
      ∧ field "records_scraped" entry = Some (VInt 0).
Proof.
  assert (known_target "books") as Hk by (by left).
  assert (log_store_accepts Scenario.offline) as Hlog by (by intros i).
  destruct (unreachable_target_logs_success default_config Scenario.offline "books"
              init_state Hk) as (Hscrape & _ & Hjob).
  { intros url i _. exists Scenario.unavailable. by split. }
  destruct (Hjob Hlog) as (entry & s' & Hrun & Hlogs & _ & Hst & Hn).
  split; [exact Hk|]. split; [exact Hlog|]. split; [exact Hscrape|].
  exists entry, s'. split_and!; [exact Hrun|exact Hlogs|exact Hst|exact Hn].
Defined.

(** C8: every request fails and the log store refuses the entry; the
    scrape of the products target is empty and the job returns [True],
    but no row is logged for it. *)
Lemma unreachable_target_is_not_logged :
  (∀ url i, request_fails Scenario.log_store_rejects url i)
  ∧ (scrape_target default_config Scenario.log_store_rejects "products"
       (target_urls default_config "products") init_state).1 = Ret []
  ∧ (run_scraping_job default_config Scenario.log_store_rejects "products" init_state).1
    = Ret true
  ∧ tbl_logs (st_db (run_scraping_job default_config Scenario.log_store_rejects "products"
                       init_state).2) = []
  ∧ last (st_logger (run_scraping_job default_config Scenario.log_store_rejects "products"
                       init_state).2)
    = Some (Log INFO "Completed scraping job for products. Saved 0 records.").
Proof.
  split; [intros url i; exists Scenario.unavailable; by split|].
  split; [by vm_compute|]. split; [by vm_compute|]. split; by vm_compute.
Qed.

(** C9: the table holds a row of an earlier run; one record is stored and
    the store returns 1, but the exported file has two rows. *)
Lemma export_counts_earlier_rows :
  length (tbl_books (st_db Scenario.stocked)) = 1%nat
  ∧ (save_books Scenario.offline [Scenario.one_book] Scenario.stocked).1 = Ret 1
  ∧ (export_to_csv Scenario.offline "books" None
       (save_books Scenario.offline [Scenario.one_book] Scenario.stocked).2).1
    = Ret (Some "output/books.csv")
  ∧ csv_rows <$> (st_files (export_to_csv Scenario.offline "books" None
                              (save_books Scenario.offline [Scenario.one_book]
                                 Scenario.stocked).2).2 !! "output/books.csv")
    = Some 2%nat.
Proof. by vm_compute. Qed.

Lemma export_after_save_counts_witness :
  known_target "books"
  ∧ ∃ f, st_files (export_to_csv Scenario.offline "books" None
                     (save_books Scenario.offline [Scenario.one_book] init_state).2).2
         !! "output/books.csv" = Some f
         ∧ Z.of_nat (csv_rows f) = 1.
Proof.
  assert (known_target "books") as Hk by (by left).
  split; [exact Hk|].
  destruct (export_after_save_counts Scenario.offline "books" [Scenario.one_book] None
              init_state 1
              (save_books Scenario.offline [Scenario.one_book] init_state).2
              "output/books.csv"
              (export_to_csv Scenario.offline "books" None
                 (save_books Scenario.offline [Scenario.one_book] init_state).2).2 Hk)
    as (f & Hf & _ & Hn); [by vm_compute|by vm_compute|].
  exists f. split; [exact Hf|]. by apply Hn.
Defined.

(** C10 on a site that answers every request with an empty body. *)
Lemma empty_page_is_skipped_witness :
  0 < max_retries default_config
  ∧ http_get Scenario.blank "http://blank/" 0 = Ret ""
  ∧ (fetch_page default_config Scenario.blank "http://blank/" init_state).1 = Ret (Some "")
  ∧ (scrape_books_url default_config Scenario.blank "http://blank/" [] init_state).1 = Ret []
  ∧ st_events (scrape_books_url default_config Scenario.blank "http://blank/" []
                 init_state).2 = [EvGet "http://blank/"]
  ∧ (scrape_products_url default_config Scenario.blank "http://blank/" [] init_state).1
    = Ret []
  ∧ st_events (scrape_products_url default_config Scenario.blank "http://blank/" []
                 init_state).2 = [EvGet "http://blank/"].
Proof.
  assert (0 < max_retries default_config) as Hmax by done.
  destruct (empty_page_is_skipped default_config Scenario.blank "http://blank/" [] init_state
              Hmax eq_refl) as ((H1 & _) & _ & H2 & H3 & H4 & H5).
  by split_and!.
Defined.

(** ** The further theorems at work *)

(** X1: with no attempt allowed, the shop is never asked. *)
Lemma fetch_page_without_attempts_witness :
  max_retries Incident.no_attempts ≤ 0
  ∧ fetch_page Incident.no_attempts Scenario.shop "http://shop/" init_state
    = (Ret None, init_state)
  ∧ (scrape_products Incident.no_attempts Scenario.shop ["http://shop/"] init_state).1 = Ret []
  ∧ st_events (scrape_products Incident.no_attempts Scenario.shop ["http://shop/"]
                 init_state).2 = [].
Proof.
  assert (max_retries Incident.no_attempts ≤ 0) as Hmax by (cbn; lia).
  destruct (fetch_page_without_attempts Incident.no_attempts Scenario.shop "http://shop/"
              ["http://shop/"] init_state Hmax) as (H1 & _ & _ & H4 & H5).
  split; [exact Hmax|]. split; [exact H1|]. split; [exact H4|exact H5].
Defined.

(** X2: one failed attempt, then the session breaks. *)
Lemma fetch_page_propagates_witness :
  (fetch_page default_config Incident.breaking_session "http://shop/" init_state).1
  = Raise Scenario.unexpected
  ∧ st_events (fetch_page default_config Incident.breaking_session "http://shop/"
                 init_state).2
    = [EvGet "http://shop/"; EvSleep Backoff 1; EvGet "http://shop/"]
  ∧ length (st_logger (fetch_page default_config Incident.breaking_session "http://shop/"
                         init_state).2) = 1%nat.
Proof.
  destruct (fetch_page_propagates default_config Incident.breaking_session "http://shop/"
              init_state 1 Scenario.unexpected) as (H1 & H2 & _ & H4).
  - cbn. lia.
  - intros k Hk. exists Scenario.unavailable. destruct k as [|k]; [by split|lia].
  - reflexivity.
  - reflexivity.
  - split; [exact H1|]. split; [exact H2|exact H4].
Defined.

(** X3: three failed attempts cost three seconds. *)
Lemma fetch_page_total_backoff_witness :
  st_clock (fetch_page default_config Scenario.offline "http://down/" init_state).2 = 3
  ∧ st_clock (fetch_page default_config Scenario.shop "http://shop/" init_state).2 ≤ 3.
Proof.
  split.
  - destruct (fetch_page_total_backoff default_config Scenario.offline "http://down/"
                init_state 3 eq_refl) as (_ & _ & H); [lia|].
    apply H. intros k _. exists Scenario.unavailable. by split.
  - destruct (fetch_page_total_backoff default_config Scenario.shop "http://shop/"
                init_state 3 eq_refl) as (_ & H & _); [lia|]. exact H.
Defined.

(** X4: the category of the configured product page, and of a URL
    that ends in a slash. *)
Lemma extract_category_last_segment_witness :
  _extract_category "https://webscraper.io/test-sites/e-commerce/allinone" = "allinone"
  ∧ _extract_category "http://shop/" = ""
  ∧ _extract_category "allinone" = "all".
Proof.
  destruct extract_category_last_segment as [Hnone Hlast].
  split; [|split].
  - exact (Hlast "https://webscraper.io/test-sites/e-commerce" "allinone" eq_refl).
  - exact (Hlast "http:/" "" eq_refl).
  - exact (Hnone "allinone" eq_refl).
Defined.

(** X5: the category of the configured book page is its host, that of
    a catalogue page its directory. *)
Lemma book_category_second_last_witness :
  book_category "https://pdfdrive.com.co/" = "pdfdrive.com.co"
  ∧ book_category Scenario.priced_url = "poetry_23"
  ∧ book_category "poetry_23/index.html" = "poetry_23"
  ∧ book_category "index.html" = "unknown".
Proof.
  destruct book_category_second_last as (Hnone & Hone & Htwo).
  split_and!.
  - exact (Htwo "https:/" "pdfdrive.com.co" "" eq_refl eq_refl).
  - exact (Htwo "http://books.toscrape.com/catalogue/category/books" "poetry_23" "index.html"
             eq_refl eq_refl).
  - exact (Hone "poetry_23" "index.html" eq_refl eq_refl).
  - exact (Hnone "index.html" eq_refl).
Defined.

(** X6: the description of a detail page with the [meta] tag, and of
    one that cannot be fetched. *)
Lemma get_book_description_value_witness :
  (_get_book_description default_config Incident.described_bookshop
     "../../../a-light-in-the-attic_1000/index.html" init_state).1
  = Ret "Poems for children"
  ∧ (_get_book_description default_config Scenario.offline
       "../../../a-light-in-the-attic_1000/index.html" init_state).1 = Ret ""
  ∧ (_get_book_description default_config Incident.broken_session
       "../../../a-light-in-the-attic_1000/index.html" init_state).1 = Ret "".
Proof.
  split_and!.
  - destruct (get_book_description_value default_config Incident.described_bookshop
                "../../../a-light-in-the-attic_1000/index.html" init_state)
      as (_ & Hpage & _ & _).
    exact (Hpage "http://books.toscrape.com/catalogue/a-light-in-the-attic_1000/index.html"
             eq_refl ltac:(discriminate)).
  - destruct (get_book_description_value default_config Scenario.offline
                "../../../a-light-in-the-attic_1000/index.html" init_state)
      as (_ & _ & Habsent & _).
    exact (Habsent None eq_refl eq_refl).
  - destruct (get_book_description_value default_config Incident.broken_session
                "../../../a-light-in-the-attic_1000/index.html" init_state)
      as (_ & _ & _ & Hraised).
    exact (Hraised Scenario.unexpected eq_refl).
Defined.

(** X7: the two records of the shop page are both stored. *)
Lemma scraped_records_fit_tables_witness :
  ∃ recs s1,
    scrape_products default_config Scenario.shop ["http://shop/"] init_state = (Ret recs, s1)
    ∧ length recs = 2%nat
    ∧ Forall (λ r, keys r = product_keys) recs
    ∧ (save_products Scenario.shop recs s1).1 = Ret 2.
Proof.
  destruct (scrape_products default_config Scenario.shop ["http://shop/"] init_state)
    as [[recs|e] s1] eqn:E; [|by vm_compute in E].
  assert (length recs = 2%nat) as Hlen.
  { apply (f_equal (λ p, match p.1 with Ret l => length l | Raise _ => 0%nat end)) in E.
    vm_compute in E. by symmetry. }
  destruct (scraped_records_fit_tables default_config Scenario.shop ["http://shop/"]
              init_state recs s1) as [Hproducts _].
  destruct (Hproducts E) as [Hkeys Hsave].
  destruct (Hsave eq_refl) as [Hn _]. rewrite Hlen in Hn.
  exists recs, s1. split; [reflexivity|]. split; [exact Hlen|]. split; [exact Hkeys|exact Hn].
Defined.

(** X8: the shop page listed twice gives its two records twice, after
    two requests. *)
Lemma scrape_products_stable_site_witness :
  (scrape_products default_config Scenario.shop ["http://shop/"; "http://shop/"] init_state).1
  = Ret (page_products Scenario.shop "http://shop/" "<html>shop</html>"
         ++ page_products Scenario.shop "http://shop/" "<html>shop</html>")
  ∧ length (page_products Scenario.shop "http://shop/" "<html>shop</html>") = 2%nat
  ∧ st_requests (scrape_products default_config Scenario.shop
                   ["http://shop/"; "http://shop/"] init_state).2 = 2%nat.
Proof.
  destruct (scrape_products_stable_site default_config Scenario.shop
              ["http://shop/"; "http://shop/"] (λ _, "<html>shop</html>") init_state)
    as [H1 H2].
  - cbn. lia.
  - cbn. lia.
  - intros url i _. split; [reflexivity|discriminate].
  - split; [|split].
    + rewrite H1. cbn [flat_map]. by rewrite app_nil_r.
    + by vm_compute.
    + exact H2.
Defined.



(** X12: the flat file of a scrape is replaced by the export of the
    table, which is empty here. *)
Lemma export_default_overwrites_snapshot_witness :
  st_files (save_to_csv Scenario.offline [Scenario.one_book] "books.csv" init_state).2
    !! "output/books.csv"
  = Some (FCsv (DataFrame [Scenario.one_book]))
  ∧ st_files (export_to_csv Scenario.offline "books" None
                (save_to_csv Scenario.offline [Scenario.one_book] "books.csv" init_state).2).2
      !! "output/books.csv"
    = Some (FCsv {| df_columns := books_columns; df_rows := [] |}).
Proof.
  destruct (export_default_overwrites_snapshot Scenario.offline "books" [Scenario.one_book]
              init_state) as (H1 & _ & H3).
  - by left.
  - discriminate.
  - reflexivity.
  - reflexivity.
  - reflexivity.
  - split; [exact H1|exact H3].
Defined.

(** X13: an order is reported as saved, and no table has a row. *)
Lemma save_data_unknown_table_witness :
  (_save_data Scenario.offline [Incident.order] "orders" init_state).1 = Ret 1
  ∧ st_db (_save_data Scenario.offline [Incident.order] "orders" init_state).2 = init_db
  ∧ last (st_logger (_save_data Scenario.offline [Incident.order] "orders" init_state).2)
    = Some (Log INFO "Successfully saved 1 records to orders table").
Proof.
  destruct (save_data_unknown_table Scenario.offline [Incident.order] "orders" init_state)
    as [H1 H2]; [discriminate|discriminate|discriminate|reflexivity|].
  rewrite H1. split; [reflexivity|]. split; [reflexivity|]. by vm_compute.
Defined.

(** X14: the book of an earlier run is still the first row of the
    table after a scheduled run. *)
Lemma store_is_append_only_witness :
  tbl_books (st_db Scenario.stocked) !! 0%nat
  = tbl_books (st_db (run_scheduled_scraping default_config Scenario.shop
                        Scenario.stocked).2) !! 0%nat
  ∧ is_Some (tbl_books (st_db Scenario.stocked) !! 0%nat).
Proof.
  destruct (store_is_append_only default_config Scenario.shop "books" Scenario.stocked)
    as (_ & _ & Hrun & Hrows).
  destruct (Hrows _ Hrun) as (Hbooks & _).
  destruct (tbl_books (st_db Scenario.stocked) !! 0%nat) as [row|] eqn:E;
    [|by vm_compute in E].
  split; [|by exists row]. symmetry. by apply Hbooks.
Defined.

(** X15: a job for [music]. *)
Lemma unknown_target_is_logged_failed_witness :
  ∃ entry s',
    run_scraping_job default_config Scenario.shop "music" init_state = (Ret false, s')
    ∧ tbl_logs (st_db s') = [entry]
    ∧ field "status" entry = Some (VStr "failed")
    ∧ field "error_message" entry = Some (VStr "Unknown target: music")
    ∧ st_events s' = []
    ∧ st_files s' = ∅.
Proof.
  destruct (unknown_target_is_logged_failed default_config Scenario.shop "music" init_state)
    as (entry & s' & Hrun & Hlogs & _ & Hst & _ & Hmsg & Hev & Hfiles & _);
    [discriminate|discriminate|reflexivity|].
  exists entry, s'. split_and!; [exact Hrun|exact Hlogs|exact Hst|exact Hmsg|exact Hev|exact Hfiles].
Defined.

(** X16: the session breaks on the first request of the products
    job. *)
Lemma unexpected_fetch_error_fails_job_witness :
  ∃ entry s',
    run_scraping_job default_config Incident.broken_session "products" init_state
    = (Ret false, s')
    ∧ tbl_logs (st_db s') = [entry]
    ∧ field "status" entry = Some (VStr "failed")
    ∧ field "error_message" entry = Some (VStr "unexpected failure in the database driver")
    ∧ st_events s' = [EvGet "https://webscraper.io/test-sites/e-commerce/allinone"].
Proof.
  destruct (unexpected_fetch_error_fails_job default_config Incident.broken_session "products"
              "https://webscraper.io/test-sites/e-commerce/allinone" [] init_state
              Scenario.unexpected)
    as (entry & s' & Hrun & Hlogs & Hst & _ & Hmsg & Hev & _);
    [by right|reflexivity|cbn; lia|reflexivity|reflexivity|reflexivity|].
  exists entry, s'. split_and!; [exact Hrun|exact Hlogs|exact Hst|exact Hmsg|exact Hev].
Defined.

(** X17: the books job of a site that is down. *)
Lemma empty_scrape_keeps_old_snapshot_witness :
  st_files (run_scraping_job default_config Scenario.offline "books" init_state).2
    !! "output/books.csv" = None
  ∧ st_files (run_scraping_job default_config Scenario.offline "books" init_state).2
      !! "output/books_latest.csv"
    = Some (FCsv {| df_columns := books_columns; df_rows := [] |})
  ∧ (run_scraping_job default_config Scenario.offline "books" init_state).1 = Ret true.
Proof.
  destruct (empty_scrape_keeps_old_snapshot default_config Scenario.offline "books" init_state)
    as (H1 & _ & H3).
  - by left.
  - intros url i _. exists Scenario.unavailable. by split.
  - split; [exact H1|]. split; [exact (H3 eq_refl eq_refl)|by vm_compute].
Defined.

(** X18: a log store whose driver breaks. *)
Lemma log_failure_escapes_job_witness :
  log_store_crashes Incident.log_store_broken
  ∧ (∃ e, (run_scraping_job default_config Incident.log_store_broken "books" init_state).1
          = Raise e)
  ∧ (∃ e, (run_all_scraping_jobs default_config Incident.log_store_broken init_state).1
          = Raise e).
Proof.
  assert (log_store_crashes Incident.log_store_broken) as Hcrash
    by (intros i; by exists Scenario.unexpected).
  destruct (log_failure_escapes_job default_config Incident.log_store_broken "books"
              init_state Hcrash) as ((e & He & _) & _ & (e' & Hall)).
  split; [exact Hcrash|]. split; [by exists e|]. exists e'. by rewrite Hall.
Defined.

(** X19: the books job of a site that is down lasts the six seconds
    of its back-off waits. *)
Lemma job_duration_is_elapsed_time_witness :
  ∃ entry s',
    run_scraping_job default_config Scenario.offline "books" init_state = (Ret true, s')
    ∧ tbl_logs (st_db s') = [entry]
    ∧ field "start_time" entry = Some (VTime 0)
    ∧ field "duration_seconds" entry = Some (VSeconds 6).
Proof.
  destruct (job_duration_is_elapsed_time default_config Scenario.offline "books" init_state)
    as (ok & entry & s' & elapsed & Hrun & Hlogs & Hstart & Hdur & Hclock & _);
    [by intros i|].
  assert (s' = (run_scraping_job default_config Scenario.offline "books" init_state).2)
    as Hs' by (by rewrite Hrun).
  assert (ok = true) as ->.
  { apply (f_equal fst) in Hrun. vm_compute in Hrun. by injection Hrun. }
  assert (elapsed = 6) as ->.
  { rewrite Hs' in Hclock. vm_compute in Hclock. lia. }
  exists entry, s'. split_and!; [exact Hrun|exact Hlogs|exact Hstart|exact Hdur].
Defined.

(** X20: the statistics of a store with one book and no logged job. *)
Lemma get_scraping_stats_healthy_witness :
  ∃ stats,
    (get_scraping_stats Scenario.offline Scenario.stocked).1 = Ret stats
    ∧ stats !! "total_books" = Some (VInt 1)
    ∧ stats !! "total_products" = Some (VInt 0)
    ∧ stats !! "success_rate" = Some (VInt 0)
    ∧ stats !! "last_product_scrape" = Some VNone.
Proof.
  destruct (get_scraping_stats_healthy Scenario.offline Scenario.stocked)
    as (stats & Hrun & _ & Hbooks & Hproducts & _ & Hlast & Hrate & _);
    [by intros k table _|].
  exists stats. split_and!; [exact Hrun|exact Hbooks|exact Hproducts|exact (Hrate eq_refl)|exact Hlast].
Defined.

(** X22: a scheduled run against the shop, where the books job finds
    nothing and the products job stores two records, and one with a
    report that cannot be written. *)
Lemma scheduled_run_outcome_witness :
  (∃ s1 s2 s',
     run_scraping_job default_config Scenario.shop "books"
       (log INFO "Starting all scraping jobs" (scheduled_start Scenario.shop init_state)).2
     = (Ret true, s1)
     ∧ run_scraping_job default_config Scenario.shop "products" (sleep JobPause 2 s1).2
       = (Ret true, s2)
     ∧ run_scheduled_scraping default_config Scenario.shop init_state = (Ret (), s')
     ∧ run_completed 2 2 ∈ st_logger s')
  ∧ (∃ s',
       run_scheduled_scraping default_config Scenario.report_unwritable init_state
       = (Ret (), s')
       ∧ run_aborted Scenario.read_only ∈ st_logger s').
Proof.
  split.
  - destruct (scheduled_run_outcome default_config Scenario.shop init_state)
      as (okb & okp & s1 & s2 & Hb & Hp & Hdone & _).
    + by intros i e.
    + by split_and!.
    + assert (okb = true) as ->.
      { apply (f_equal fst) in Hb. vm_compute in Hb. by injection Hb. }
      assert (okp = true) as ->.
      { assert (s1 = (run_scraping_job default_config Scenario.shop "books"
                        (log INFO "Starting all scraping jobs"
                           (scheduled_start Scenario.shop init_state)).2).2) as Hs1
          by (by rewrite Hb).
        rewrite Hs1 in Hp. apply (f_equal fst) in Hp. vm_compute in Hp. by injection Hp. }
      destruct Hdone as (stats & clock & s' & Hrun & Hline & _); [by intros i|].
      exists s1, s2, s'. split_and!; [exact Hb|exact Hp|exact Hrun|exact Hline].
  - destruct (scheduled_run_outcome default_config Scenario.report_unwritable init_state)
      as (_ & _ & _ & _ & _ & _ & _ & Hfail).
    + by intros i e.
    + by split_and!.
    + destruct (Hfail Scenario.read_only) as (s' & Hrun & Hline); [by intros i|].
      exists s'. split; [exact Hrun|exact Hline].
Defined.

(** X23: the tables cannot be created, and the output directory
    cannot be made. *)
Lemma constructor_outcome_witness :
  WebScraper Incident.schema_locked init_state
  = (Ret (),
     set_logger (λ _, [Log ERROR "Error creating tables: (sqlite3.OperationalError) database is locked"])
                (set_statements S init_state))
  ∧ (WebScraper Incident.no_output_dir init_state).1 = Raise Scenario.read_only.
Proof.
  destruct (constructor_outcome Incident.schema_locked init_state) as (_ & Hsoft & _).
  destruct (constructor_outcome Incident.no_output_dir init_state) as (_ & _ & Hdir).
  split.
  - destruct (Hsoft Scenario.locked) as [H1 H2]; [reflexivity..|].
    by vm_compute.
  - apply Hdir; [by intros e'|reflexivity].
Defined.

(** X24: the one book of the page costs one more request. *)
Lemma detail_fetches_are_not_delayed_witness :
  ∃ recs s',
    extract_books default_config Scenario.bookshop Scenario.priced_url
      (Scenario.document [Scenario.priced_book]) [] init_state = (Ret recs, s')
    ∧ length recs = 1%nat
    ∧ (1 ≤ st_requests s')%nat
    ∧ politeness_waits s' = 0%nat.
Proof.
  destruct (detail_fetches_are_not_delayed default_config Scenario.bookshop
              Scenario.priced_url (Scenario.document [Scenario.priced_book]) [] init_state)
    as (recs & s' & Hrun & Hreq & Hwaits); [cbn; lia|].
  assert (length recs = 1%nat) as Hlen.
  { apply (f_equal (λ p, match p.1 with Ret l => length l | Raise _ => 0%nat end)) in Hrun.
    vm_compute in Hrun. by symmetry. }
  exists recs, s'. split; [exact Hrun|]. split; [exact Hlen|].
  rewrite Hlen in Hreq. split; [exact Hreq|exact Hwaits].
Defined.

(** X25: the products job with a delay of -1. *)
Lemma negative_delay_fails_job_witness :
  ∃ entry s',
    run_scraping_job Incident.hasty Scenario.shop "products" init_state = (Ret false, s')
    ∧ tbl_logs (st_db s') = [entry]
    ∧ field "status" entry = Some (VStr "failed")
    ∧ field "error_message" entry = Some (VStr "sleep length must be non-negative")
    ∧ tbl_products (st_db s') = [].
Proof.
  destruct (negative_delay_fails_job Incident.hasty Scenario.shop "products"
              "https://webscraper.io/test-sites/e-commerce/allinone" [] "<html>shop</html>"
              init_state)
    as (_ & entry & s' & Hrun & Hlogs & Hst & _ & Hmsg & _ & Hproducts);
    [by right|reflexivity|cbn; lia|cbn; lia|reflexivity|discriminate|reflexivity|].
  exists entry, s'. split_and!; [exact Hrun|exact Hlogs|exact Hst|exact Hmsg|exact Hproducts].
Defined.
